(** * The product photo form: selection, upload session and debounced analysis

    A shallow embedding of [src/webapp/static/product-form.js].  The script
    is one closure over a handful of variables ([selectedFiles],
    [analysisController], [analyzing], [analysisTimeout]), a few DOM nodes
    and the browser services it calls (timers, [fetch], object URLs).  Its
    handlers run to completion on a single thread; [runAnalysis] is the only
    coroutine and suspends at its two [await]s.  The embedding makes the
    closure variables, the DOM nodes and the browser services one explicit
    state, each handler a computation on that state, and every event of the
    page (a click, a timer firing, a promise settling) one step. *)

From Stdlib Require Import ZArith NArith List Bool Lia Ascii String.
From Stdlib Require Import DecimalString DecimalPos DecimalZ.
From stdpp Require Import base option list gmap.

Set Warnings "-register-all".
Local Open Scope N_scope.

(** ** JavaScript strings and values *)

(** A JavaScript string is a sequence of UTF-16 code units. *)
Definition jsstring := list N.

(** ASCII literals of the source; other characters are written by their
    code unit. *)
Definition lit (s : string) : jsstring :=
  map N_of_ascii (list_ascii_of_string s).

(** [WhiteSpace] and [LineTerminator] of ECMAScript, the code units that
    [String.prototype.trim] strips. *)
Definition isWhiteSpace (c : N) : bool :=
  ((9 <=? c) && (c <=? 13)) || (c =? 32) || (c =? 160) || (c =? 5760)
  || ((8192 <=? c) && (c <=? 8202)) || (c =? 8232) || (c =? 8233)
  || (c =? 8239) || (c =? 8287) || (c =? 12288) || (c =? 65279).

Fixpoint trimStart (s : jsstring) : jsstring :=
  match s with
  | [] => []
  | c :: r => if isWhiteSpace c then trimStart r else s
  end.

Definition trimEnd (s : jsstring) : jsstring := rev (trimStart (rev s)).

Definition trim (s : jsstring) : jsstring := trimEnd (trimStart s).

(** [s.trim().length === 0] *)
Definition blank (s : jsstring) : bool := Nat.eqb (length (trim s)) 0.

(** Values that [JSON.parse] can produce, and [undefined] for a property
    that is missing.  The script observes a number in two ways only: it
    tests it for truth and it converts it to a string.  A number is
    therefore given by [String(x)], the text ECMAScript's
    [Number::toString] gives for the double: ["0"] for both zeros, ["42"],
    ["0.5"], ["1e+21"]; JSON has no [NaN] and no infinity. *)
Inductive jsval : Type :=
| VUndefined
| VNull
| VBool (b : bool)
| VNum (text : jsstring)
| VStr (s : jsstring)
| VArr (xs : list jsval)
| VObj (kvs : list (jsstring * jsval)).

(** Truthiness, as used by [if (v)], [!v], [v || d] and [filter(Boolean)]. *)
Definition truthy (v : jsval) : bool :=
  match v with
  | VUndefined | VNull => false
  | VBool b => b
  | VNum text => negb (bool_decide (text = lit "0"))
  | VStr s => negb (Nat.eqb (length s) 0)
  | VArr _ | VObj _ => true
  end.

(** [a || b] *)
Definition js_or (a b : jsval) : jsval := if truthy a then a else b.

Fixpoint join_comma (parts : list jsstring) : jsstring :=
  match parts with
  | [] => []
  | [p] => p
  | p :: rest => p ++ lit "," ++ join_comma rest
  end.

(** The digits of an integer [n]: what a template literal gives for a
    count or an index of the script, which are integers far below 2^53
    and so are printed digit by digit. *)
Definition decimal (n : Z) : jsstring := lit (NilZero.string_of_int (Z.to_int n)).

(** [String(v)], which is also the conversion applied when a value is
    assigned to the [value] of a form control. *)
Fixpoint js_String (v : jsval) : jsstring :=
  match v with
  | VUndefined => lit "undefined"
  | VNull => lit "null"
  | VBool true => lit "true"
  | VBool false => lit "false"
  | VNum text => text
  | VStr s => s
  | VArr xs =>
      join_comma
        (map (fun x => match x with
                       | VUndefined | VNull => []
                       | _ => js_String x
                       end) xs)
  | VObj _ => lit "[object Object]"
  end.

(** The last binding of a key wins in [JSON.parse]. *)
Fixpoint lookup_key (k : jsstring) (kvs : list (jsstring * jsval)) : jsval :=
  match kvs with
  | [] => VUndefined
  | (k', v) :: rest =>
      match lookup_key k rest with
      | VUndefined => if bool_decide (k = k') then v else VUndefined
      | found => found
      end
  end.

(** What a script can throw here: [error.name]. *)
Inductive Exn : Type := TypeError | AbortError.

Inductive Result (A : Type) : Type :=
| Ok (a : A)
| Throw (e : Exn).
Arguments Ok {A} a.
Arguments Throw {A} e.

(** [v.k] for the keys the script reads ([status], [message], [session],
    [suggestions] and the five suggestion names): a [TypeError] on [null]
    and [undefined], the own property of an object, [undefined] on the
    other values, none of which has a property of such a name. *)
Definition get_prop (v : jsval) (k : jsstring) : Result jsval :=
  match v with
  | VUndefined | VNull => Throw TypeError
  | VObj kvs => Ok (lookup_key k kvs)
  | _ => Ok VUndefined
  end.

(** [a === b] against a string literal. *)
Definition is_str (v : jsval) (s : jsstring) : bool :=
  match v with
  | VStr s' => bool_decide (s' = s)
  | _ => false
  end.

(** ** The page *)

(** A [File]: the script reads nothing of it but its [size]. *)
Record File : Type := { file_name : jsstring; file_size : N }.

(** An element of [selectedFiles]: [{ id, file, previewUrl }].  An object
    URL is modelled by the number the browser gave it; as a string
    ([blob:...]) it is never empty, hence always truthy. *)
Record Entry : Type := { entry_id : jsstring; file : File; previewUrl : N }.

(** A form control: its tag, its current [value], for a [<select>] the
    values of its [<option>]s, and the value sanitization algorithm of the
    control, which says what its value is once a string has been assigned
    to it: the string itself for a hidden input, the string without its
    line breaks for a text input, the string with its line breaks
    normalized for a [<textarea>]. *)
Record Element : Type :=
  { tagName : jsstring; value : jsstring; options : list jsstring;
    sanitize : jsstring -> jsstring }.

(** The five controls [applySuggestions] looks up with [querySelector],
    [None] for one the page does not have. *)
Record Form : Type :=
  { sn : option Element;
    asset_tag : option Element;
    description : option Element;
    subcategory : option Element;
    cod_destiny : option Element }.

(** A thumbnail of the strip: the image source and label, and the id its
    Remove button passes to [removeFile]. *)
Record Thumb : Type :=
  { thumb_src : N; thumb_alt : jsstring; thumb_id : jsstring }.

(** A request that [runAnalysis] has sent and whose coroutine has not
    finished: it waits for [fetch] ([Fetching]) or, the response headers
    received, for [response.json()] ([Reading ok], with [response.ok]).
    [req_aborted] is the state of its [AbortSignal]. *)
Inductive Phase : Type := Fetching | Reading (ok : bool).

Record Request : Type :=
  { req_url : jsstring;
    req_photos : list File;
    req_aborted : bool;
    req_phase : Phase }.

(** The variables of the closure.  A controller is identified by the
    request whose signal it owns, a timer by the handle [setTimeout]
    returned (a positive integer, so [if (analysisTimeout)] tests for
    [null]). *)
Record Vars : Type :=
  { selectedFiles : list Entry;
    analysisController : option nat;
    analyzing : bool;
    analysisTimeout : option nat }.

(** The DOM nodes the script writes: the [value] of the hidden session
    input (a hidden input keeps the string it is assigned as it is), the
    text and [data-tone] of the status element, the [files] of the native
    file input, the [hidden] flag of the clear button ([None] when the
    page has none), the thumbnails and the form controls. *)
Record Dom : Type :=
  { sessionInput : jsstring;
    statusText : jsstring;
    statusTone : option jsstring;
    fileInput : list File;
    clearButton : option bool;
    strip : list Thumb;
    fields : Form }.

(** The browser services: the clock (milliseconds), the pending timers with
    the time each is due, the unfinished requests, the object URLs that are
    live, and counters for the calls of [generateId], [fileInput.click()]
    and [console.error]. *)
Record Host : Type :=
  { now : N;
    timers : gmap nat N;
    next_timer : nat;
    requests : gmap nat Request;
    next_request : nat;
    objectURLs : gset N;
    next_url : N;
    id_calls : nat;
    picker_opened : nat;
    console_errors : nat }.

Record State : Type := { js : Vars; doc : Dom; env : Host }.

(** What is fixed when the script starts: whether [window.DataTransfer]
    exists, the text of the status element, the ids [generateId] yields
    (its k-th call returns [uuids k], whichever of its two branches runs), the data attributes of the
    form, and which optional buttons exist. *)
Record Page : Type :=
  { hasDataTransfer : bool;
    initialStatus : jsstring;
    uuids : nat -> jsstring;
    pickupNumber : jsstring;
    palletNumber : jsstring;
    hasTrigger : bool;
    hasClearButton : bool;
    initialSession : jsstring;
    initialFields : Form }.

Definition MAX_FILES : nat := 10.
Definition MAX_TOTAL_BYTES : N := 25 * 1024 * 1024.
Definition defaultStatus (page : Page) : jsstring := trim (initialStatus page).

(** *** Field updates *)

Definition upd_js (f : Vars -> Vars) (s : State) : State :=
  {| js := f (js s); doc := doc s; env := env s |}.
Definition upd_doc (f : Dom -> Dom) (s : State) : State :=
  {| js := js s; doc := f (doc s); env := env s |}.
Definition upd_env (f : Host -> Host) (s : State) : State :=
  {| js := js s; doc := doc s; env := f (env s) |}.

Definition set_selectedFiles (v : list Entry) : State -> State :=
  upd_js (fun x => {| selectedFiles := v; analysisController := analysisController x;
                      analyzing := analyzing x; analysisTimeout := analysisTimeout x |}).
Definition set_analysisController (v : option nat) : State -> State :=
  upd_js (fun x => {| selectedFiles := selectedFiles x; analysisController := v;
                      analyzing := analyzing x; analysisTimeout := analysisTimeout x |}).
Definition set_analyzing (v : bool) : State -> State :=
  upd_js (fun x => {| selectedFiles := selectedFiles x; analysisController := analysisController x;
                      analyzing := v; analysisTimeout := analysisTimeout x |}).
Definition set_analysisTimeout (v : option nat) : State -> State :=
  upd_js (fun x => {| selectedFiles := selectedFiles x; analysisController := analysisController x;
                      analyzing := analyzing x; analysisTimeout := v |}).

Definition set_sessionInput (v : jsstring) : State -> State :=
  upd_doc (fun x => {| sessionInput := v; statusText := statusText x; statusTone := statusTone x;
                       fileInput := fileInput x; clearButton := clearButton x;
                       strip := strip x; fields := fields x |}).
Definition set_status (text : jsstring) (tone : option jsstring) : State -> State :=
  upd_doc (fun x => {| sessionInput := sessionInput x; statusText := text; statusTone := tone;
                       fileInput := fileInput x; clearButton := clearButton x;
                       strip := strip x; fields := fields x |}).
Definition set_fileInput (v : list File) : State -> State :=
  upd_doc (fun x => {| sessionInput := sessionInput x; statusText := statusText x;
                       statusTone := statusTone x; fileInput := v; clearButton := clearButton x;
                       strip := strip x; fields := fields x |}).
Definition set_clearButton (v : option bool) : State -> State :=
  upd_doc (fun x => {| sessionInput := sessionInput x; statusText := statusText x;
                       statusTone := statusTone x; fileInput := fileInput x; clearButton := v;
                       strip := strip x; fields := fields x |}).
Definition set_strip (v : list Thumb) : State -> State :=
  upd_doc (fun x => {| sessionInput := sessionInput x; statusText := statusText x;
                       statusTone := statusTone x; fileInput := fileInput x;
                       clearButton := clearButton x; strip := v; fields := fields x |}).
Definition set_fields (v : Form) : State -> State :=
  upd_doc (fun x => {| sessionInput := sessionInput x; statusText := statusText x;
                       statusTone := statusTone x; fileInput := fileInput x;
                       clearButton := clearButton x; strip := strip x; fields := v |}).

Definition set_now (v : N) : State -> State :=
  upd_env (fun x => {| now := v; timers := timers x; next_timer := next_timer x;
                       requests := requests x; next_request := next_request x;
                       objectURLs := objectURLs x; next_url := next_url x;
                       id_calls := id_calls x; picker_opened := picker_opened x;
                       console_errors := console_errors x |}).
Definition set_timers (v : gmap nat N) (nt : nat) : State -> State :=
  upd_env (fun x => {| now := now x; timers := v; next_timer := nt;
                       requests := requests x; next_request := next_request x;
                       objectURLs := objectURLs x; next_url := next_url x;
                       id_calls := id_calls x; picker_opened := picker_opened x;
                       console_errors := console_errors x |}).
Definition set_requests (v : gmap nat Request) (nr : nat) : State -> State :=
  upd_env (fun x => {| now := now x; timers := timers x; next_timer := next_timer x;
                       requests := v; next_request := nr;
                       objectURLs := objectURLs x; next_url := next_url x;
                       id_calls := id_calls x; picker_opened := picker_opened x;
                       console_errors := console_errors x |}).
Definition set_objectURLs (v : gset N) (nu : N) : State -> State :=
  upd_env (fun x => {| now := now x; timers := timers x; next_timer := next_timer x;
                       requests := requests x; next_request := next_request x;
                       objectURLs := v; next_url := nu;
                       id_calls := id_calls x; picker_opened := picker_opened x;
                       console_errors := console_errors x |}).
Definition set_id_calls (v : nat) : State -> State :=
  upd_env (fun x => {| now := now x; timers := timers x; next_timer := next_timer x;
                       requests := requests x; next_request := next_request x;
                       objectURLs := objectURLs x; next_url := next_url x;
                       id_calls := v; picker_opened := picker_opened x;
                       console_errors := console_errors x |}).
Definition set_picker_opened (v : nat) : State -> State :=
  upd_env (fun x => {| now := now x; timers := timers x; next_timer := next_timer x;
                       requests := requests x; next_request := next_request x;
                       objectURLs := objectURLs x; next_url := next_url x;
                       id_calls := id_calls x; picker_opened := v;
                       console_errors := console_errors x |}).
Definition set_console_errors (v : nat) : State -> State :=
  upd_env (fun x => {| now := now x; timers := timers x; next_timer := next_timer x;
                       requests := requests x; next_request := next_request x;
                       objectURLs := objectURLs x; next_url := next_url x;
                       id_calls := id_calls x; picker_opened := picker_opened x;
                       console_errors := v |}).

Definition set_sn (v : option Element) (f : Form) : Form :=
  {| sn := v; asset_tag := asset_tag f; description := description f;
     subcategory := subcategory f; cod_destiny := cod_destiny f |}.
Definition set_asset_tag (v : option Element) (f : Form) : Form :=
  {| sn := sn f; asset_tag := v; description := description f;
     subcategory := subcategory f; cod_destiny := cod_destiny f |}.
Definition set_description (v : option Element) (f : Form) : Form :=
  {| sn := sn f; asset_tag := asset_tag f; description := v;
     subcategory := subcategory f; cod_destiny := cod_destiny f |}.
Definition set_subcategory (v : option Element) (f : Form) : Form :=
  {| sn := sn f; asset_tag := asset_tag f; description := description f;
     subcategory := v; cod_destiny := cod_destiny f |}.
Definition set_cod_destiny (v : option Element) (f : Form) : Form :=
  {| sn := sn f; asset_tag := asset_tag f; description := description f;
     subcategory := subcategory f; cod_destiny := v |}.

(** ** Computations: state and exceptions *)

(** A piece of script changes the state and either returns or throws; what
    it changed before it threw stays changed. *)
Definition M (A : Type) : Type := State -> Result A * State.

Definition ret {A} (a : A) : M A := fun s => (Ok a, s).
Definition throw {A} (e : Exn) : M A := fun s => (Throw e, s).
Definition bind {A B} (m : M A) (k : A -> M B) : M B :=
  fun s => match m s with
           | (Ok a, s') => k a s'
           | (Throw e, s') => (Throw e, s')
           end.
Definition modify (f : State -> State) : M unit := fun s => (Ok tt, f s).
Definition gets {A} (f : State -> A) : M A := fun s => (Ok (f s), s).
Definition liftR {A} (r : Result A) : M A := fun s => (r, s).

Declare Scope js_scope.
Delimit Scope js_scope with js.
Notation "x <- c ;; k" := (bind c (fun x => k))
  (at level 100, c at next level, right associativity) : js_scope.
Notation "c ;; k" := (bind c (fun _ => k))
  (at level 100, right associativity) : js_scope.
Local Open Scope js_scope.

(** [l.forEach(f)] *)
Fixpoint forEach {A} (l : list A) (f : A -> M unit) : M unit :=
  match l with
  | [] => ret tt
  | x :: rest => f x ;; forEach rest f
  end.

(** [try { body } catch (error) { handler(error) } finally { fin }] *)
Definition try_catch_finally (body : M unit) (handler : Exn -> M unit)
    (fin : State -> State) : M unit :=
  fun s => match body s with
           | (Ok _, s') => (Ok tt, fin s')
           | (Throw e, s') => let (r, s'') := handler e s' in (r, fin s'')
           end.

(** The state a listener leaves: an exception it does not catch is reported
    by the browser and undoes nothing. *)
Definition exec (m : M unit) (s : State) : State := snd (m s).

(** *** Browser services *)

Definition setTimeout (delay : N) : M nat :=
  fun s => let t := next_timer (env s) in
           (Ok t, set_timers (<[t := now (env s) + delay]> (timers (env s))) (S t) s).

Definition clearTimeout (t : nat) : M unit :=
  modify (fun s => set_timers (delete t (timers (env s))) (next_timer (env s)) s).

Definition createObjectURL (f : File) : M N :=
  fun s => let h := next_url (env s) in
           (Ok h, set_objectURLs ({[h]} ∪ objectURLs (env s)) (h + 1) s).

Definition revokeObjectURL (h : N) : M unit :=
  modify (fun s => set_objectURLs (objectURLs (env s) ∖ {[h]}) (next_url (env s)) s).

(** [controller.abort()]: the signal of the request is set; a request that
    has already finished is not affected. *)
Definition abort (r : nat) : M unit :=
  modify (fun s =>
    match requests (env s) !! r with
    | Some q =>
        set_requests
          (<[r := {| req_url := req_url q; req_photos := req_photos q;
                     req_aborted := true; req_phase := req_phase q |}]> (requests (env s)))
          (next_request (env s)) s
    | None => s
    end).

(** [fetch(url, { method: "POST", body, signal })] *)
Definition fetch (url : jsstring) (photos : list File) : M nat :=
  fun s => let r := next_request (env s) in
           (Ok r,
            set_requests
              (<[r := {| req_url := url; req_photos := photos;
                         req_aborted := false; req_phase := Fetching |}]> (requests (env s)))
              (S r) s).

(** Assigning to [element.value]: a [<select>] selects the option of that
    value, or none (its value is then empty); any other control takes the
    string as its value sanitization algorithm leaves it. *)
Definition assign_value (el : Element) (v : jsstring) : Element :=
  {| tagName := tagName el;
     value := if bool_decide (tagName el = lit "SELECT")
              then (if bool_decide (v ∈ options el) then v else [])
              else sanitize el v;
     options := options el;
     sanitize := sanitize el |}.

(** ** The script *)

Section Script.

Variable page : Page.

(** The k-th call returns [uuids page k], be it [crypto.randomUUID()] or
    the time-and-random fallback. *)
Definition generateId : M jsstring :=
  fun s => (Ok (uuids page (id_calls (env s))), set_id_calls (S (id_calls (env s))) s).

Definition revokeAllPreviews : M unit :=
  files <- gets (fun s => selectedFiles (js s)) ;;
  forEach files (fun item => revokeObjectURL (previewUrl item)).

Definition showStatus (message : jsval) (tone : jsstring) : M unit :=
  text <- (if truthy message then
             match message with
             | VStr m => ret (if blank m then defaultStatus page else m)
             | _ => throw TypeError
             end
           else ret (defaultStatus page)) ;;
  modify (set_status text (if Nat.eqb (length tone) 0 then None else Some tone)).

Definition updateClearButton : M unit :=
  modify (fun s =>
    match clearButton (doc s) with
    | None => s
    | Some _ => set_clearButton (Some (Nat.eqb (length (selectedFiles (js s))) 0)) s
    end).

Definition syncFileInput : M unit :=
  if negb (hasDataTransfer page) then ret tt
  else modify (fun s => set_fileInput (map file (selectedFiles (js s))) s).

Definition clearSession : M unit := modify (set_sessionInput []).

Definition renderStrip : M unit :=
  modify (set_strip []) ;;
  files <- gets (fun s => selectedFiles (js s)) ;;
  if Nat.eqb (length files) 0 then ret tt
  else
    modify (set_strip
      (imap (fun index item =>
               {| thumb_src := previewUrl item;
                  thumb_alt := lit "Product photo " ++ decimal (Z.of_nat index + 1);
                  thumb_id := entry_id item |}) files)).

Definition totalBytes (s : State) : N :=
  fold_left (fun sum entry => sum + file_size (file entry)) (selectedFiles (js s)) 0.

Definition queueAnalysis : M unit :=
  pending <- gets (fun s => analysisTimeout (js s)) ;;
  match pending with
  | Some t => clearTimeout t
  | None => ret tt
  end ;;
  t <- setTimeout 350 ;;
  modify (set_analysisTimeout (Some t)).

(** [if (analysisTimeout) { window.clearTimeout(analysisTimeout);
    analysisTimeout = null; }], which four handlers share. *)
Definition cancelPendingTimer : M unit :=
  pending <- gets (fun s => analysisTimeout (js s)) ;;
  match pending with
  | Some t => clearTimeout t ;; modify (set_analysisTimeout None)
  | None => ret tt
  end.

Definition removeFile (id : jsstring) : M unit :=
  files <- gets (fun s => selectedFiles (js s)) ;;
  match list_find (fun entry => entry_id entry = id) files with
  | None => ret tt
  | Some (index, removed) =>
      modify (set_selectedFiles (delete index files)) ;;
      revokeObjectURL (previewUrl removed) ;;
      clearSession ;;
      syncFileInput ;;
      renderStrip ;;
      updateClearButton ;;
      rest <- gets (fun s => selectedFiles (js s)) ;;
      if negb (Nat.eqb (length rest) 0) then queueAnalysis
      else
        cancelPendingTimer ;;
        showStatus (VStr (defaultStatus page)) []
  end.

(** The callback of [incoming.forEach] in [handleFiles]:
    [selectedFiles.push({ id: generateId(), file, previewUrl:
    URL.createObjectURL(file) })]. *)
Definition pushFile (f : File) : M unit :=
  id <- generateId ;;
  url <- createObjectURL f ;;
  modify (fun s =>
    set_selectedFiles
      (selectedFiles (js s) ++ [{| entry_id := id; file := f; previewUrl := url |}]) s).

(** [Array.from(fileList || []).filter(Boolean)] *)
Definition incoming_of (fileList : option (list (option File))) : list File :=
  omap (fun f => f) (default [] fileList).

Definition handleFiles (fileList : option (list (option File))) : M unit :=
  let incoming := incoming_of fileList in
  if Nat.eqb (length incoming) 0 then ret tt
  else
    count <- gets (fun s => length (selectedFiles (js s))) ;;
    let newCount := (count + length incoming)%nat in
    if (MAX_FILES <? newCount)%nat then
      showStatus
        (VStr (lit "Limit " ++ decimal (Z.of_nat MAX_FILES)
               ++ lit " photos per product. Remove some before adding more."))
        (lit "error")
    else
      let incomingBytes := fold_left (fun sum f => sum + file_size f) incoming 0 in
      total <- gets totalBytes ;;
      if MAX_TOTAL_BYTES <? total + incomingBytes then
        showStatus
          (VStr (lit "Images exceed the 25 MB limit. Remove large files before retrying."))
          (lit "error")
      else
        forEach incoming pushFile ;;
        clearSession ;;
        syncFileInput ;;
        renderStrip ;;
        updateClearButton ;;
        queueAnalysis.

Definition gentlySetValue (element : option Element) (v : jsval) : option Element :=
  match element with
  | None => None
  | Some el =>
      if negb (truthy v) then Some el
      else if bool_decide (tagName el = lit "SELECT") then
        let stringValue := js_String v in
        if bool_decide (stringValue ∈ options el)
        then Some (assign_value el stringValue)
        else Some el
      else if blank (value el) then Some (assign_value el (js_String v))
      else Some el
  end.

Definition upd_fields (f : Form -> Form) : M unit :=
  modify (fun s => set_fields (f (fields (doc s))) s).

Definition applySuggestions (arg : jsval) : M unit :=
  let suggestions := match arg with VUndefined => VObj [] | _ => arg end in
  serial <- liftR (get_prop suggestions (lit "serial_number")) ;;
  upd_fields (fun f => set_sn (gentlySetValue (sn f) serial) f) ;;
  tag <- liftR (get_prop suggestions (lit "asset_tag")) ;;
  upd_fields (fun f => set_asset_tag (gentlySetValue (asset_tag f) tag) f) ;;
  descriptionField <- gets (fun s => description (fields (doc s))) ;;
  match descriptionField with
  | None => ret tt
  | Some el =>
      short <- liftR (get_prop suggestions (lit "short_description")) ;;
      if truthy short && blank (value el)
      then upd_fields (set_description (Some (assign_value el (js_String short))))
      else ret tt
  end ;;
  sub <- liftR (get_prop suggestions (lit "subcategory")) ;;
  upd_fields (fun f => set_subcategory (gentlySetValue (subcategory f) sub) f) ;;
  destinationField <- gets (fun s => cod_destiny (fields (doc s))) ;;
  match destinationField with
  | None => ret tt
  | Some _ =>
      dest <- liftR (get_prop suggestions (lit "cod_destiny")) ;;
      match dest with
      | VNull | VUndefined => ret tt
      | _ => upd_fields (fun f => set_cod_destiny (gentlySetValue (cod_destiny f) dest) f)
      end
  end.

(** *** [runAnalysis]

    The coroutine is cut at its two [await]s.  [runAnalysis] is the part
    that runs when it is called, up to [await fetch(...)]; [afterJson] is
    the rest of the [try] block once [response.json().catch(() => ({}))]
    has given [payload]; [catchBlock] and [finallyBlock] are the two
    other blocks. *)

Definition analyzeUrl : jsstring :=
  lit "/pickups/" ++ pickupNumber page ++ lit "/pallets/" ++ palletNumber page
  ++ lit "/products/analyze".

Definition runAnalysis : M unit :=
  files <- gets (fun s => selectedFiles (js s)) ;;
  if Nat.eqb (length files) 0 then ret tt
  else
    cancelPendingTimer ;;
    controller <- gets (fun s => analysisController (js s)) ;;
    match controller with
    | Some c => abort c
    | None => ret tt
    end ;;
    r <- gets (fun s => next_request (env s)) ;;
    modify (set_analysisController (Some r)) ;;
    modify (set_analyzing true) ;;
    showStatus (VStr (lit "Analyzing photos" ++ [8230])) (lit "progress") ;;
    formData <- gets (fun s => map file (selectedFiles (js s))) ;;
    _ <- fetch analyzeUrl formData ;;
    ret tt.

Definition afterJson (response_ok : bool) (payload : jsval) : M unit :=
  failed <- (if negb response_ok then ret true
             else status <- liftR (get_prop payload (lit "status")) ;;
                  ret (negb (is_str status (lit "ok")))) ;;
  if (failed : bool) then
    m <- liftR (get_prop payload (lit "message")) ;;
    let message :=
      js_or m (VStr (lit "Photo analysis failed. Please submit manually or retry.")) in
    clearSession ;;
    showStatus message (lit "error")
  else
    session <- liftR (get_prop payload (lit "session")) ;;
    modify (set_sessionInput (js_String (js_or session (VStr [])))) ;;
    suggestions <- liftR (get_prop payload (lit "suggestions")) ;;
    applySuggestions (js_or suggestions (VObj [])) ;;
    showStatus
      (VStr (lit "Suggestions ready" ++ [8212] ++ lit "review and adjust if needed."))
      (lit "success").

Definition catchBlock (error : Exn) : M unit :=
  match error with
  | AbortError => ret tt
  | _ =>
      modify (fun s => set_console_errors (S (console_errors (env s))) s) ;;
      clearSession ;;
      showStatus (VStr (lit "Network error while analyzing photos. Please retry."))
        (lit "error")
  end.

Definition finallyBlock (s : State) : State :=
  set_analysisController None (set_analyzing false s).

(** *** Listeners *)

Definition onTriggerClick : M unit :=
  busy <- gets (fun s => analyzing (js s)) ;;
  if (busy : bool) then ret tt
  else modify (fun s => set_picker_opened (S (picker_opened (env s))) s).

Definition onChange (files : list File) : M unit :=
  handleFiles (Some (map Some files)).

Definition onClearClick : M unit :=
  cancelPendingTimer ;;
  revokeAllPreviews ;;
  modify (set_selectedFiles []) ;;
  clearSession ;;
  syncFileInput ;;
  renderStrip ;;
  updateClearButton ;;
  showStatus (VStr (lit "Photos cleared. Add new photos to try again.")) (lit "info").

Definition onSubmit : M unit :=
  token <- gets (fun s => sessionInput (doc s)) ;;
  if negb (Nat.eqb (length token) 0) then modify (set_fileInput [])
  else syncFileInput.

Definition onReset : M unit :=
  cancelPendingTimer ;;
  revokeAllPreviews ;;
  modify (set_selectedFiles []) ;;
  clearSession ;;
  showStatus (VStr (defaultStatus page)) [] ;;
  updateClearButton ;;
  modify (set_strip []).

(** ** The event loop *)

(** What can reach an unfinished request: [fetch] fulfils with a response,
    [fetch] rejects (a network failure, a [TypeError]), [response.json()]
    settles with the parsed body or rejects ([None]), or the abort of its
    signal rejects the promise it is waiting for with an [AbortError]. *)
Inductive Arrival : Type :=
| FetchFulfilled (ok : bool)
| FetchRejected
| JsonSettled (body : option jsval)
| AbortSignalled.

Inductive Event : Type :=
| Change (files : list File)
| RemoveClick (id : jsstring)
| ClearClick
| TriggerClick
| Submit
| Reset
| Tick (d : N)
| TimerFires (t : nat)
| Settles (r : nat) (a : Arrival).

(** The coroutine of request [r] runs [rest] to the end of its [try] block,
    then [catch] and [finally], and is gone. *)
Definition finish (r : nat) (rest : M unit) (s : State) : State :=
  exec (try_catch_finally rest catchBlock finallyBlock)
       (set_requests (delete r (requests (env s))) (next_request (env s)) s).

(** A request whose signal is not aborted settles as the network decides.
    Once aborted, the promise it waits for rejects with an [AbortError]:
    that of [fetch] goes to the [catch] block, that of [response.json()]
    is swallowed by its [.catch(() => ({}))]. *)
Definition settle (r : nat) (a : Arrival) (s : State) : option State :=
  match requests (env s) !! r with
  | None => None
  | Some q =>
      match req_aborted q, req_phase q, a with
      | false, Fetching, FetchFulfilled ok =>
          Some (set_requests
                  (<[r := {| req_url := req_url q; req_photos := req_photos q;
                             req_aborted := false; req_phase := Reading ok |}]>
                     (requests (env s)))
                  (next_request (env s)) s)
      | false, Fetching, FetchRejected => Some (finish r (throw TypeError) s)
      | false, Reading ok, JsonSettled body =>
          Some (finish r (afterJson ok (default (VObj []) body)) s)
      | true, Fetching, AbortSignalled => Some (finish r (throw AbortError) s)
      | true, Reading ok, AbortSignalled => Some (finish r (afterJson ok (VObj [])) s)
      | _, _, _ => None
      end
  end.

(** One event of the page; [None] when it cannot happen in this state (a
    click on a button that is not there, a timer that is not pending or not
    yet due, an arrival for no request).  A [Change] is the user closing
    the native chooser with [files], which the browser has put in the
    file input by then. *)
Definition step (s : State) (e : Event) : option State :=
  match e with
  | Change files => Some (exec (onChange files) (set_fileInput files s))
  | RemoveClick id =>
      if bool_decide (id ∈ map thumb_id (strip (doc s)))
      then Some (exec (removeFile id) s) else None
  | ClearClick =>
      match clearButton (doc s) with
      | Some _ => Some (exec onClearClick s)
      | None => None
      end
  | TriggerClick => if hasTrigger page then Some (exec onTriggerClick s) else None
  | Submit => Some (exec onSubmit s)
  | Reset => Some (exec onReset s)
  | Tick d => Some (set_now (now (env s) + d) s)
  | TimerFires t =>
      match timers (env s) !! t with
      | Some due =>
          if due <=? now (env s)
          then Some (exec runAnalysis
                       (set_timers (delete t (timers (env s))) (next_timer (env s)) s))
          else None
      | None => None
      end
  | Settles r a => settle r a s
  end.

Fixpoint run (s : State) (trace : list Event) : option State :=
  match trace with
  | [] => Some s
  | e :: rest =>
      match step s e with
      | Some s' => run s' rest
      | None => None
      end
  end.

(** The state once the script has run: nothing selected, no timer, no
    request, and [updateClearButton()] called once. *)
Definition init : State :=
  exec updateClearButton
    {| js := {| selectedFiles := []; analysisController := None;
                analyzing := false; analysisTimeout := None |};
       doc := {| sessionInput := initialSession page;
                 statusText := initialStatus page;
                 statusTone := None;
                 fileInput := [];
                 clearButton := if hasClearButton page then Some false else None;
                 strip := [];
                 fields := initialFields page |};
       env := {| now := 0; timers := ∅; next_timer := 1;
                 requests := ∅; next_request := 0;
                 objectURLs := ∅; next_url := 0;
                 id_calls := 0; picker_opened := 0; console_errors := 0 |} |}.

End Script.

(** ** Vocabulary of the properties *)

(** *** Suggestions *)

(** The five controls by name. *)
Inductive FieldName : Type :=
| SerialNumber | AssetTag | Description | Subcategory | Destination.

Definition control (n : FieldName) (f : Form) : option Element :=
  match n with
  | SerialNumber => sn f
  | AssetTag => asset_tag f
  | Description => description f
  | Subcategory => subcategory f
  | Destination => cod_destiny f
  end.

Definition is_select (el : Element) : bool :=
  bool_decide (tagName el = lit "SELECT").

(** [o.k] where [o] is known not to be [null]. *)
Definition prop (o : jsval) (k : jsstring) : jsval :=
  match o with
  | VObj kvs => lookup_key k kvs
  | _ => VUndefined
  end.

(** The form [applySuggestions(o)] leaves, control by control. *)
Definition applied (o : jsval) (f : Form) : Form :=
  {| sn := gentlySetValue (sn f) (prop o (lit "serial_number"));
     asset_tag := gentlySetValue (asset_tag f) (prop o (lit "asset_tag"));
     description :=
       match description f with
       | Some el =>
           if truthy (prop o (lit "short_description")) && blank (value el)
           then Some (assign_value el (js_String (prop o (lit "short_description"))))
           else Some el
       | None => None
       end;
     subcategory := gentlySetValue (subcategory f) (prop o (lit "subcategory"));
     cod_destiny :=
       match prop o (lit "cod_destiny") with
       | VNull | VUndefined => cod_destiny f
       | dest => gentlySetValue (cod_destiny f) dest
       end |}.

(** What a payload can do to the control of a given name. *)
Definition kept_or_filled (n : FieldName) (el el' : Element) : Prop :=
  tagName el' = tagName el /\ options el' = options el
  /\ (blank (value el) = false -> n = Description \/ is_select el = false -> el' = el)
  /\ (value el' <> value el ->
      blank (value el) = true
      \/ (n <> Description /\ is_select el = true /\ value el' ∈ options el)).

(** *** The selection store *)

(** The entries [handleFiles] appends for [incoming] when [k] ids and [h]
    object URLs have been handed out so far. *)
Fixpoint new_entries (page : Page) (k : nat) (h : N) (incoming : list File) : list Entry :=
  match incoming with
  | [] => []
  | f :: rest =>
      {| entry_id := uuids page k; file := f; previewUrl := h |}
      :: new_entries page (S k) (h + 1) rest
  end.

(** The [n] object URLs handed out from [h] on. *)
Fixpoint handles (h : N) (n : nat) : gset N :=
  match n with
  | O => ∅
  | S m => {[h]} ∪ handles (h + 1) m
  end.

(** The state after the [forEach] of [handleFiles]. *)
Definition pushed (page : Page) (incoming : list File) (s : State) : State :=
  set_selectedFiles
    (selectedFiles (js s) ++ new_entries page (id_calls (env s)) (next_url (env s)) incoming)
    (set_id_calls (id_calls (env s) + length incoming)%nat
       (set_objectURLs (handles (next_url (env s)) (length incoming) ∪ objectURLs (env s))
          (next_url (env s) + N.of_nat (length incoming)) s)).

Definition bytes_of (files : list File) : N :=
  fold_left (fun sum f => sum + file_size f) files 0.

(** The prospective state of [handleFiles] breaks a limit. *)
Definition exceeds_limits (s : State) (incoming : list File) : Prop :=
  (MAX_FILES < length (selectedFiles (js s)) + length incoming)%nat
  \/ MAX_TOTAL_BYTES < totalBytes s + bytes_of incoming.

(** The store as the script keeps it: within both limits, every id the
    result of a call of [generateId] of its own, every live object URL one
    that was handed out. *)
Record store_ok (page : Page) (s : State) : Prop :=
  { ok_count : (length (selectedFiles (js s)) <= MAX_FILES)%nat;
    ok_bytes : totalBytes s <= MAX_TOTAL_BYTES;
    ok_ids : exists ks, map entry_id (selectedFiles (js s)) = map (uuids page) ks
                        /\ NoDup ks /\ Forall (fun k => (k < id_calls (env s))%nat) ks;
    ok_urls : forall h, h ∈ objectURLs (env s) -> h < next_url (env s) }.

(** The state [queueAnalysis] leaves: the pending timer, if any, cleared
    and a new one due in 350 ms. *)
Definition queued (s : State) : State :=
  let t := next_timer (env s) in
  set_analysisTimeout (Some t)
    (set_timers
       (<[t := now (env s) + 350]>
          (match analysisTimeout (js s) with
           | Some old => delete old (timers (env s))
           | None => timers (env s)
           end))
       (S t) s).

(** The states that [clearSession(); syncFileInput(); renderStrip();
    updateClearButton()] leave, step by step and together. *)
Definition synced (page : Page) (s : State) : State :=
  if hasDataTransfer page then set_fileInput (map file (selectedFiles (js s))) s else s.

Definition rendered (s : State) : State :=
  set_strip
    (imap (fun index item =>
             {| thumb_src := previewUrl item;
                thumb_alt := lit "Product photo " ++ decimal (Z.of_nat index + 1);
                thumb_id := entry_id item |}) (selectedFiles (js s))) s.

Definition button_updated (s : State) : State :=
  match clearButton (doc s) with
  | None => s
  | Some _ => set_clearButton (Some (Nat.eqb (length (selectedFiles (js s))) 0)) s
  end.

Definition refreshed (page : Page) (s : State) : State :=
  button_updated (rendered (synced page (set_sessionInput [] s))).

(** The state [cancelPendingTimer] leaves. *)
Definition cancelled (s : State) : State :=
  match analysisTimeout (js s) with
  | Some t =>
      set_analysisTimeout None
        (set_timers (delete t (timers (env s))) (next_timer (env s)) s)
  | None => s
  end.

(** The state [revokeAllPreviews] leaves. *)
Definition revoked_all (s : State) : State :=
  set_objectURLs
    (objectURLs (env s) ∖ list_to_set (map previewUrl (selectedFiles (js s))))
    (next_url (env s)) s.

(** The store and the object URLs after [removeFile] has spliced out the
    entry at [index]. *)
Definition spliced (index : nat) (removed : Entry) (s : State) : State :=
  set_objectURLs (objectURLs (env s) ∖ {[previewUrl removed]}) (next_url (env s))
    (set_selectedFiles (delete index (selectedFiles (js s))) s).

(** The state [runAnalysis] leaves when it sends a request: the controller
    it held aborted, a new request [r] in flight under a new controller. *)
Definition abort_held (s : State) : State :=
  match analysisController (js s) with
  | Some c => snd (abort c s)
  | None => s
  end.

Definition sent (page : Page) (s : State) : State :=
  let r := next_request (env s) in
  set_requests
    (<[r := {| req_url := analyzeUrl page;
               req_photos := map file (selectedFiles (js s));
               req_aborted := false;
               req_phase := Fetching |}]> (requests (env s)))
    (S r)
    (set_status (lit "Analyzing photos" ++ [8230]) (Some (lit "progress"))
       (set_analyzing true (set_analysisController (Some r) s))).

(** *** The end of a request *)

(** Request [r] is no longer awaited. *)
Definition dropped (r : nat) (s : State) : State :=
  set_requests (delete r (requests (env s))) (next_request (env s)) s.

(** The state the [catch] block leaves for an error that is not an abort. *)
Definition network_failed (s : State) : State :=
  set_status (lit "Network error while analyzing photos. Please retry.")
    (Some (lit "error"))
    (set_sessionInput [] (set_console_errors (S (console_errors (env s))) s)).

(** [!response.ok || payload.status !== "ok"] for a payload that is not
    [null]. *)
Definition failing (ok : bool) (payload : jsval) : bool :=
  negb ok || negb (is_str (prop payload (lit "status")) (lit "ok")).

Definition is_nullish (v : jsval) : bool :=
  match v with
  | VNull | VUndefined => true
  | _ => false
  end.

(** The text the status line shows after a failing response. *)
Definition failure_text (page : Page) (payload : jsval) : jsstring :=
  if is_nullish payload
  then lit "Network error while analyzing photos. Please retry."
  else
    match prop payload (lit "message") with
    | VStr m =>
        if Nat.eqb (length m) 0
        then lit "Photo analysis failed. Please submit manually or retry."
        else if blank m then defaultStatus page else m
    | other =>
        if truthy other
        then lit "Network error while analyzing photos. Please retry."
        else lit "Photo analysis failed. Please submit manually or retry."
    end.

(** The state the [try] block leaves after a successful response. *)
Definition suggestions_shown (payload : jsval) (s : State) : State :=
  set_status
    (lit "Suggestions ready" ++ [8212] ++ lit "review and adjust if needed.")
    (Some (lit "success"))
    (set_fields
       (applied (js_or (prop payload (lit "suggestions")) (VObj [])) (fields (doc s)))
       (set_sessionInput (js_String (js_or (prop payload (lit "session")) (VStr []))) s)).

(** *** Scheduling *)

(** What the store is made of: its entries, the number of ids generated,
    the live object URLs and the next one. *)
Definition store_view (s : State) : list Entry * nat * gset N * N :=
  (selectedFiles (js s), id_calls (env s), objectURLs (env s), next_url (env s)).

(** Two states agree on the store, on the timers and on the counters of
    timers and requests. *)
Definition same_schedule (s s' : State) : Prop :=
  selectedFiles (js s') = selectedFiles (js s)
  /\ analysisTimeout (js s') = analysisTimeout (js s)
  /\ timers (env s') = timers (env s)
  /\ next_timer (env s') = next_timer (env s)
  /\ now (env s') = now (env s)
  /\ next_request (env s') = next_request (env s)
  /\ store_view s' = store_view s.

(** What the script knows and the browser holds of timers: the variable
    [analysisTimeout], the pending timers, the next handle. *)
Definition tview (s : State) : option nat * gmap nat N * nat :=
  (analysisTimeout (js s), timers (env s), next_timer (env s)).

(** The state in which the callback of timer [t] starts: [t] is no longer
    pending. *)
Definition fired (t : nat) (s : State) : State :=
  set_timers (delete t (timers (env s))) (next_timer (env s)) s.

(** The discipline of the timers: the only timer that can be pending is
    the one [analysisTimeout] names, and that one was handed out. *)
Definition timers_ok (s : State) : Prop :=
  (forall t due, timers (env s) !! t = Some due -> analysisTimeout (js s) = Some t)
  /\ (forall t, analysisTimeout (js s) = Some t -> (t < next_timer (env s))%nat).

(** What an event does to the timers. *)
Definition schedule_effect (s s' : State) : Prop :=
  tview s' = tview s
  \/ tview s' = tview (cancelled s)
  \/ (tview s' = tview (queued s) /\ selectedFiles (js s') <> []).

(** Timer [t] is not pending and its handle is spent: it cannot fire. *)
Definition spent (t : nat) (s : State) : Prop :=
  timers (env s) !! t = None /\ (t < next_timer (env s))%nat.

(** No pending timer is due before [bound]. *)
Definition none_due_before (bound : N) (s : State) : Prop :=
  forall t due, timers (env s) !! t = Some due -> bound <= due.

(** A timer event. *)
Definition is_TimerFires (e : Event) : Prop :=
  match e with
  | TimerFires _ => True
  | _ => False
  end.

(** What tells that an analysis is under way: the flag, the controller
    held, the requests not finished. *)
Definition marker_view (s : State) : bool * option nat * gmap nat Request :=
  (analyzing (js s), analysisController (js s), requests (env s)).

(** While [analyzing] is set, the controller held is that of a request
    that is awaited and not aborted. *)
Definition marker_ok (s : State) : Prop :=
  analyzing (js s) = true ->
  exists r q, analysisController (js s) = Some r
              /\ requests (env s) !! r = Some q /\ req_aborted q = false.

(** *** The view and the resources *)

(** The thumbnails [renderStrip] builds for the entries of the store. *)
Definition thumbnails (files : list Entry) : list Thumb :=
  imap (fun index item =>
          {| thumb_src := previewUrl item;
             thumb_alt := lit "Product photo " ++ decimal (Z.of_nat index + 1);
             thumb_id := entry_id item |}) files.

(** The values [showStatus] gives to [data-tone]: none, or one of four. *)
Definition tones : list (option jsstring) :=
  [None; Some (lit "error"); Some (lit "progress"); Some (lit "success"); Some (lit "info")].

(** A request as [runAnalysis] sends it: to the endpoint of the pallet,
    with at least one photo and within the limits of the store. *)
Definition request_ok (page : Page) (q : Request) : Prop :=
  req_url q = analyzeUrl page
  /\ req_photos q <> []
  /\ (length (req_photos q) <= MAX_FILES)%nat
  /\ bytes_of (req_photos q) <= MAX_TOTAL_BYTES.

(** What the page shows and holds agrees with the store: the live object
    URLs are those of the entries, one each; the strip and the clear button
    show the store; a timer is pending only for a store that is not empty;
    the requests are well formed; the tone is a known one. *)
Record view_ok (page : Page) (s : State) : Prop :=
  { previews_live :
      objectURLs (env s) = list_to_set (map previewUrl (selectedFiles (js s)));
    previews_distinct : NoDup (map previewUrl (selectedFiles (js s)));
    strip_mirrors : strip (doc s) = thumbnails (selectedFiles (js s));
    button_mirrors :
      clearButton (doc s)
      = if hasClearButton page
        then Some (Nat.eqb (length (selectedFiles (js s))) 0) else None;
    pending_nonempty :
      forall t due, timers (env s) !! t = Some due -> selectedFiles (js s) <> [];
    requests_sized :
      forall r q, requests (env s) !! r = Some q -> request_ok page q;
    tone_known : statusTone (doc s) ∈ tones }.

(** *** A page to run the script on *)

(** The value sanitization algorithm of [<input type="text">]: line feeds
    and carriage returns are stripped. *)
Definition strip_line_breaks (text : jsstring) : jsstring :=
  filter (fun c => c <> 10 /\ c <> 13) text.

Definition text_input (v : jsstring) : Element :=
  {| tagName := lit "INPUT"; value := v; options := [];
     sanitize := strip_line_breaks |}.

Definition select_of (v : jsstring) (opts : list jsstring) : Element :=
  {| tagName := lit "SELECT"; value := v; options := opts;
     sanitize := fun text => text |}.

(** A page with a serial number input, a description and a subcategory
    [<select>] that shows ["A"]; ids are [id0], [id1], ... *)
Definition sample_page (dataTransfer : bool) : Page :=
  {| hasDataTransfer := dataTransfer;
     initialStatus := lit " Add photos to get suggestions. ";
     uuids := fun k => lit "id" ++ decimal (Z.of_nat k);
     pickupNumber := lit "7";
     palletNumber := lit "3";
     hasTrigger := true;
     hasClearButton := true;
     initialSession := [];
     initialFields :=
       {| sn := Some (text_input []);
          asset_tag := None;
          description := Some (text_input []);
          subcategory := Some (select_of (lit "A") [lit "A"; lit "B"]);
          cod_destiny := None |} |}.

(** A photo of [mib] MiB. *)
Definition photo (name : string) (mib : N) : File :=
  {| file_name := lit name; file_size := mib * 1024 * 1024 |}.

(** A response body [{ status, session, suggestions: { serial_number } }]. *)
Definition body_ok (session serial : string) : jsval :=
  VObj [(lit "status", VStr (lit "ok"));
        (lit "session", VStr (lit session));
        (lit "suggestions", VObj [(lit "serial_number", VStr (lit serial))])].

(** The requests whose signal is not aborted: those the network still
    serves. *)
Definition in_flight (s : State) : gset nat :=
  dom (filter (fun kv => req_aborted (snd kv) = false) (requests (env s))).

(** Three photos are chosen and analysed; one is removed while the first
    request is awaited, so a second request supersedes the first, whose
    [fetch] rejects with an [AbortError] as soon as the timer callback has
    returned. *)
Definition superseding_trace : list Event :=
  [Change [photo "a" 2; photo "b" 2; photo "c" 2]; Tick 350; TimerFires 1;
   RemoveClick (lit "id0"); Tick 350; TimerFires 2;
   Settles 0 AbortSignalled].

(** Then another photo is removed while the second request is awaited, and
    a third request is sent. *)
Definition third_request_trace : list Event :=
  superseding_trace ++ [RemoveClick (lit "id1"); Tick 350; TimerFires 3].

(** Photos are chosen in two batches, analysed once, and one is removed
    while a second analysis is scheduled. *)
Definition busy_trace : list Event :=
  [Change [photo "a" 2; photo "b" 3]; Tick 350; TimerFires 1;
   Settles 0 (FetchFulfilled true);
   Settles 0 (JsonSettled (Some (body_ok "abc" "SN1")));
   Change [photo "c" 4]; Tick 100; RemoveClick (lit "id0")].

(** The five names [applySuggestions] reads of a payload. *)
Definition suggestion_keys : list jsstring :=
  [lit "serial_number"; lit "asset_tag"; lit "short_description";
   lit "subcategory"; lit "cod_destiny"].

(** A form whose destination is a [<select>] that shows nothing. *)
Definition with_destination (s : State) : State :=
  set_fields (set_cod_destiny (Some (select_of [] [lit "0"; lit "1"])) (fields (doc s))) s.

(** The bytes of a list of files: the sum of their sizes. *)
Fixpoint total_size (files : list File) : N :=
  match files with
  | [] => 0
  | f :: rest => file_size f + total_size rest
  end.

(** The limits as the specification gives them: the files [stored] with
    the files [incoming] would be more than 10 photos, or more than
    25 MiB. *)
Definition over_limits (stored incoming : list File) : Prop :=
  (10 < length stored + length incoming)%nat
  \/ 25 * 1024 * 1024 < total_size stored + total_size incoming.

(** Every id of the store is the result of a call of [generateId] of its
    own. *)
Definition ids_generated (page : Page) (s : State) : Prop :=
  exists ks, map entry_id (selectedFiles (js s)) = map (uuids page) ks
             /\ NoDup ks /\ Forall (fun k => (k < id_calls (env s))%nat) ks.

(** Every live object URL is one the browser has handed out. *)
Definition urls_handed_out (s : State) : Prop :=
  forall h, h ∈ objectURLs (env s) -> h < next_url (env s).

(** The sample page with an id generator that gives the same id again:
    the fallback of [generateId] within one millisecond, when
    [Math.random()] gives the same six digits twice. *)
Definition repeating_page : Page :=
  {| hasDataTransfer := true;
     initialStatus := initialStatus (sample_page true);
     uuids := fun _ => lit "19a2b3c4d5e-8f3a1c";
     pickupNumber := pickupNumber (sample_page true);
     palletNumber := palletNumber (sample_page true);
     hasTrigger := true;
     hasClearButton := true;
     initialSession := [];
     initialFields := initialFields (sample_page true) |}.

(** * Properties *)

Ltac run_m := cbv [bind ret modify gets liftR throw exec] in *.

Arguments lit : simpl never.

Lemma state_eq (a b : State) : js a = js b -> doc a = doc b -> env a = env b -> a = b.
Proof. destruct a, b; simpl; congruence. Qed.

(** ** Strings *)

Lemma trimStart_all_ws s : forallb isWhiteSpace s = true -> trimStart s = [].
Proof.
  induction s as [|c r IH]; simpl; [reflexivity|].
  destruct (isWhiteSpace c); simpl; [exact IH | discriminate].
Qed.

Lemma trimStart_not_ws s c r : trimStart s = c :: r -> isWhiteSpace c = false.
Proof.
  induction s as [|d t IH]; simpl; [discriminate|].
  destruct (isWhiteSpace d) eqn:E; [exact IH|].
  intros H. injection H as -> _. exact E.
Qed.

Lemma trimStart_suffix s : exists p, s = p ++ trimStart s /\ forallb isWhiteSpace p = true.
Proof.
  induction s as [|c r [p [Hp Hw]]]; simpl.
  - exists []. split; reflexivity.
  - destruct (isWhiteSpace c) eqn:E.
    + exists (c :: p). simpl. rewrite E, Hw. split; [congruence | reflexivity].
    + exists []. split; reflexivity.
Qed.

(** A string is blank exactly when all its code units are white space. *)
Lemma blank_forallb s : blank s = forallb isWhiteSpace s.
Proof.
  unfold blank, trim, trimEnd. rewrite length_rev.
  destruct (trimStart_suffix s) as [p [Hp Hw]].
  destruct (trimStart s) as [|c r] eqn:E.
  - simpl. rewrite app_nil_r in Hp. subst p. symmetry. exact Hw.
  - pose proof (trimStart_not_ws _ _ _ E) as Hc.
    assert (Hs : forallb isWhiteSpace s = false).
    { rewrite Hp, forallb_app. simpl. rewrite Hc, andb_false_r. reflexivity. }
    rewrite Hs.
    destruct (trimStart (rev (c :: r))) as [|d t] eqn:E'; [|reflexivity].
    exfalso. destruct (trimStart_suffix (rev (c :: r))) as [q [Hq Hwq]].
    rewrite E', app_nil_r in Hq. subst q.
    assert (Hin : In c (rev (c :: r))) by (apply in_rev; rewrite rev_involutive; left; reflexivity).
    rewrite forallb_forall in Hwq. specialize (Hwq c Hin). congruence.
Qed.

Lemma blank_nil : blank [] = true.
Proof. reflexivity. Qed.

(** ** The status line *)

(** With a string, [showStatus] never throws; a blank one shows the default
    text. *)
Lemma showStatus_str page m tone s :
  showStatus page (VStr m) tone s =
  (Ok tt, set_status (if blank m then defaultStatus page else m)
            (if Nat.eqb (length tone) 0 then None else Some tone) s).
Proof.
  unfold showStatus. destruct m as [|c m]; [reflexivity|].
  cbn [truthy length Nat.eqb negb]. run_m. reflexivity.
Qed.

(** ** The suggestion applier *)

Lemma applySuggestions_run arg s :
  arg <> VNull ->
  applySuggestions arg s = (Ok tt, set_fields (applied arg (fields (doc s))) s).
Proof.
  intros Hnull. destruct s as [j [se st to fi cb sp [f1 f2 f3 f4 f5]] e].
  unfold applySuggestions, applied, upd_fields.
  destruct arg; try congruence; cbn [get_prop prop]; run_m;
    cbn [fields doc description cod_destiny set_fields upd_doc set_sn set_asset_tag
         set_subcategory sn asset_tag subcategory sessionInput statusText statusTone
         fileInput clearButton strip js env];
    try (destruct f3 as [el3|]; destruct f5 as [el5|]; cbn; reflexivity).
  all: set (short := lookup_key (lit "short_description") kvs);
       set (dest := lookup_key (lit "cod_destiny") kvs).
  all: destruct f3 as [el3|]; [destruct (truthy short && blank (value el3))|];
       destruct f5 as [el5|]; try destruct dest; reflexivity.
Qed.

Lemma applySuggestions_null s : applySuggestions VNull s = (Throw TypeError, s).
Proof. reflexivity. Qed.

(** What [gentlySetValue] can do to a control. *)
Lemma gentlySetValue_cases el v :
  exists el', gentlySetValue (Some el) v = Some el'
    /\ tagName el' = tagName el /\ options el' = options el
    /\ (el' = el
        \/ (is_select el = false /\ blank (value el) = true
            /\ value el' = sanitize el (js_String v))
        \/ (is_select el = true /\ value el' = js_String v /\ js_String v ∈ options el)).
Proof.
  unfold gentlySetValue, is_select.
  destruct (truthy v); cbn [negb]; [|exists el; auto].
  destruct (bool_decide (tagName el = lit "SELECT")) eqn:Hsel.
  - destruct (bool_decide (js_String v ∈ options el)) eqn:Hin; [|exists el; auto].
    eexists; split; [reflexivity|]. split; [reflexivity|]. split; [reflexivity|].
    right; right. split; [reflexivity|]. apply bool_decide_eq_true in Hin. split; [|exact Hin].
    unfold assign_value. cbn [value]. rewrite Hsel. rewrite bool_decide_eq_true_2 by exact Hin.
    reflexivity.
  - destruct (blank (value el)) eqn:Hb; [|exists el; auto].
    eexists; split; [reflexivity|]. split; [reflexivity|]. split; [reflexivity|].
    right; left. split; [reflexivity|]. split; [reflexivity|].
    unfold assign_value. cbn [value]. rewrite Hsel. reflexivity.
Qed.

Lemma gentlySetValue_guard el v el' :
  gentlySetValue (Some el) v = Some el' ->
  tagName el' = tagName el /\ options el' = options el
  /\ (blank (value el) = false -> is_select el = false -> el' = el)
  /\ (value el' <> value el ->
      blank (value el) = true \/ (is_select el = true /\ value el' ∈ options el)).
Proof.
  intros H. destruct (gentlySetValue_cases el v) as (x & Hx & Ht & Ho & Hc).
  rewrite Hx in H. injection H as ->.
  split; [exact Ht|]. split; [exact Ho|]. split.
  - intros Hb Hs. destruct Hc as [?|[(_ & Hb' & _)|(Hs' & _)]]; [assumption|congruence|congruence].
  - intros Hne. destruct Hc as [->|[(_ & Hb' & _)|(Hs' & Hv & Hin)]].
    + congruence.
    + left; exact Hb'.
    + right. split; [exact Hs'|]. rewrite Hv. exact Hin.
Qed.

Lemma kept_or_filled_refl n el : kept_or_filled n el el.
Proof. unfold kept_or_filled. repeat split; auto; congruence. Qed.

Lemma kept_or_filled_gently n el v el' :
  n <> Description -> gentlySetValue (Some el) v = Some el' -> kept_or_filled n el el'.
Proof.
  intros Hn Hx. destruct (gentlySetValue_guard _ _ _ Hx) as (Ht & Ho & Hk & Hw).
  split; [exact Ht|]. split; [exact Ho|]. split.
  - intros Hb [?|Hs]; [congruence | auto].
  - intros Hne. destruct (Hw Hne) as [?|[? ?]]; [left; assumption | right; auto].
Qed.

Lemma applied_control n o f el :
  control n f = Some el ->
  exists el', control n (applied o f) = Some el' /\ kept_or_filled n el el'.
Proof.
  intros Hc.
  assert (Hg : forall v, n <> Description ->
            exists el', gentlySetValue (Some el) v = Some el' /\ kept_or_filled n el el').
  { intros v Hn. destruct (gentlySetValue_cases el v) as (x & Hx & _).
    exists x. split; [exact Hx | exact (kept_or_filled_gently _ _ _ _ Hn Hx)]. }
  destruct n; simpl in Hc; simpl; rewrite Hc.
  - apply Hg; discriminate.
  - apply Hg; discriminate.
  - destruct (truthy (prop o (lit "short_description")) && blank (value el)) eqn:Hcond.
    + apply andb_true_iff in Hcond as [_ Hb].
      eexists; split; [reflexivity|].
      split; [reflexivity|]. split; [reflexivity|]. split.
      * intros Hnb; congruence.
      * intros _; left; exact Hb.
    + exists el. split; [reflexivity | apply kept_or_filled_refl].
  - apply Hg; discriminate.
  - destruct (prop o (lit "cod_destiny"));
      first [ apply Hg; discriminate
            | exists el; split; [reflexivity | apply kept_or_filled_refl] ].
Qed.

(** C1, as amended.  Applying any suggestion payload keeps every control
    that the form has, with its tag and options.  A control whose value is
    not blank keeps its value, unless it is a [<select>] reached through
    [gentlySetValue] (serial number, asset tag, subcategory, destination):
    such a control takes a suggested value that is one of its options,
    whatever it showed before.  So a value changes only on a blank control
    or on such a [<select>]. *)
Theorem applySuggestions_keeps_entered_values n arg s el :
  control n (fields (doc s)) = Some el ->
  exists el',
    control n (fields (doc (exec (applySuggestions arg) s))) = Some el'
    /\ tagName el' = tagName el /\ options el' = options el
    /\ (blank (value el) = false -> n = Description \/ is_select el = false -> el' = el)
    /\ (value el' <> value el ->
        blank (value el) = true
        \/ (n <> Description /\ is_select el = true /\ value el' ∈ options el)).
Proof.
  intros Hc. unfold exec. destruct arg.
  2: { rewrite applySuggestions_null. cbn [snd]. exists el.
       split; [exact Hc | apply kept_or_filled_refl]. }
  all: rewrite applySuggestions_run by discriminate;
    cbn [snd set_fields upd_doc doc fields];
    apply applied_control; exact Hc.
Qed.

(** A [<select>] that shows ["A"] takes the suggested ["B"]. *)
Lemma applySuggestions_keeps_entered_values_witness :
  exists el',
    control Subcategory
      (fields (doc (exec (applySuggestions (VObj [(lit "subcategory", VStr (lit "B"))]))
                         (init (sample_page true))))) = Some el'
    /\ value el' = lit "B".
Proof.
  destruct (applySuggestions_keeps_entered_values Subcategory
              (VObj [(lit "subcategory", VStr (lit "B"))])
              (init (sample_page true))
              (select_of (lit "A") [lit "A"; lit "B"]) eq_refl) as (el' & H & _).
  exists el'. split; [exact H|].
  vm_compute in H. injection H as <-. reflexivity.
Defined.

(** C1 as stated fails: the subcategory [<select>] of the sample page shows
    ["A"], which is not blank, and [applySuggestions({subcategory: "B"})]
    changes it to ["B"]. *)
Lemma applySuggestions_overwrites_select :
  let s := init (sample_page true) in
  let s' := exec (applySuggestions (VObj [(lit "subcategory", VStr (lit "B"))])) s in
  control Subcategory (fields (doc s)) = Some (select_of (lit "A") [lit "A"; lit "B"])
  /\ blank (lit "A") = false
  /\ control Subcategory (fields (doc s')) = Some (select_of (lit "B") [lit "A"; lit "B"]).
Proof. vm_compute. repeat split. Qed.

(** ** Running the handlers *)


Lemma pushed_nil page s : pushed page [] s = s.
Proof.
  apply state_eq; [ | reflexivity | ].
  - destruct s as [[] ? ?]. cbn. rewrite app_nil_r. reflexivity.
  - destruct s as [? ? []]. cbn. rewrite Nat.add_0_r, N.add_0_r, (left_id_L ∅ (∪)). reflexivity.
Qed.

Lemma pushed_cons page f rest s :
  pushed page rest (snd (pushFile page f s)) = pushed page (f :: rest) s.
Proof.
  apply state_eq; [ | reflexivity | ].
  - cbn. rewrite <- app_assoc. reflexivity.
  - cbn. f_equal; try lia.
    rewrite (assoc_L (∪)). f_equal. apply (comm_L (∪)).
Qed.

Lemma pushLoop_run page incoming : forall s,
  forEach incoming (pushFile page) s = (Ok tt, pushed page incoming s).
Proof.
  induction incoming as [|f rest IH]; intros s.
  - cbn [forEach]. unfold ret. rewrite pushed_nil. reflexivity.
  - cbn [forEach]. unfold bind.
    destruct (pushFile page f s) as [r s1] eqn:E.
    assert (Hr : r = Ok tt) by (change r with (fst (r, s1)); rewrite <- E; reflexivity).
    subst r. rewrite IH.
    change s1 with (snd (Ok tt, s1)). rewrite <- E. rewrite pushed_cons. reflexivity.
Qed.

Lemma fold_left_add {A} (g : A -> N) l : forall a,
  fold_left (fun sum x => sum + g x) l a = a + fold_left (fun sum x => sum + g x) l 0.
Proof.
  induction l as [|x r IH]; intros a; simpl; [lia|].
  rewrite (IH (a + g x)), (IH (0 + g x)). lia.
Qed.

Lemma new_entries_file page incoming : forall k h,
  map file (new_entries page k h incoming) = incoming.
Proof. induction incoming as [|f r IH]; intros; simpl; [|rewrite IH]; reflexivity. Qed.

Lemma new_entries_id page incoming : forall k h,
  map entry_id (new_entries page k h incoming) = map (uuids page) (seq k (length incoming)).
Proof. induction incoming as [|f r IH]; intros; simpl; [|rewrite IH]; reflexivity. Qed.

Lemma new_entries_length page incoming : forall k h,
  length (new_entries page k h incoming) = length incoming.
Proof. induction incoming as [|f r IH]; intros; simpl; [|rewrite IH]; reflexivity. Qed.

Lemma elem_of_handles n : forall h x, x ∈ handles h n <-> h <= x < h + N.of_nat n.
Proof.
  induction n as [|n IH]; intros h x; simpl.
  - rewrite elem_of_empty. lia.
  - rewrite elem_of_union, elem_of_singleton, IH. lia.
Qed.

Lemma new_entries_url page incoming : forall k h e,
  e ∈ new_entries page k h incoming -> previewUrl e ∈ handles h (length incoming).
Proof.
  induction incoming as [|f r IH]; intros k h e; simpl.
  - intros H. inversion H.
  - intros H. apply elem_of_cons in H as [->|H]; simpl.
    + apply elem_of_union_l, elem_of_singleton. reflexivity.
    + apply elem_of_union_r. eapply IH. exact H.
Qed.

Lemma new_entries_url_NoDup page incoming : forall k h,
  NoDup (map previewUrl (new_entries page k h incoming)).
Proof.
  induction incoming as [|f r IH]; intros k h; simpl; constructor.
  - intros Hin. apply list_elem_of_fmap in Hin as (e & He & Hin).
    apply new_entries_url in Hin. apply elem_of_handles in Hin. simpl in He. lia.
  - apply IH.
Qed.

Lemma totalBytes_app (l1 : list Entry) l2 :
  fold_left (fun sum entry => sum + file_size (file entry)) (l1 ++ l2) 0 =
  fold_left (fun sum entry => sum + file_size (file entry)) l1 0
  + fold_left (fun sum entry => sum + file_size (file entry)) l2 0.
Proof. rewrite fold_left_app. apply (fold_left_add (fun e => file_size (file e))). Qed.

Lemma bytes_new_entries page incoming : forall k h,
  fold_left (fun sum entry => sum + file_size (file entry)) (new_entries page k h incoming) 0
  = bytes_of incoming.
Proof.
  unfold bytes_of. induction incoming as [|f r IH]; intros k h; simpl; [reflexivity|].
  rewrite (fold_left_add (fun e => file_size (file e))), (fold_left_add file_size), IH.
  reflexivity.
Qed.


Lemma bind_Ok {A B} (m : M A) (k : A -> M B) s a s' :
  m s = (Ok a, s') -> bind m k s = k a s'.
Proof. intros H. unfold bind. rewrite H. reflexivity. Qed.

Lemma queueAnalysis_run s : queueAnalysis s = (Ok tt, queued s).
Proof.
  unfold queueAnalysis, queued, clearTimeout, setTimeout. run_m.
  destruct (analysisTimeout (js s)) eqn:E; cbn; reflexivity.
Qed.

Lemma syncFileInput_run page s : syncFileInput page s = (Ok tt, synced page s).
Proof. unfold syncFileInput, synced. destruct (hasDataTransfer page); reflexivity. Qed.

Lemma renderStrip_run s : renderStrip s = (Ok tt, rendered s).
Proof.
  unfold renderStrip, rendered. run_m. cbn [js set_strip upd_doc].
  destruct (selectedFiles (js s)) eqn:E; cbn [length Nat.eqb]; reflexivity.
Qed.

Lemma updateClearButton_run s : updateClearButton s = (Ok tt, button_updated s).
Proof. reflexivity. Qed.

Lemma clearSession_run s : clearSession s = (Ok tt, set_sessionInput [] s).
Proof. reflexivity. Qed.

Create HintDb run discriminated.
#[local] Hint Resolve showStatus_str queueAnalysis_run syncFileInput_run renderStrip_run
  updateClearButton_run clearSession_run : run.

(** One step of a computation: the first action of a sequence is run by
    its equation. *)
Ltac mstep := erewrite bind_Ok by first [ solve [eauto 2 with run nocore] | reflexivity ].

Lemma handleFiles_eq page fl s :
  handleFiles page fl s =
  let incoming := incoming_of fl in
  if Nat.eqb (length incoming) 0 then (Ok tt, s)
  else if (MAX_FILES <? length (selectedFiles (js s)) + length incoming)%nat then
    showStatus page
      (VStr (lit "Limit " ++ decimal (Z.of_nat MAX_FILES)
             ++ lit " photos per product. Remove some before adding more."))
      (lit "error") s
  else if MAX_TOTAL_BYTES <? totalBytes s + bytes_of incoming then
    showStatus page
      (VStr (lit "Images exceed the 25 MB limit. Remove large files before retrying."))
      (lit "error") s
  else (Ok tt, queued (refreshed page (pushed page incoming s))).
Proof.
  unfold handleFiles. cbv zeta.
  destruct (Nat.eqb (length (incoming_of fl)) 0); [reflexivity|].
  mstep.
  destruct (_ <? _)%nat; [reflexivity|].
  mstep. fold (bytes_of (incoming_of fl)).
  destruct (_ <? _)%N; [reflexivity|].
  erewrite bind_Ok by apply pushLoop_run.
  repeat mstep. apply queueAnalysis_run.
Qed.

Lemma cancelPendingTimer_run s : cancelPendingTimer s = (Ok tt, cancelled s).
Proof.
  unfold cancelPendingTimer, cancelled, clearTimeout. run_m.
  destruct (analysisTimeout (js s)); reflexivity.
Qed.

Lemma revokeLoop_run (l : list Entry) : forall s,
  forEach l (fun item => revokeObjectURL (previewUrl item)) s =
  (Ok tt, set_objectURLs (objectURLs (env s) ∖ list_to_set (map previewUrl l))
            (next_url (env s)) s).
Proof.
  induction l as [|e r IH]; intros s.
  - cbn [forEach map list_to_set]. unfold ret. f_equal.
    apply state_eq; [reflexivity | reflexivity |].
    destruct s as [? ? []]. cbn. rewrite difference_empty_L. reflexivity.
  - cbn [forEach map list_to_set].
    erewrite bind_Ok by reflexivity. rewrite IH. f_equal.
    apply state_eq; [reflexivity | reflexivity |].
    cbn. rewrite difference_difference_l_L. reflexivity.
Qed.

Lemma revokeAllPreviews_run s : revokeAllPreviews s = (Ok tt, revoked_all s).
Proof.
  unfold revokeAllPreviews. erewrite bind_Ok by reflexivity. apply revokeLoop_run.
Qed.

#[local] Hint Resolve cancelPendingTimer_run revokeAllPreviews_run : run.

Lemma removeFile_eq page id s :
  removeFile page id s =
  match list_find (fun entry => entry_id entry = id) (selectedFiles (js s)) with
  | None => (Ok tt, s)
  | Some (index, removed) =>
      let s1 := refreshed page (spliced index removed s) in
      if negb (Nat.eqb (length (selectedFiles (js s1))) 0) then (Ok tt, queued s1)
      else (Ok tt, set_status (if blank (defaultStatus page) then defaultStatus page
                               else defaultStatus page) None (cancelled s1))
  end.
Proof.
  unfold removeFile. mstep.
  destruct (list_find _ _) as [[index removed]|]; [|reflexivity].
  repeat mstep. cbv zeta.
  change (set_sessionInput [] _) with
    (set_sessionInput [] (spliced index removed s)).
  fold (synced page (set_sessionInput [] (spliced index removed s))).
  destruct (negb _).
  - apply queueAnalysis_run.
  - mstep. apply showStatus_str.
Qed.

Lemma onClearClick_eq page s :
  onClearClick page s =
  (Ok tt,
   set_status (lit "Photos cleared. Add new photos to try again.") (Some (lit "info"))
     (refreshed page (set_selectedFiles [] (revoked_all (cancelled s))))).
Proof.
  unfold onClearClick. repeat mstep. rewrite showStatus_str. reflexivity.
Qed.

Lemma onReset_eq page s :
  onReset page s =
  (Ok tt,
   set_strip []
     (button_updated
        (set_status (if blank (defaultStatus page) then defaultStatus page
                     else defaultStatus page) None
           (set_sessionInput [] (set_selectedFiles [] (revoked_all (cancelled s))))))).
Proof.
  unfold onReset. repeat mstep. reflexivity.
Qed.

Lemma abort_held_run s :
  match analysisController (js s) with
  | Some c => abort c
  | None => ret tt
  end s = (Ok tt, abort_held s).
Proof. unfold abort_held. destruct (analysisController (js s)); reflexivity. Qed.

Lemma runAnalysis_eq page s :
  runAnalysis page s =
  if Nat.eqb (length (selectedFiles (js s))) 0 then (Ok tt, s)
  else (Ok tt, sent page (abort_held (cancelled s))).
Proof.
  unfold runAnalysis. mstep.
  destruct (Nat.eqb _ 0); [reflexivity|].
  repeat mstep. erewrite bind_Ok by apply abort_held_run.
  repeat mstep. reflexivity.
Qed.

Lemma onSubmit_eq page s :
  onSubmit page s =
  (Ok tt, if negb (Nat.eqb (length (sessionInput (doc s))) 0)
          then set_fileInput [] s else synced page s).
Proof.
  unfold onSubmit. mstep. destruct (negb _); [reflexivity | apply syncFileInput_run].
Qed.

Lemma onTriggerClick_eq s :
  onTriggerClick s =
  (Ok tt, if analyzing (js s) then s
          else set_picker_opened (S (picker_opened (env s))) s).
Proof. unfold onTriggerClick. mstep. destruct (analyzing (js s)); reflexivity. Qed.


(** ** What the pieces leave alone *)

Lemma refreshed_js page s : js (refreshed page s) = js s.
Proof.
  unfold refreshed, button_updated, rendered, synced.
  destruct (hasDataTransfer page); cbn; destruct (clearButton (doc s)); reflexivity.
Qed.

Lemma refreshed_env page s : env (refreshed page s) = env s.
Proof.
  unfold refreshed, button_updated, rendered, synced.
  destruct (hasDataTransfer page); cbn; destruct (clearButton (doc s)); reflexivity.
Qed.

Lemma refreshed_doc page s :
  sessionInput (doc (refreshed page s)) = []
  /\ statusText (doc (refreshed page s)) = statusText (doc s)
  /\ statusTone (doc (refreshed page s)) = statusTone (doc s)
  /\ fields (doc (refreshed page s)) = fields (doc s)
  /\ fileInput (doc (refreshed page s)) =
     (if hasDataTransfer page then map file (selectedFiles (js s)) else fileInput (doc s)).
Proof.
  unfold refreshed, button_updated, rendered, synced.
  destruct (hasDataTransfer page); cbn; destruct (clearButton (doc s)); cbn; auto.
Qed.

Lemma queued_store s : selectedFiles (js (queued s)) = selectedFiles (js s).
Proof. reflexivity. Qed.

Lemma queued_doc s : doc (queued s) = doc s.
Proof. reflexivity. Qed.

Lemma cancelled_store s : selectedFiles (js (cancelled s)) = selectedFiles (js s).
Proof. unfold cancelled. destruct (analysisTimeout (js s)); reflexivity. Qed.

Lemma cancelled_doc s : doc (cancelled s) = doc s.
Proof. unfold cancelled. destruct (analysisTimeout (js s)); reflexivity. Qed.

(** ** Adding files *)

Lemma NoDup_map_inj {A B} (f : A -> B) (l : list A) :
  (forall i j, f i = f j -> i = j) -> NoDup l -> NoDup (map f l).
Proof.
  intros Hinj Hnd. induction Hnd as [|x l Hx Hnd IH]; simpl; constructor; [|exact IH].
  intros Hin. apply list_elem_of_fmap in Hin as (y & Hy & Hin).
  apply Hinj in Hy. subst y. contradiction.
Qed.

Lemma pushed_store_ok page incoming s :
  store_ok page s -> ~ exceeds_limits s incoming -> store_ok page (pushed page incoming s).
Proof.
  intros [Hc Hb (ks & Hks & Hnd & Hlt) Hu] Hex.
  unfold exceeds_limits in Hex.
  constructor.
  - cbn. rewrite length_app, new_entries_length. lia.
  - unfold totalBytes. cbn. rewrite totalBytes_app, bytes_new_entries.
    unfold totalBytes in Hex. lia.
  - exists (ks ++ seq (id_calls (env s)) (length incoming)). cbn.
    rewrite !map_app, new_entries_id, Hks. split; [reflexivity|]. split.
    + apply NoDup_app. split; [exact Hnd|]. split; [|apply NoDup_seq].
      intros k Hk Hk'. rewrite Forall_forall in Hlt. apply Hlt in Hk.
      apply elem_of_seq in Hk'. lia.
    + apply Forall_app. split.
      * eapply Forall_impl; [exact Hlt|]. cbn. intros; lia.
      * apply Forall_forall. intros k Hk. apply elem_of_seq in Hk. lia.
  - cbn. intros h Hh. apply elem_of_union in Hh as [Hh|Hh].
    + apply elem_of_handles in Hh. lia.
    + apply Hu in Hh. lia.
Qed.

Lemma store_ok_ext page s s' :
  selectedFiles (js s') = selectedFiles (js s) ->
  id_calls (env s') = id_calls (env s) ->
  objectURLs (env s') = objectURLs (env s) ->
  next_url (env s') = next_url (env s) ->
  store_ok page s -> store_ok page s'.
Proof.
  intros Hs Hi Ho Hn [Hc Hb Hids Hu]. constructor.
  - rewrite Hs; exact Hc.
  - unfold totalBytes in *. rewrite Hs; exact Hb.
  - rewrite Hs, Hi; exact Hids.
  - rewrite Ho, Hn; exact Hu.
Qed.

Lemma init_store_ok page : store_ok page (init page).
Proof.
  unfold init, exec, updateClearButton, modify. cbn [snd doc clearButton].
  destruct (hasClearButton page); constructor; cbn; try (unfold MAX_FILES; lia);
    try (unfold MAX_TOTAL_BYTES; lia);
    try (exists []; repeat split; constructor);
    try (intros h Hh; apply elem_of_empty in Hh; contradiction).
Qed.

(** ** The end of a request *)

Lemma catchBlock_abort page s : catchBlock page AbortError s = (Ok tt, s).
Proof. reflexivity. Qed.

Lemma catchBlock_type page s : catchBlock page TypeError s = (Ok tt, network_failed s).
Proof. unfold catchBlock. repeat mstep. rewrite showStatus_str. reflexivity. Qed.

(** The coroutine never lets an exception out: its promise never rejects. *)
Lemma coroutine_never_throws page rest s :
  fst (try_catch_finally rest (catchBlock page) finallyBlock s) = Ok tt.
Proof.
  unfold try_catch_finally. destruct (rest s) as [[[]|e] s']; [reflexivity|].
  destruct e; [rewrite catchBlock_type | rewrite catchBlock_abort]; reflexivity.
Qed.

Lemma finish_eq page r rest s :
  finish page r rest s =
  finallyBlock
    (match rest (dropped r s) with
     | (Ok _, s') => s'
     | (Throw TypeError, s') => network_failed s'
     | (Throw AbortError, s') => s'
     end).
Proof.
  unfold finish, exec, try_catch_finally. fold (dropped r s).
  destruct (rest (dropped r s)) as [[[]|e] s']; [reflexivity|].
  destruct e; [rewrite catchBlock_type | rewrite catchBlock_abort]; reflexivity.
Qed.

Lemma afterJson_nullish page ok payload s :
  is_nullish payload = true -> afterJson page ok payload s = (Throw TypeError, s).
Proof.
  intros H. unfold afterJson. destruct payload; try discriminate; destruct ok; reflexivity.
Qed.

Lemma get_prop_prop payload k s :
  is_nullish payload = false -> liftR (get_prop payload k) s = (Ok (prop payload k), s).
Proof. intros H. destruct payload; try discriminate; reflexivity. Qed.

Lemma failed_run ok payload s :
  is_nullish payload = false ->
  (if negb ok then ret true
   else status <- liftR (get_prop payload (lit "status")) ;;
        ret (negb (is_str status (lit "ok")))) s
  = (Ok (failing ok payload), s).
Proof.
  intros Hn. unfold failing. destruct ok; cbn [negb orb]; [|reflexivity].
  erewrite bind_Ok by (apply get_prop_prop; exact Hn). reflexivity.
Qed.

Lemma afterJson_failing page ok payload s :
  is_nullish payload = false -> failing ok payload = true ->
  afterJson page ok payload s =
  showStatus page
    (js_or (prop payload (lit "message"))
       (VStr (lit "Photo analysis failed. Please submit manually or retry.")))
    (lit "error") (set_sessionInput [] s).
Proof.
  intros Hn Hf. unfold afterJson.
  erewrite bind_Ok by (apply failed_run; exact Hn). rewrite Hf.
  erewrite bind_Ok by (apply get_prop_prop; exact Hn).
  mstep. reflexivity.
Qed.

Lemma js_or_not_null a : js_or a (VObj []) <> VNull.
Proof. unfold js_or. destruct a; simpl; try discriminate. destruct b; discriminate.
  destruct (negb _); discriminate. destruct (negb _); discriminate. Qed.

Lemma afterJson_success page ok payload s :
  is_nullish payload = false -> failing ok payload = false ->
  afterJson page ok payload s = (Ok tt, suggestions_shown payload s).
Proof.
  intros Hn Hf. unfold afterJson.
  erewrite bind_Ok by (apply failed_run; exact Hn). rewrite Hf.
  erewrite bind_Ok by (apply get_prop_prop; exact Hn).
  mstep. erewrite bind_Ok by (apply get_prop_prop; exact Hn).
  erewrite bind_Ok by (apply applySuggestions_run; apply js_or_not_null).
  rewrite showStatus_str. reflexivity.
Qed.

(** What a failing response leaves, whatever the message is. *)
Lemma showStatus_failure page payload s :
  is_nullish payload = false ->
  let r := showStatus page
             (js_or (prop payload (lit "message"))
                (VStr (lit "Photo analysis failed. Please submit manually or retry.")))
             (lit "error") s in
  match fst r with
  | Ok _ => snd r = set_status (failure_text page payload) (Some (lit "error")) s
  | Throw e => e = TypeError /\ snd r = s
              /\ failure_text page payload
                 = lit "Network error while analyzing photos. Please retry."
  end.
Proof.
  intros Hn. unfold failure_text. rewrite Hn. unfold js_or.
  assert (Hfb : blank (lit "Photo analysis failed. Please submit manually or retry.") = false)
    by reflexivity.
  destruct (prop payload (lit "message")) as [| |b|n|m|xs|kvs]; cbn [truthy].
  - rewrite showStatus_str. cbn [fst snd]. rewrite Hfb. reflexivity.
  - rewrite showStatus_str. cbn [fst snd]. rewrite Hfb. reflexivity.
  - destruct b; [cbn; auto | rewrite showStatus_str; cbn [fst snd]; rewrite Hfb; reflexivity].
  - destruct (bool_decide (n = lit "0")) eqn:E; cbn [negb];
      [ rewrite showStatus_str; cbn [fst snd]; rewrite Hfb; reflexivity
      | unfold showStatus; cbn [truthy]; rewrite E; cbn; auto ].
  - destruct (Nat.eqb (length m) 0); cbn [negb]; rewrite showStatus_str; cbn [fst snd];
      rewrite ?Hfb; reflexivity.
  - cbn; auto.
  - cbn; auto.
Qed.

Lemma settle_json page s r q ok body :
  requests (env s) !! r = Some q -> req_aborted q = false -> req_phase q = Reading ok ->
  step page s (Settles r (JsonSettled body))
  = Some (finish page r (afterJson page ok (default (VObj []) body)) s).
Proof.
  intros Hq Ha Hp. cbn [step]. unfold settle. rewrite Hq, Ha, Hp. reflexivity.
Qed.

(** C6, as amended.  When [response.json()] settles for a response that is
    not ok, or whose [status] is not ["ok"], or whose body is not JSON, the
    coroutine ends without throwing, the session field is empty and the
    status line has the tone [error].  Its text is the server's message
    when that is a string that is not blank; the fallback "Photo analysis
    failed..." when there is no message (or a falsy one); the default text
    of the page when the message is a blank string; and the network error
    text when the body is [null] or the message is neither falsy nor a
    string. *)
Theorem failed_analysis_reports_error page s r q ok body :
  requests (env s) !! r = Some q -> req_aborted q = false -> req_phase q = Reading ok ->
  failing ok (default (VObj []) body) = true ->
  exists s',
    step page s (Settles r (JsonSettled body)) = Some s'
    /\ sessionInput (doc s') = []
    /\ statusTone (doc s') = Some (lit "error")
    /\ statusText (doc s') = failure_text page (default (VObj []) body)
    /\ fst (try_catch_finally (afterJson page ok (default (VObj []) body))
              (catchBlock page) finallyBlock (dropped r s)) = Ok tt.
Proof.
  intros Hq Ha Hp Hf. set (payload := default (VObj []) body) in *.
  eexists. split; [apply (settle_json page s r q ok body Hq Ha Hp)|].
  fold payload. split; [|split; [|split; [|apply coroutine_never_throws]]].
  all: rewrite finish_eq.
  all: destruct (is_nullish payload) eqn:Hn.
  all: try (rewrite (afterJson_nullish page ok payload _ Hn);
            unfold failure_text; rewrite ?Hn; reflexivity).
  all: rewrite (afterJson_failing page ok payload _ Hn Hf).
  all: pose proof (showStatus_failure page payload (set_sessionInput [] (dropped r s)) Hn) as Hs;
       cbv zeta in Hs;
       destruct (showStatus page _ (lit "error") (set_sessionInput [] (dropped r s)))
         as [[[]|e] s1]; cbn [fst snd] in Hs.
  all: try (subst s1; reflexivity).
  all: destruct Hs as (-> & -> & Ht); try rewrite Ht; reflexivity.
Qed.

(** A response that is not ok and carries a message: the message is shown
    as an error and the session field is empty. *)
Lemma failed_analysis_reports_error_witness :
  exists s',
    run (sample_page true) (init (sample_page true))
      [Change [photo "a" 2]; Tick 350; TimerFires 1;
       Settles 0 (FetchFulfilled false);
       Settles 0 (JsonSettled (Some (VObj [(lit "message", VStr (lit "Blurry photo"))])))]
    = Some s'
    /\ sessionInput (doc s') = []
    /\ statusTone (doc s') = Some (lit "error")
    /\ statusText (doc s') = lit "Blurry photo".
Proof.
  destruct (run (sample_page true) (init (sample_page true))
              [Change [photo "a" 2]; Tick 350; TimerFires 1;
               Settles 0 (FetchFulfilled false)]) as [s|] eqn:Hrun;
    [|vm_compute in Hrun; discriminate].
  assert (Hq : requests (env s) !! 0%nat
               = Some {| req_url := analyzeUrl (sample_page true);
                         req_photos := [photo "a" 2];
                         req_aborted := false;
                         req_phase := Reading false |}).
  { vm_compute in Hrun. injection Hrun as <-. reflexivity. }
  destruct (failed_analysis_reports_error (sample_page true) s 0 _ false
              (Some (VObj [(lit "message", VStr (lit "Blurry photo"))]))
              Hq eq_refl eq_refl eq_refl) as (s' & Hstep & Hs & Ht & Hx & _).
  exists s'. split; [|split; [exact Hs | split; [exact Ht | exact Hx]]].
  change [Change [photo "a" 2]; Tick 350; TimerFires 1;
          Settles 0 (FetchFulfilled false);
          Settles 0 (JsonSettled (Some (VObj [(lit "message", VStr (lit "Blurry photo"))])))]
    with ([Change [photo "a" 2]; Tick 350; TimerFires 1; Settles 0 (FetchFulfilled false)]
          ++ [Settles 0 (JsonSettled (Some (VObj [(lit "message", VStr (lit "Blurry photo"))])))]).
  revert Hrun Hstep. generalize (init (sample_page true)).
  intros s0 Hrun Hstep.
  cbn [app run] in *.
  repeat match type of Hrun with
         | match step ?p ?a ?e with _ => _ end = _ =>
             destruct (step p a e); [|discriminate]
         end.
  injection Hrun as ->. rewrite Hstep. reflexivity.
Defined.

(** C6 as stated fails: the server's message is present, a single space,
    and the status line shows neither it nor the fallback but the default
    text of the page. *)
Lemma blank_message_shows_default_text :
  exists s',
    run (sample_page true) (init (sample_page true))
      [Change [photo "a" 2]; Tick 350; TimerFires 1;
       Settles 0 (FetchFulfilled true);
       Settles 0 (JsonSettled
                    (Some (VObj [(lit "status", VStr (lit "error"));
                                 (lit "message", VStr (lit " "))])))]
    = Some s'
    /\ statusTone (doc s') = Some (lit "error")
    /\ statusText (doc s') = lit "Add photos to get suggestions."
    /\ statusText (doc s') <> lit " "
    /\ statusText (doc s') <> lit "Photo analysis failed. Please submit manually or retry.".
Proof.
  eexists. split; [vm_compute; reflexivity|].
  split; [reflexivity|]. split; [reflexivity|]. split; intros H; vm_compute in H; discriminate.
Qed.

(** C9.  When [response.json()] gives a payload whose [status] is ["ok"]
    for an ok response, and the payload has no [session], or [null], or
    the empty string, the session field ends empty, while the status line
    shows the success text and tone and the suggestions are applied. *)
Theorem ok_without_session_leaves_token_empty page s r q payload :
  requests (env s) !! r = Some q -> req_aborted q = false -> req_phase q = Reading true ->
  is_str (prop payload (lit "status")) (lit "ok") = true ->
  (prop payload (lit "session") = VUndefined
   \/ prop payload (lit "session") = VNull
   \/ prop payload (lit "session") = VStr []) ->
  exists s',
    step page s (Settles r (JsonSettled (Some payload))) = Some s'
    /\ sessionInput (doc s') = []
    /\ statusTone (doc s') = Some (lit "success")
    /\ statusText (doc s')
       = lit "Suggestions ready" ++ [8212] ++ lit "review and adjust if needed."
    /\ fields (doc s')
       = applied (js_or (prop payload (lit "suggestions")) (VObj [])) (fields (doc s)).
Proof.
  intros Hq Ha Hp Hst Hsess.
  eexists. split; [apply (settle_json page s r q true (Some payload) Hq Ha Hp)|].
  cbn [default]. rewrite finish_eq.
  assert (Hn : is_nullish payload = false).
  { destruct payload; try reflexivity; discriminate. }
  assert (Hf : failing true payload = false).
  { unfold failing. rewrite Hst. reflexivity. }
  rewrite (afterJson_success page true payload _ Hn Hf).
  unfold suggestions_shown. cbn.
  split; [|auto].
  destruct Hsess as [->|[->| ->]]; reflexivity.
Qed.

(** A successful response without [session]: the serial number is filled
    in, the status line says so, and the session field stays empty. *)
Lemma ok_without_session_leaves_token_empty_witness :
  exists s',
    run (sample_page true) (init (sample_page true))
      [Change [photo "a" 2]; Tick 350; TimerFires 1;
       Settles 0 (FetchFulfilled true);
       Settles 0 (JsonSettled
                    (Some (VObj [(lit "status", VStr (lit "ok"));
                                 (lit "suggestions",
                                  VObj [(lit "serial_number", VStr (lit "SN1"))])])))]
    = Some s'
    /\ sessionInput (doc s') = []
    /\ statusTone (doc s') = Some (lit "success")
    /\ sn (fields (doc s')) = Some (text_input (lit "SN1")).
Proof.
  set (payload := VObj [(lit "status", VStr (lit "ok"));
                        (lit "suggestions", VObj [(lit "serial_number", VStr (lit "SN1"))])]).
  destruct (run (sample_page true) (init (sample_page true))
              [Change [photo "a" 2]; Tick 350; TimerFires 1;
               Settles 0 (FetchFulfilled true)]) as [s|] eqn:Hrun;
    [|vm_compute in Hrun; discriminate].
  assert (Hq : requests (env s) !! 0%nat
               = Some {| req_url := analyzeUrl (sample_page true);
                         req_photos := [photo "a" 2];
                         req_aborted := false;
                         req_phase := Reading true |}
               /\ fields (doc s) = initialFields (sample_page true)).
  { vm_compute in Hrun. injection Hrun as <-. split; reflexivity. }
  destruct Hq as [Hq Hfields].
  destruct (ok_without_session_leaves_token_empty (sample_page true) s 0 _ payload
              Hq eq_refl eq_refl eq_refl (or_introl eq_refl))
    as (s' & Hstep & Hs & Ht & _ & Hx).
  exists s'. split; [|split; [exact Hs | split; [exact Ht |]]].
  - revert Hrun Hstep. generalize (init (sample_page true)). intros s0 Hrun Hstep.
    cbn [run] in *.
    repeat match type of Hrun with
           | match step ?p ?a ?e with _ => _ end = _ =>
               destruct (step p a e); [|discriminate]
           end.
    injection Hrun as ->. rewrite Hstep. reflexivity.
  - rewrite Hx, Hfields. reflexivity.
Defined.

(** ** The flag and the requests *)

Lemma marker_ok_view s s' : marker_view s' = marker_view s -> marker_ok s -> marker_ok s'.
Proof.
  unfold marker_view, marker_ok. intros H. injection H as -> -> ->. auto.
Qed.

Lemma marker_view_refreshed page s : marker_view (refreshed page s) = marker_view s.
Proof. unfold marker_view. rewrite refreshed_js, refreshed_env. reflexivity. Qed.

Lemma marker_view_cancelled s : marker_view (cancelled s) = marker_view s.
Proof. unfold marker_view, cancelled. destruct (analysisTimeout (js s)); reflexivity. Qed.

Lemma step_marker_ok page s e s' : step page s e = Some s' -> marker_ok s -> marker_ok s'.
Proof.
  intros Hstep Hok. destruct e; cbn [step] in Hstep.
  - injection Hstep as <-. unfold exec, onChange. rewrite handleFiles_eq. cbv zeta.
    destruct (Nat.eqb (length _) 0); [exact Hok|].
    destruct (_ <? _)%nat; [rewrite showStatus_str; exact Hok|].
    destruct (_ <? _)%N; [rewrite showStatus_str; exact Hok|].
    cbn [snd]. eapply marker_ok_view; [|exact Hok].
    change (marker_view (queued ?x)) with (marker_view x).
    rewrite marker_view_refreshed. reflexivity.
  - destruct (bool_decide _); [|discriminate]. injection Hstep as <-.
    unfold exec. rewrite removeFile_eq.
    destruct (list_find _ _) as [[index removed]|]; [|exact Hok].
    cbv zeta. destruct (negb _); cbn [snd]; (eapply marker_ok_view; [|exact Hok]).
    + change (marker_view (queued ?x)) with (marker_view x).
      rewrite marker_view_refreshed. reflexivity.
    + change (marker_view (set_status ?a ?b ?x)) with (marker_view x).
      rewrite marker_view_cancelled, marker_view_refreshed. reflexivity.
  - destruct (clearButton (doc s)); [|discriminate]. injection Hstep as <-.
    unfold exec. rewrite onClearClick_eq. cbn [snd].
    eapply marker_ok_view; [|exact Hok].
    change (marker_view (set_status ?a ?b ?x)) with (marker_view x).
    rewrite marker_view_refreshed.
    change (marker_view (set_selectedFiles [] (revoked_all ?x))) with (marker_view x).
    apply marker_view_cancelled.
  - destruct (hasTrigger page); [|discriminate]. injection Hstep as <-.
    unfold exec. rewrite onTriggerClick_eq. cbn [snd].
    destruct (analyzing (js s)) eqn:E; [exact Hok|].
    intros Ha. cbn in Ha. congruence.
  - injection Hstep as <-. unfold exec. rewrite onSubmit_eq. cbn [snd]. unfold synced.
    destruct (negb _), (hasDataTransfer page); exact Hok.
  - injection Hstep as <-. unfold exec. rewrite onReset_eq. cbn [snd].
    eapply marker_ok_view; [|exact Hok].
    unfold button_updated. cbn [doc clearButton set_status upd_doc set_sessionInput].
    destruct (clearButton _);
      change (marker_view (cancelled s) = marker_view s); apply marker_view_cancelled.
  - injection Hstep as <-. exact Hok.
  - destruct (timers (env s) !! t); [|discriminate].
    destruct (_ <=? _); [|discriminate]. injection Hstep as <-.
    unfold exec. rewrite runAnalysis_eq.
    destruct (Nat.eqb _ 0); cbn [snd]; [exact Hok|].
    intros _. eexists. eexists. split; [reflexivity|].
    split; [cbn; apply lookup_insert_eq | reflexivity].
  - cbn [step] in Hstep. unfold settle in Hstep.
    destruct (requests (env s) !! r) as [q|] eqn:Hq; [|discriminate].
    destruct (req_aborted q) eqn:Hab, (req_phase q), a; try discriminate;
      injection Hstep as <-;
      try (rewrite finish_eq; intros Ha; discriminate Ha).
    intros Ha. destruct (Hok Ha) as (r0 & q0 & Hc & Hr0 & Hq0).
    destruct (decide (r0 = r)) as [->|Hne].
    + eexists. eexists. split; [exact Hc|].
      split; [cbn; apply lookup_insert_eq | reflexivity].
    + exists r0, q0. split; [exact Hc|]. cbn. rewrite lookup_insert_ne by congruence.
      split; assumption.
Qed.

Lemma init_marker_ok page : marker_ok (init page).
Proof.
  unfold init, exec, updateClearButton, modify. cbn [snd doc clearButton].
  destruct (hasClearButton page); intros H; discriminate H.
Qed.

(** In every state the page can reach, a set [analyzing] flag means that a
    request is in flight. *)
Lemma reachable_marker_ok page tr : forall s s',
  run page s tr = Some s' -> marker_ok s -> marker_ok s'.
Proof.
  induction tr as [|e rest IH]; intros s s' Hrun Hok; cbn [run] in Hrun.
  - injection Hrun as <-. exact Hok.
  - destruct (step page s e) as [s1|] eqn:Hstep; [|discriminate].
    exact (IH s1 s' Hrun (step_marker_ok page s e s1 Hstep Hok)).
Qed.

(** The guard of the trigger is the flag: while [analyzing] is set, a
    click on the trigger changes nothing; every end of a request clears
    the flag, and the next click opens the chooser. *)
Lemma analyzing_guards_trigger page s :
  hasTrigger page = true ->
  (analyzing (js s) = true -> step page s TriggerClick = Some s)
  /\ (forall r a s1,
        step page s (Settles r a) = Some s1 ->
        (forall ok, a <> FetchFulfilled ok) ->
        analyzing (js s1) = false
        /\ step page s1 TriggerClick
           = Some (set_picker_opened (S (picker_opened (env s1))) s1)).
Proof.
  intros Ht. split.
  - intros Ha. cbn [step]. rewrite Ht. unfold exec. rewrite onTriggerClick_eq, Ha. reflexivity.
  - intros r a s1 Hstep Hnot.
    assert (Hfin : exists x, s1 = finallyBlock x).
    { cbn [step] in Hstep. unfold settle in Hstep.
      destruct (requests (env s) !! r) as [q|]; [|discriminate].
      destruct (req_aborted q), (req_phase q), a; try discriminate;
        try (exfalso; eapply Hnot; reflexivity);
        injection Hstep as <-; rewrite finish_eq; eexists; reflexivity. }
    destruct Hfin as [x ->]. split; [reflexivity|].
    cbn [step]. rewrite Ht. unfold exec. rewrite onTriggerClick_eq. reflexivity.
Qed.

(** ** What the end of a request leaves alone *)

Lemma same_schedule_refl s : same_schedule s s.
Proof. unfold same_schedule. auto 10. Qed.

Lemma same_schedule_trans s1 s2 s3 :
  same_schedule s1 s2 -> same_schedule s2 s3 -> same_schedule s1 s3.
Proof.
  unfold same_schedule.
  intros (A1 & A2 & A3 & A4 & A5 & A6 & A7) (B1 & B2 & B3 & B4 & B5 & B6 & B7).
  repeat split; congruence.
Qed.

Lemma showStatus_cases page m tone s :
  showStatus page m tone s = (Throw TypeError, s)
  \/ exists text t, showStatus page m tone s = (Ok tt, set_status text t s).
Proof.
  unfold showStatus. destruct (truthy m); [destruct m|]; run_m; eauto.
Qed.

Lemma showStatus_schedule page m tone s : same_schedule s (snd (showStatus page m tone s)).
Proof.
  destruct (showStatus_cases page m tone s) as [H|(text & t & H)]; rewrite H;
    repeat split; reflexivity.
Qed.

Lemma afterJson_schedule page ok payload s :
  same_schedule s (snd (afterJson page ok payload s)).
Proof.
  destruct (is_nullish payload) eqn:Hn.
  { rewrite afterJson_nullish by exact Hn. apply same_schedule_refl. }
  destruct (failing ok payload) eqn:Hf.
  - rewrite afterJson_failing by assumption.
    eapply same_schedule_trans; [|apply showStatus_schedule]. repeat split; reflexivity.
  - rewrite afterJson_success by assumption. repeat split; reflexivity.
Qed.

Lemma finish_schedule page r rest s :
  (forall x, same_schedule x (snd (rest x))) -> same_schedule s (finish page r rest s).
Proof.
  intros Hrest. rewrite finish_eq. specialize (Hrest (dropped r s)).
  destruct (rest (dropped r s)) as [[[]|[]] s']; cbn [snd] in Hrest;
    (eapply same_schedule_trans; [|eapply same_schedule_trans; [exact Hrest|]]);
    repeat split; reflexivity.
Qed.

Lemma settle_schedule page r a s s' :
  settle page r a s = Some s' -> same_schedule s s'.
Proof.
  unfold settle. destruct (requests (env s) !! r) as [q|]; [|discriminate].
  destruct (req_aborted q), (req_phase q), a; try discriminate;
    intros H; injection H as <-;
    try (apply finish_schedule; intros x;
         first [apply afterJson_schedule | apply same_schedule_refl]);
    repeat split; reflexivity.
Qed.

Lemma abort_held_js s : js (abort_held s) = js s.
Proof.
  unfold abort_held, abort, modify. destruct (analysisController (js s)); [|reflexivity].
  cbn [snd]. destruct (requests (env s) !! n); reflexivity.
Qed.

(** ** Mutations of the store and the session token *)

(** Any event of the page that changes the selection store leaves the
    session field empty in the same step. *)
Lemma store_change_clears_session page s e s' :
  step page s e = Some s' ->
  selectedFiles (js s') <> selectedFiles (js s) ->
  sessionInput (doc s') = [].
Proof.
  intros Hstep Hne. destruct e; cbn [step] in Hstep.
  - injection Hstep as <-. unfold exec, onChange in *.
    rewrite handleFiles_eq in *. cbv zeta in *.
    destruct (Nat.eqb _ 0); [exfalso; apply Hne; reflexivity|].
    destruct (_ <? _)%nat.
    { rewrite showStatus_str in Hne. exfalso; apply Hne; reflexivity. }
    destruct (_ <? _)%N.
    { rewrite showStatus_str in Hne. exfalso; apply Hne; reflexivity. }
    cbn [snd]. rewrite queued_doc. apply refreshed_doc.
  - destruct (bool_decide _); [|discriminate]. injection Hstep as <-.
    unfold exec in *. rewrite removeFile_eq in *.
    destruct (list_find _ _) as [[index removed]|]; [|exfalso; apply Hne; reflexivity].
    cbv zeta in *. destruct (negb _); cbn [snd].
    + rewrite queued_doc. apply refreshed_doc.
    + cbn. rewrite cancelled_doc. apply refreshed_doc.
  - destruct (clearButton (doc s)); [|discriminate]. injection Hstep as <-.
    unfold exec. rewrite onClearClick_eq. cbn. apply refreshed_doc.
  - destruct (hasTrigger page); [|discriminate]. injection Hstep as <-.
    exfalso; apply Hne. unfold exec. rewrite onTriggerClick_eq.
    destruct (analyzing (js s)); reflexivity.
  - injection Hstep as <-. exfalso; apply Hne. unfold exec. rewrite onSubmit_eq.
    cbn [snd]. unfold synced. destruct (negb _), (hasDataTransfer page); reflexivity.
  - injection Hstep as <-. unfold exec. rewrite onReset_eq. cbn [snd].
    unfold button_updated. cbn. destruct (clearButton _); reflexivity.
  - injection Hstep as <-. exfalso; apply Hne. reflexivity.
  - destruct (timers (env s) !! t); [|discriminate].
    destruct (_ <=? _); [|discriminate]. injection Hstep as <-.
    exfalso; apply Hne. unfold exec. rewrite runAnalysis_eq.
    destruct (Nat.eqb _ 0); [reflexivity|]. cbn [snd].
    unfold sent. cbn. rewrite abort_held_js, cancelled_store. reflexivity.
  - exfalso; apply Hne. apply (settle_schedule page r a s s' Hstep).
Qed.

(** ** Submission *)

(** C7, as amended.  On submit the session field and the store are left
    as they are.  With a token in the session field the native file input
    is emptied, so the token alone is submitted.  With no token, and where
    [window.DataTransfer] exists, the native file input is set to the files
    of the store, in order, so the files are submitted; then, while the
    store is not empty, exactly one of the two is sent.  Where
    [window.DataTransfer] does not exist, a submit with no token changes
    nothing: the native file input keeps what the user last chose. *)
Theorem submit_sends_token_or_files page s :
  exists s',
    step page s Submit = Some s'
    /\ sessionInput (doc s') = sessionInput (doc s)
    /\ js s' = js s
    /\ (sessionInput (doc s) <> [] -> fileInput (doc s') = [])
    /\ (sessionInput (doc s) = [] -> hasDataTransfer page = true ->
        fileInput (doc s') = map file (selectedFiles (js s)))
    /\ (hasDataTransfer page = true -> selectedFiles (js s) <> [] ->
        (sessionInput (doc s') <> [] /\ fileInput (doc s') = [])
        \/ (sessionInput (doc s') = [] /\ fileInput (doc s') <> []))
    /\ (sessionInput (doc s) = [] -> hasDataTransfer page = false -> s' = s).
Proof.
  eexists. split; [reflexivity|]. unfold exec. rewrite onSubmit_eq. cbn [snd].
  unfold synced.
  destruct (sessionInput (doc s)) as [|c t] eqn:Htok; cbn [length Nat.eqb negb].
  - destruct (hasDataTransfer page) eqn:Hdt; cbn; rewrite ?Htok.
    + repeat split; try congruence; auto.
      intros _ Hne. right. split; [reflexivity|].
      destruct (selectedFiles (js s)); [congruence | discriminate].
    + repeat split; try congruence; auto.
  - cbn. rewrite Htok. repeat split; try congruence; auto.
Qed.

(** Two batches and no token: the submit puts both photos in the native
    file input. *)
Lemma submit_sends_token_or_files_witness :
  let s := default (init (sample_page true))
             (run (sample_page true) (init (sample_page true))
                [Change [photo "a" 2]; Change [photo "b" 3]]) in
  exists s', step (sample_page true) s Submit = Some s'
             /\ fileInput (doc s') = [photo "a" 2; photo "b" 3].
Proof.
  cbv zeta.
  match goal with
  | |- exists s', step ?p ?s _ = _ /\ _ =>
      destruct (submit_sends_token_or_files p s) as (s' & Hstep & _ & _ & _ & Hfiles & _)
  end.
  exists s'. split; [exact Hstep|]. rewrite Hfiles; reflexivity.
Defined.

(** C7 as stated fails where [window.DataTransfer] does not exist: after
    two batches the store holds both photos, there is no token, and the
    submit leaves in the native file input the second batch only. *)
Lemma submit_without_DataTransfer_keeps_last_batch :
  exists s',
    run (sample_page false) (init (sample_page false))
      [Change [photo "a" 2]; Change [photo "b" 3]; Submit] = Some s'
    /\ sessionInput (doc s') = []
    /\ map file (selectedFiles (js s')) = [photo "a" 2; photo "b" 3]
    /\ fileInput (doc s') = [photo "b" 3].
Proof. eexists. split; [vm_compute; reflexivity|]. repeat split. Qed.


(** ** The timers *)

Lemma tview_queued s1 s2 :
  tview s1 = tview s2 -> now (env s1) = now (env s2) -> tview (queued s1) = tview (queued s2).
Proof.
  unfold tview, queued. intros H Hn. injection H as H1 H2 H3. cbn.
  rewrite H1, H2, H3, Hn. reflexivity.
Qed.

Lemma tview_cancelled s1 s2 :
  tview s1 = tview s2 -> tview (cancelled s1) = tview (cancelled s2).
Proof.
  unfold tview, cancelled. intros H. injection H as H1 H2 H3.
  rewrite H1. destruct (analysisTimeout (js s2)) eqn:E; cbn; rewrite ?H1, ?H2, ?H3, ?E;
    reflexivity.
Qed.

Lemma tview_refreshed page s : tview (refreshed page s) = tview s.
Proof. unfold tview. rewrite refreshed_js, refreshed_env. reflexivity. Qed.

Lemma cancelled_env_rest s :
  now (env (cancelled s)) = now (env s)
  /\ next_request (env (cancelled s)) = next_request (env s)
  /\ requests (env (cancelled s)) = requests (env s).
Proof. unfold cancelled. destruct (analysisTimeout (js s)); auto. Qed.

Lemma abort_held_rest s :
  tview (abort_held s) = tview s
  /\ now (env (abort_held s)) = now (env s)
  /\ next_request (env (abort_held s)) = next_request (env s)
  /\ selectedFiles (js (abort_held s)) = selectedFiles (js s).
Proof.
  unfold abort_held, abort, modify, tview. destruct (analysisController (js s)); [|auto].
  cbn [snd]. destruct (requests (env s) !! n); auto.
Qed.

(** What each event does to the clock, to the timers and to the count of
    requests. *)
Lemma step_schedule page s e s' :
  step page s e = Some s' ->
  match e with
  | Tick d =>
      s' = set_now (now (env s) + d) s
  | TimerFires t =>
      exists due, timers (env s) !! t = Some due /\ due <= now (env s)
        /\ now (env s') = now (env s)
        /\ selectedFiles (js s') = selectedFiles (js s)
        /\ ((selectedFiles (js s) = [] /\ s' = fired t s)
            \/ (selectedFiles (js s) <> []
                /\ tview s' = tview (cancelled (fired t s))
                /\ next_request (env s') = S (next_request (env s))
                /\ requests (env s') !! next_request (env s)
                   = Some {| req_url := analyzeUrl page;
                             req_photos := map file (selectedFiles (js s));
                             req_aborted := false;
                             req_phase := Fetching |}))
  | _ =>
      now (env s') = now (env s)
      /\ next_request (env s') = next_request (env s)
      /\ schedule_effect s s'
  end.
Proof.
  intros Hstep. destruct e; cbn [step] in Hstep.
  - (* Change *)
    injection Hstep as <-. unfold exec, onChange. rewrite handleFiles_eq. cbv zeta.
    destruct (Nat.eqb (length _) 0) eqn:Hlen; [repeat split; left; reflexivity|].
    destruct (_ <? _)%nat; [rewrite showStatus_str; repeat split; left; reflexivity|].
    destruct (_ <? _)%N; [rewrite showStatus_str; repeat split; left; reflexivity|].
    cbn [snd]. split; [cbn; rewrite refreshed_env; reflexivity|].
    split; [cbn; rewrite refreshed_env; reflexivity|].
    right; right. split.
    + apply tview_queued; [rewrite tview_refreshed; reflexivity|].
      rewrite refreshed_env. reflexivity.
    + rewrite queued_store, refreshed_js. unfold pushed.
      cbn [js set_selectedFiles upd_js selectedFiles].
      intros H. apply app_eq_nil in H as [_ H].
      apply (f_equal length) in H. rewrite new_entries_length in H.
      cbn [length] in H. rewrite H in Hlen. discriminate.
  - (* RemoveClick *)
    destruct (bool_decide _); [|discriminate]. injection Hstep as <-.
    unfold exec. rewrite removeFile_eq.
    destruct (list_find _ _) as [[index removed]|]; [|repeat split; left; reflexivity].
    cbv zeta. destruct (negb _) eqn:Hrest; cbn [snd].
    + split; [cbn; rewrite refreshed_env; reflexivity|].
      split; [cbn; rewrite refreshed_env; reflexivity|].
      right; right. split.
      * apply tview_queued; [rewrite tview_refreshed; reflexivity|].
        rewrite refreshed_env. reflexivity.
      * rewrite queued_store. intros H. rewrite H in Hrest. discriminate.
    + pose proof (cancelled_env_rest (refreshed page (spliced index removed s)))
        as (Hn & Hr & _).
      split; [cbn; rewrite Hn, refreshed_env; reflexivity|].
      split; [cbn; rewrite Hr, refreshed_env; reflexivity|].
      right; left.
      change (tview (cancelled (refreshed page (spliced index removed s)))
              = tview (cancelled s)).
      apply tview_cancelled. rewrite tview_refreshed. reflexivity.
  - (* ClearClick *)
    destruct (clearButton (doc s)); [|discriminate]. injection Hstep as <-.
    unfold exec. rewrite onClearClick_eq. cbn [snd].
    pose proof (cancelled_env_rest s) as (Hn & Hr & _).
    split; [cbn; rewrite refreshed_env; cbn; exact Hn|].
    split; [cbn; rewrite refreshed_env; cbn; exact Hr|].
    right; left.
    change (tview (refreshed page (set_selectedFiles [] (revoked_all (cancelled s))))
            = tview (cancelled s)).
    rewrite tview_refreshed. reflexivity.
  - (* TriggerClick *)
    destruct (hasTrigger page); [|discriminate]. injection Hstep as <-.
    unfold exec. rewrite onTriggerClick_eq. cbn [snd].
    destruct (analyzing (js s)); repeat split; left; reflexivity.
  - (* Submit *)
    injection Hstep as <-. unfold exec. rewrite onSubmit_eq. cbn [snd]. unfold synced.
    destruct (negb _), (hasDataTransfer page); repeat split; left; reflexivity.
  - (* Reset *)
    injection Hstep as <-. unfold exec. rewrite onReset_eq. cbn [snd].
    pose proof (cancelled_env_rest s) as (Hn & Hr & _).
    unfold button_updated. cbn [doc clearButton set_status upd_doc set_sessionInput].
    destruct (clearButton _); (split; [exact Hn|]; split; [exact Hr|]; right; left; reflexivity).
  - (* Tick *)
    injection Hstep as <-. reflexivity.
  - (* TimerFires *)
    destruct (timers (env s) !! t) as [due|] eqn:Hdue; [|discriminate].
    destruct (due <=? now (env s)) eqn:Hle; [|discriminate]. injection Hstep as <-.
    exists due. split; [reflexivity|]. split; [apply N.leb_le; exact Hle|].
    fold (fired t s). unfold exec. rewrite runAnalysis_eq.
    change (selectedFiles (js (fired t s))) with (selectedFiles (js s)).
    destruct (selectedFiles (js s)) as [|e0 rest] eqn:Hstore; cbn [length Nat.eqb snd].
    + split; [reflexivity|]. split; [exact Hstore|]. left. split; reflexivity.
    + pose proof (abort_held_rest (cancelled (fired t s))) as (Hv & Hn & Hr & Hs).
      pose proof (cancelled_env_rest (fired t s)) as (Hn' & Hr' & _).
      split; [cbn; rewrite Hn, Hn'; reflexivity|].
      split; [cbn; rewrite Hs, cancelled_store; exact Hstore|].
      right. split; [discriminate|]. split; [exact Hv|].
      split; [cbn; rewrite Hr, Hr'; reflexivity|].
      cbn. rewrite Hr, Hr'. cbn. rewrite lookup_insert_eq.
      rewrite Hs, cancelled_store. cbn. rewrite Hstore. reflexivity.
  - (* Settles *)
    pose proof (settle_schedule page r a s s' Hstep) as (H1 & H2 & H3 & H4 & H5 & H6 & _).
    split; [exact H5|]. split; [exact H6|]. left. unfold tview. congruence.
Qed.

Lemma timers_ok_tview s s' : tview s' = tview s -> timers_ok s -> timers_ok s'.
Proof.
  unfold tview, timers_ok. intros H (H1 & H2). injection H as -> -> ->. auto.
Qed.

Lemma timers_ok_cancelled s : timers_ok s -> timers_ok (cancelled s).
Proof.
  unfold timers_ok, cancelled. intros (H1 & H2).
  destruct (analysisTimeout (js s)) as [t0|] eqn:E; [|rewrite E; auto].
  cbn. split; [|discriminate].
  intros t due Ht. apply lookup_delete_Some in Ht as [Hne Ht].
  apply H1 in Ht. congruence.
Qed.

Lemma timers_ok_fired t s : timers_ok s -> timers_ok (fired t s).
Proof.
  unfold timers_ok, fired. cbn. intros (H1 & H2). split; [|exact H2].
  intros t' due Ht. apply lookup_delete_Some in Ht as [_ Ht]. eauto.
Qed.

(** After [queueAnalysis] exactly one timer is pending, the new one. *)
Lemma queued_timers s :
  timers_ok s ->
  timers (env (queued s)) = {[ next_timer (env s) := now (env s) + 350 ]}.
Proof.
  intros (H1 & H2). unfold queued. cbn.
  apply map_eq. intros t.
  destruct (decide (t = next_timer (env s))) as [->|Hne].
  - rewrite lookup_insert_eq, lookup_singleton_eq. reflexivity.
  - rewrite lookup_insert_ne, lookup_singleton_ne by congruence.
    destruct (analysisTimeout (js s)) as [old|] eqn:E.
    + destruct (decide (t = old)) as [->|Hne'].
      * apply lookup_delete_eq.
      * rewrite lookup_delete_ne by congruence.
        destruct (timers (env s) !! t) eqn:Ht; [|reflexivity].
        apply H1 in Ht. congruence.
    + destruct (timers (env s) !! t) eqn:Ht; [|reflexivity].
      apply H1 in Ht. congruence.
Qed.

Lemma timers_ok_queued s : timers_ok s -> timers_ok (queued s).
Proof.
  intros Hok. pose proof (queued_timers s Hok) as Ht.
  unfold timers_ok. rewrite Ht. cbn. split.
  - intros t due H. apply lookup_singleton_Some in H as [<- _]. reflexivity.
  - intros t H. injection H as <-. lia.
Qed.

Lemma schedule_effect_ok s s' : schedule_effect s s' -> timers_ok s -> timers_ok s'.
Proof.
  intros [H|[H|[H _]]] Hok; apply (timers_ok_tview _ _ H).
  - exact Hok.
  - apply timers_ok_cancelled; exact Hok.
  - apply timers_ok_queued; exact Hok.
Qed.

Lemma step_timers_ok page s e s' : step page s e = Some s' -> timers_ok s -> timers_ok s'.
Proof.
  intros Hstep Hok. pose proof (step_schedule page s e s' Hstep) as H.
  destruct e; try (destruct H as (_ & _ & H); exact (schedule_effect_ok _ _ H Hok)).
  - subst s'. exact Hok.
  - destruct H as (due & _ & _ & _ & _ & [[_ ->]|(_ & Hv & _)]).
    + apply timers_ok_fired; exact Hok.
    + apply (timers_ok_tview _ _ Hv), timers_ok_cancelled, timers_ok_fired. exact Hok.
Qed.

(** The clock and the handles only grow, and a timer that is pending after
    an event was pending before it or was set by it, due 350 ms later. *)
Lemma cancelled_timers_sub s t due :
  timers (env (cancelled s)) !! t = Some due -> timers (env s) !! t = Some due.
Proof.
  unfold cancelled. destruct (analysisTimeout (js s)); [|auto].
  cbn. intros H. apply lookup_delete_Some in H as [_ H]. exact H.
Qed.

Lemma step_timers page s e s' :
  step page s e = Some s' ->
  now (env s) <= now (env s')
  /\ (next_timer (env s) <= next_timer (env s'))%nat
  /\ (forall t due, timers (env s') !! t = Some due ->
        timers (env s) !! t = Some due
        \/ (t = next_timer (env s) /\ due = now (env s') + 350)).
Proof.
  intros Hstep. pose proof (step_schedule page s e s' Hstep) as H.
  assert (Heff : now (env s') = now (env s) -> schedule_effect s s' ->
    now (env s) <= now (env s')
    /\ (next_timer (env s) <= next_timer (env s'))%nat
    /\ (forall t due, timers (env s') !! t = Some due ->
          timers (env s) !! t = Some due
          \/ (t = next_timer (env s) /\ due = now (env s') + 350))).
  { intros Hn [Hv|[Hv|[Hv _]]]; unfold tview in Hv; injection Hv as _ Ht Hnt;
      rewrite Hn, Ht, Hnt.
    - split; [lia|]. split; [lia|]. auto.
    - split; [lia|]. split.
      + unfold cancelled. destruct (analysisTimeout (js s)); cbn; lia.
      + intros t due Hd. left. apply cancelled_timers_sub. exact Hd.
    - split; [lia|]. split; [cbn; lia|].
      intros t due Hd. cbn in Hd.
      destruct (decide (t = next_timer (env s))) as [->|Hne].
      + rewrite lookup_insert_eq in Hd. injection Hd as <-. right. auto.
      + rewrite lookup_insert_ne in Hd by congruence. left.
        destruct (analysisTimeout (js s)); [|exact Hd].
        apply lookup_delete_Some in Hd as [_ Hd]. exact Hd. }
  destruct e; try (destruct H as (Hn & _ & H); exact (Heff Hn H)).
  - subst s'. cbn. split; [lia|]. split; [lia|]. auto.
  - destruct H as (due & _ & _ & Hn & _ & [[_ ->]|(_ & Hv & _)]).
    + cbn. split; [lia|]. split; [lia|].
      intros t0 d Hd. apply lookup_delete_Some in Hd as [_ Hd]. auto.
    + unfold tview in Hv. injection Hv as _ Ht Hnt. rewrite Hn, Ht, Hnt.
      split; [lia|]. split.
      * unfold cancelled. destruct (analysisTimeout (js (fired t s))); cbn; lia.
      * intros t0 d Hd. left. apply cancelled_timers_sub in Hd. cbn in Hd.
        apply lookup_delete_Some in Hd as [_ Hd]. exact Hd.
Qed.

Lemma step_spent page s e s' t :
  step page s e = Some s' -> spent t s -> spent t s'.
Proof.
  intros Hstep (Hnone & Hlt).
  destruct (step_timers page s e s' Hstep) as (_ & Hnt & Hsub).
  split; [|lia].
  destruct (timers (env s') !! t) as [due|] eqn:Ht; [|reflexivity].
  apply Hsub in Ht as [Ht|[-> _]]; [congruence | lia].
Qed.

(** A timer that is spent never fires. *)
Lemma spent_never_fires page t tr : forall s s',
  run page s tr = Some s' -> spent t s -> (TimerFires t ∉ tr) /\ spent t s'.
Proof.
  induction tr as [|e rest IH]; intros s s' Hrun Hsp; cbn [run] in Hrun.
  - injection Hrun as <-. split; [apply not_elem_of_nil | exact Hsp].
  - destruct (step page s e) as [s1|] eqn:Hstep; [|discriminate].
    destruct (IH s1 s' Hrun (step_spent page s e s1 t Hstep Hsp)) as [Hnot Hsp'].
    split; [|exact Hsp'].
    intros Hin. apply elem_of_cons in Hin as [<-|Hin]; [|contradiction].
    cbn [step] in Hstep. destruct Hsp as [Hnone _]. rewrite Hnone in Hstep. discriminate.
Qed.

Lemma run_now_le page tr : forall s s',
  run page s tr = Some s' -> now (env s) <= now (env s').
Proof.
  induction tr as [|e rest IH]; intros s s' Hrun; cbn [run] in Hrun.
  - injection Hrun as <-. lia.
  - destruct (step page s e) as [s1|] eqn:Hstep; [|discriminate].
    destruct (step_timers page s e s1 Hstep) as (Hn & _). specialize (IH s1 s' Hrun). lia.
Qed.

(** An event that hands out a timer is a call of [queueAnalysis]: it
    leaves a store that is not empty and sends nothing. *)
Lemma scheduling_step page s e s' :
  step page s e = Some s' ->
  next_timer (env s') = S (next_timer (env s)) ->
  tview s' = tview (queued s)
  /\ selectedFiles (js s') <> []
  /\ now (env s') = now (env s)
  /\ next_request (env s') = next_request (env s).
Proof.
  intros Hstep Hnt. pose proof (step_schedule page s e s' Hstep) as H.
  assert (Hcan : next_timer (env (cancelled s)) = next_timer (env s)).
  { unfold cancelled. destruct (analysisTimeout (js s)); reflexivity. }
  assert (Heff : now (env s') = now (env s) /\ next_request (env s') = next_request (env s)
                 /\ schedule_effect s s' ->
                 tview s' = tview (queued s) /\ selectedFiles (js s') <> []
                 /\ now (env s') = now (env s)
                 /\ next_request (env s') = next_request (env s)).
  { intros (Hn & Hr & [Hv|[Hv|[Hv Hs]]]).
    - unfold tview in Hv. injection Hv as _ _ Hv. lia.
    - unfold tview in Hv. injection Hv as _ _ Hv. lia.
    - auto. }
  destruct e; try (exact (Heff H)).
  - subst s'. cbn in Hnt. lia.
  - destruct H as (due & _ & _ & _ & _ & [[_ ->]|(_ & Hv & _)]).
    + cbn in Hnt. lia.
    + unfold tview in Hv. injection Hv as _ _ Hv.
      assert (next_timer (env (cancelled (fired t s))) = next_timer (env s)).
      { unfold cancelled. destruct (analysisTimeout (js (fired t s))); reflexivity. }
      lia.
Qed.

(** While no pending timer is due, no timer fires and no request is
    sent. *)
Lemma quiet_window page bound tr : forall s s',
  run page s tr = Some s' ->
  now (env s') < bound ->
  bound <= now (env s) + 350 ->
  none_due_before bound s ->
  timers_ok s ->
  Forall (fun e => ~ is_TimerFires e) tr
  /\ next_request (env s') = next_request (env s)
  /\ (next_timer (env s) <= next_timer (env s'))%nat
  /\ timers_ok s'.
Proof.
  induction tr as [|e rest IH]; intros s s' Hrun Hlt Hb Hdue Hok; cbn [run] in Hrun.
  - injection Hrun as <-. split; [constructor|]. auto.
  - destruct (step page s e) as [s1|] eqn:Hstep; [|discriminate].
    pose proof (run_now_le page rest s1 s' Hrun) as Hmono.
    destruct (step_timers page s e s1 Hstep) as (Hn & Hnt & Hsub).
    assert (Hdue1 : none_due_before bound s1).
    { intros t due Ht. apply Hsub in Ht as [Ht|[_ ->]]; [exact (Hdue t due Ht) | lia]. }
    destruct (IH s1 s' Hrun Hlt ltac:(lia) Hdue1 (step_timers_ok page s e s1 Hstep Hok))
      as (Hall & Hreq & Hnt' & Hok').
    assert (He : ~ is_TimerFires e /\ next_request (env s1) = next_request (env s)).
    { pose proof (step_schedule page s e s1 Hstep) as H.
      destruct e; cbn [is_TimerFires]; try (destruct H as (_ & H & _); auto).
      - subst s1. auto.
      - destruct H as (due & Ht & Hle & _). apply Hdue in Ht. lia. }
    destruct He as [He Hr].
    split; [constructor; assumption|]. split; [congruence|]. split; [lia | exact Hok'].
Qed.

(** C8.  Let an event schedule an analysis (it calls [queueAnalysis], which
    hands out timer [t1]), let anything happen for less than 350 ms, and
    let a second event schedule an analysis (timer [t2]).  Then in between
    no timer fired and no request was sent; after the second event [t2] is
    the only pending timer, due 350 ms later, and it is not [t1]; [t1]
    never fires, whatever follows; and when [t2] fires after its delay it
    sends exactly one request, with the files of the store, after which
    [t2] never fires again. *)
Theorem second_trigger_cancels_first page s0 e1 s1 tr s1' e2 s2 :
  timers_ok s0 ->
  step page s0 e1 = Some s1 ->
  next_timer (env s1) = S (next_timer (env s0)) ->
  run page s1 tr = Some s1' ->
  now (env s1') < now (env s1) + 350 ->
  step page s1' e2 = Some s2 ->
  next_timer (env s2) = S (next_timer (env s1')) ->
  let t1 := next_timer (env s0) in
  let t2 := next_timer (env s1') in
  Forall (fun e => ~ is_TimerFires e) tr
  /\ next_request (env s2) = next_request (env s0)
  /\ t1 <> t2
  /\ timers (env s2) = {[ t2 := now (env s2) + 350 ]}
  /\ (forall tr' s3, run page s2 tr' = Some s3 -> TimerFires t1 ∉ tr')
  /\ (forall d, 350 <= d ->
        exists s3 s4,
          step page s2 (Tick d) = Some s3
          /\ step page s3 (TimerFires t2) = Some s4
          /\ next_request (env s4) = S (next_request (env s3))
          /\ requests (env s4) !! next_request (env s3)
             = Some {| req_url := analyzeUrl page;
                       req_photos := map file (selectedFiles (js s2));
                       req_aborted := false;
                       req_phase := Fetching |}
          /\ (forall tr' s5, run page s4 tr' = Some s5 -> TimerFires t2 ∉ tr')).
Proof.
  intros Hok0 Hstep1 Hnt1 Hrun Hlt Hstep2 Hnt2 t1 t2.
  destruct (scheduling_step page s0 e1 s1 Hstep1 Hnt1) as (Hv1 & _ & Hn1 & Hr1).
  assert (Hok1 : timers_ok s1).
  { apply (timers_ok_tview _ _ Hv1), timers_ok_queued, Hok0. }
  assert (Ht1 : timers (env s1) = {[ t1 := now (env s1) + 350 ]}).
  { unfold tview in Hv1. injection Hv1 as _ Ht _. rewrite Ht, Hn1.
    apply queued_timers, Hok0. }
  assert (Hdue1 : none_due_before (now (env s1) + 350) s1).
  { intros t due H. rewrite Ht1 in H. apply lookup_singleton_Some in H as [_ <-]. lia. }
  destruct (quiet_window page _ tr s1 s1' Hrun Hlt ltac:(lia) Hdue1 Hok1)
    as (Hquiet & Hreq & Hmono & Hok1').
  destruct (scheduling_step page s1' e2 s2 Hstep2 Hnt2) as (Hv2 & Hstore2 & Hn2 & Hr2).
  assert (Ht2 : timers (env s2) = {[ t2 := now (env s2) + 350 ]}).
  { unfold tview in Hv2. injection Hv2 as _ Ht _. rewrite Ht, Hn2.
    apply queued_timers, Hok1'. }
  assert (Hne : t1 <> t2) by (unfold t1, t2; lia).
  assert (Hsp1 : spent t1 s2).
  { split; [rewrite Ht2; apply lookup_singleton_ne; congruence | unfold t1; lia]. }
  split; [exact Hquiet|]. split; [congruence|]. split; [exact Hne|]. split; [exact Ht2|].
  split; [intros tr' s3 Hr; exact (proj1 (spent_never_fires page t1 tr' s2 s3 Hr Hsp1))|].
  intros d Hd.
  set (s3 := set_now (now (env s2) + d) s2).
  assert (Hfire : exists s4, step page s3 (TimerFires t2) = Some s4).
  { cbn [step]. change (timers (env s3)) with (timers (env s2)). rewrite Ht2.
    rewrite lookup_singleton_eq. change (now (env s3)) with (now (env s2) + d).
    destruct (N.leb_spec (now (env s2) + 350) (now (env s2) + d)); [eauto | lia]. }
  destruct Hfire as [s4 Hstep4].
  exists s3, s4. split; [reflexivity|]. split; [exact Hstep4|].
  pose proof (step_schedule page s3 (TimerFires t2) s4 Hstep4) as H. cbn beta iota in H.
  destruct H as (due & _ & _ & _ & _ & [[Hempty _]|(_ & Hv4 & Hr4 & Hq4)]).
  { exfalso. apply Hstore2. exact Hempty. }
  split; [exact Hr4|]. split; [exact Hq4|].
  intros tr' s5 Hr5.
  assert (Hsp2 : spent t2 s4).
  { unfold tview in Hv4. injection Hv4 as _ Ht Hnt. split.
    - destruct (timers (env s4) !! t2) as [x|] eqn:Hx; [|reflexivity].
      rewrite Ht in Hx. apply cancelled_timers_sub in Hx. cbn in Hx.
      rewrite lookup_delete_eq in Hx. discriminate.
    - rewrite Hnt.
      assert (next_timer (env (cancelled (fired t2 s3))) = next_timer (env s2)).
      { unfold cancelled. destruct (analysisTimeout (js (fired t2 s3))); reflexivity. }
      unfold t2 in *. lia. }
  exact (proj1 (spent_never_fires page t2 tr' s4 s5 Hr5 Hsp2)).
Qed.

Lemma init_timers_ok page : timers_ok (init page).
Proof.
  unfold init, exec, updateClearButton, modify. cbn [snd doc clearButton].
  destruct (hasClearButton page); split; cbn; intros; first [discriminate | done].
Qed.

(** Every state the page can reach keeps the discipline of the timers. *)
Lemma reachable_timers_ok page tr : forall s s',
  run page s tr = Some s' -> timers_ok s -> timers_ok s'.
Proof.
  induction tr as [|e rest IH]; intros s s' Hrun Hok; cbn [run] in Hrun.
  - injection Hrun as <-. exact Hok.
  - destruct (step page s e) as [s1|] eqn:Hstep; [|discriminate].
    exact (IH s1 s' Hrun (step_timers_ok page s e s1 Hstep Hok)).
Qed.

(** Two batches of photos 100 ms apart on the sample page: timer 1 is
    replaced by timer 2, due at 450 ms, and never fires. *)
Lemma second_trigger_cancels_first_witness :
  exists s1 s1' s2,
    step (sample_page true) (init (sample_page true)) (Change [photo "a" 2]) = Some s1
    /\ run (sample_page true) s1 [Tick 100] = Some s1'
    /\ step (sample_page true) s1' (Change [photo "b" 3]) = Some s2
    /\ timers (env s2) = {[ 2%nat := 450 ]}
    /\ forall tr' s3, run (sample_page true) s2 tr' = Some s3 -> TimerFires 1 ∉ tr'.
Proof.
  destruct (step (sample_page true) (init (sample_page true)) (Change [photo "a" 2]))
    as [s1|] eqn:H1; [|vm_compute in H1; discriminate].
  assert (F1 : next_timer (env s1) = 2%nat /\ now (env s1) = 0).
  { vm_compute in H1. injection H1 as <-. split; reflexivity. }
  destruct (run (sample_page true) s1 [Tick 100]) as [s1'|] eqn:Hr;
    [|cbn in Hr; discriminate].
  assert (F2 : next_timer (env s1') = 2%nat /\ now (env s1') = 100).
  { cbn in Hr. injection Hr as <-. cbn. destruct F1 as [-> ->]. split; reflexivity. }
  destruct (step (sample_page true) s1' (Change [photo "b" 3])) as [s2|] eqn:H2;
    [|cbn in H2; discriminate].
  assert (F3 : next_timer (env s2) = 3%nat /\ now (env s2) = 100).
  { cbn in Hr. injection Hr as <-. vm_compute in H1. injection H1 as <-.
    vm_compute in H2. injection H2 as <-. split; reflexivity. }
  destruct F1 as [F1 N1], F2 as [F2 N2], F3 as [F3 N3].
  destruct (second_trigger_cancels_first (sample_page true) (init (sample_page true))
              (Change [photo "a" 2]) s1 [Tick 100] s1' (Change [photo "b" 3]) s2
              (init_timers_ok (sample_page true)) H1)
    as (_ & _ & _ & Ht & Hnever & _).
  - rewrite F1. reflexivity.
  - exact Hr.
  - rewrite N1, N2. reflexivity.
  - exact H2.
  - rewrite F2, F3. reflexivity.
  - exists s1, s1', s2. split; [reflexivity|]. split; [exact Hr|]. split; [exact H2|].
    split; [rewrite Ht, F2, N3; reflexivity | exact Hnever].
Defined.


(** ** Superseded requests *)

(** The [finally] block runs when the coroutine ends on an abort as on
    any other end. *)
Lemma abort_settlement_clears_marker page s r s' :
  step page s (Settles r AbortSignalled) = Some s' ->
  analyzing (js s') = false /\ analysisController (js s') = None.
Proof.
  cbn [step]. unfold settle. destruct (requests (env s) !! r) as [q|]; [|discriminate].
  destruct (req_aborted q), (req_phase q); try discriminate;
    intros H; injection H as <-; rewrite finish_eq; split; reflexivity.
Qed.

(** C2 fails on the code: once the superseded request 0 has settled on its
    abort, request 1 is in flight but [analyzing] is false and no
    controller is held; so the next analysis aborts nothing, and requests
    1 and 2 are in flight together. *)
Theorem superseded_abort_clears_current_marker :
  exists s s',
    run (sample_page true) (init (sample_page true)) superseding_trace = Some s
    /\ in_flight s = {[ 1%nat ]}
    /\ analyzing (js s) = false
    /\ analysisController (js s) = None
    /\ run (sample_page true) (init (sample_page true)) third_request_trace = Some s'
    /\ in_flight s' = {[ 1%nat; 2%nat ]}.
Proof.
  eexists. eexists.
  split; [vm_compute; reflexivity|].
  split; [vm_compute; reflexivity|].
  split; [reflexivity|]. split; [reflexivity|].
  split; [vm_compute; reflexivity|].
  vm_compute; reflexivity.
Qed.

(** C3 fails on the code: request 2 was started while request 1 was in
    flight, yet request 1 was not aborted.  Once request 2 has bound the
    token ["new"], the late response of request 1 replaces it by its own
    token ["old"], or, when it is a failure, clears it and turns the
    status line to an error. *)
Theorem superseded_response_overwrites_newer :
  exists s s1 s2,
    run (sample_page true) (init (sample_page true))
      (third_request_trace
       ++ [Settles 2 (FetchFulfilled true);
           Settles 2 (JsonSettled (Some (body_ok "new" "SN2")))]) = Some s
    /\ sessionInput (doc s) = lit "new"
    /\ statusTone (doc s) = Some (lit "success")
    /\ in_flight s = {[ 1%nat ]}
    /\ run (sample_page true) s
         [Settles 1 (FetchFulfilled true);
          Settles 1 (JsonSettled (Some (body_ok "old" "SN1")))] = Some s1
    /\ sessionInput (doc s1) = lit "old"
    /\ run (sample_page true) s
         [Settles 1 (FetchFulfilled false);
          Settles 1 (JsonSettled (Some (VObj [(lit "message", VStr (lit "old"))])))]
       = Some s2
    /\ sessionInput (doc s2) = []
    /\ statusTone (doc s2) = Some (lit "error")
    /\ statusText (doc s2) = lit "old".
Proof.
  eexists. eexists. eexists.
  split; [vm_compute; reflexivity|].
  split; [vm_compute; reflexivity|].
  split; [vm_compute; reflexivity|].
  split; [vm_compute; reflexivity|].
  split; [vm_compute; reflexivity|].
  split; [vm_compute; reflexivity|].
  split; [vm_compute; reflexivity|].
  split; [vm_compute; reflexivity|].
  split; vm_compute; reflexivity.
Qed.

(** C10 fails on the code: once the superseded request 0 has settled on
    its abort, request 1 is awaited, its signal not aborted, but
    [analyzing] is false; a click on the trigger then opens the file
    chooser while the request is in flight. *)
Theorem trigger_click_opens_chooser_in_flight :
  exists s q s',
    run (sample_page true) (init (sample_page true)) superseding_trace = Some s
    /\ requests (env s) !! 1%nat = Some q
    /\ req_aborted q = false
    /\ req_phase q = Fetching
    /\ in_flight s = {[ 1%nat ]}
    /\ analyzing (js s) = false
    /\ step (sample_page true) s TriggerClick = Some s'
    /\ picker_opened (env s) = 0%nat
    /\ picker_opened (env s') = 1%nat.
Proof.
  eexists. eexists. eexists.
  split; [vm_compute; reflexivity|].
  split; [vm_compute; reflexivity|].
  split; [reflexivity|]. split; [reflexivity|].
  split; [vm_compute; reflexivity|].
  split; [reflexivity|].
  split; [vm_compute; reflexivity|].
  split; reflexivity.
Qed.

(** ** The store in every reachable state *)

Lemma store_ok_view page s s' : store_view s' = store_view s -> store_ok page s -> store_ok page s'.
Proof.
  unfold store_view. intros H. injection H as H1 H2 H3 H4.
  apply store_ok_ext; assumption.
Qed.

Lemma store_view_refreshed page s : store_view (refreshed page s) = store_view s.
Proof. unfold store_view. rewrite refreshed_js, refreshed_env. reflexivity. Qed.

Lemma store_view_cancelled s : store_view (cancelled s) = store_view s.
Proof. unfold store_view, cancelled. destruct (analysisTimeout (js s)); reflexivity. Qed.

Lemma store_view_abort_held s : store_view (abort_held s) = store_view s.
Proof.
  unfold store_view, abort_held, abort, modify. destruct (analysisController (js s)); [|reflexivity].
  cbn [snd]. destruct (requests (env s) !! n); reflexivity.
Qed.

Lemma totalBytes_delete (l : list Entry) : forall i,
  fold_left (fun sum entry => sum + file_size (file entry)) (delete i l) 0
  <= fold_left (fun sum entry => sum + file_size (file entry)) l 0.
Proof.
  induction l as [|e r IH]; intros i; [destruct i; cbn; lia|].
  destruct i as [|i]; cbn [delete list_delete fold_left].
  - rewrite (fold_left_add (fun e => file_size (file e)) r (0 + _)). lia.
  - rewrite (fold_left_add (fun e => file_size (file e)) (delete i r) (0 + _)),
      (fold_left_add (fun e => file_size (file e)) r (0 + _)).
    apply N.add_le_mono_l. apply IH.
Qed.

Lemma map_delete {A B} (f : A -> B) (l : list A) : forall i,
  map f (delete i l) = delete i (map f l).
Proof.
  induction l as [|x r IH]; intros [|i]; cbn; try reflexivity.
  f_equal. apply IH.
Qed.

Lemma spliced_store_ok page index removed s :
  store_ok page s -> store_ok page (spliced index removed s).
Proof.
  intros [Hc Hb (ks & Hks & Hnd & Hlt) Hu]. constructor.
  - cbn. pose proof (sublist_length _ _ (sublist_delete (selectedFiles (js s)) index)). lia.
  - unfold totalBytes in *. cbn.
    pose proof (totalBytes_delete (selectedFiles (js s)) index). lia.
  - exists (delete index ks). cbn. rewrite map_delete, Hks, <- map_delete.
    split; [reflexivity|]. split.
    + eapply sublist_NoDup; [exact Hnd | apply sublist_delete].
    + rewrite Forall_forall in *. intros k Hk. apply Hlt.
      eapply elem_of_sublist; [exact Hk | apply sublist_delete].
  - cbn. intros h Hh. apply elem_of_difference in Hh as [Hh _]. auto.
Qed.

Lemma emptied_store_ok page s :
  store_ok page s -> store_ok page (set_selectedFiles [] (revoked_all (cancelled s))).
Proof.
  intros Hok. apply (store_ok_view page _ _ (store_view_cancelled s)) in Hok.
  destruct Hok as [Hc Hb (ks & Hks & Hnd & Hlt) Hu]. constructor.
  - cbn. lia.
  - unfold totalBytes. cbn. unfold MAX_TOTAL_BYTES. lia.
  - exists []. cbn. split; [reflexivity|]. split; constructor.
  - cbn. intros h Hh. apply elem_of_difference in Hh as [Hh _]. auto.
Qed.

Lemma step_store_ok page s e s' :
  step page s e = Some s' -> store_ok page s -> store_ok page s'.
Proof.
  intros Hstep Hok. destruct e; cbn [step] in Hstep.
  - injection Hstep as <-. unfold exec, onChange. rewrite handleFiles_eq. cbv zeta.
    assert (Hok0 : store_ok page (set_fileInput files s))
      by (apply (store_ok_view page s); [reflexivity | exact Hok]).
    destruct (Nat.eqb (length _) 0); [exact Hok0|].
    destruct (_ <? _)%nat eqn:Hcount;
      [rewrite showStatus_str; apply (store_ok_view page s); [reflexivity | exact Hok]|].
    destruct (_ <? _)%N eqn:Hbytes;
      [rewrite showStatus_str; apply (store_ok_view page s); [reflexivity | exact Hok]|].
    cbn [snd].
    eapply store_ok_view;
      [|apply (pushed_store_ok page (incoming_of (Some (map Some files))) _ Hok0)].
    + change (store_view (queued ?x)) with (store_view x). apply store_view_refreshed.
    + apply Nat.ltb_ge in Hcount. apply N.ltb_ge in Hbytes.
      intros [Hx|Hx]; [cbn in Hx, Hcount | unfold totalBytes in *; cbn in Hx, Hbytes]; lia.
  - destruct (bool_decide _); [|discriminate]. injection Hstep as <-.
    unfold exec. rewrite removeFile_eq.
    destruct (list_find _ _) as [[index removed]|]; [|exact Hok].
    cbv zeta. pose proof (spliced_store_ok page index removed s Hok) as Hsp.
    destruct (negb _); cbn [snd]; eapply store_ok_view; try exact Hsp.
    + change (store_view (queued ?x)) with (store_view x). apply store_view_refreshed.
    + change (store_view (set_status ?a ?b ?x)) with (store_view x).
      rewrite store_view_cancelled. apply store_view_refreshed.
  - destruct (clearButton (doc s)); [|discriminate]. injection Hstep as <-.
    unfold exec. rewrite onClearClick_eq. cbn [snd].
    eapply store_ok_view; [|apply (emptied_store_ok page s Hok)].
    change (store_view (set_status ?a ?b ?x)) with (store_view x).
    apply store_view_refreshed.
  - destruct (hasTrigger page); [|discriminate]. injection Hstep as <-.
    unfold exec. rewrite onTriggerClick_eq. cbn [snd].
    destruct (analyzing (js s)); [exact Hok|].
    apply (store_ok_view page s); [reflexivity | exact Hok].
  - injection Hstep as <-. unfold exec. rewrite onSubmit_eq. cbn [snd]. unfold synced.
    destruct (negb _), (hasDataTransfer page); try exact Hok;
      (apply (store_ok_view page s); [reflexivity | exact Hok]).
  - injection Hstep as <-. unfold exec. rewrite onReset_eq. cbn [snd].
    eapply store_ok_view; [|apply (emptied_store_ok page s Hok)].
    unfold button_updated. cbn [doc clearButton set_status upd_doc set_sessionInput].
    destruct (clearButton _); reflexivity.
  - injection Hstep as <-. apply (store_ok_view page s); [reflexivity | exact Hok].
  - destruct (timers (env s) !! t); [|discriminate].
    destruct (_ <=? _); [|discriminate]. injection Hstep as <-.
    unfold exec. rewrite runAnalysis_eq.
    destruct (Nat.eqb _ 0); cbn [snd];
      [apply (store_ok_view page s); [reflexivity | exact Hok]|].
    eapply store_ok_view; [|exact Hok].
    change (store_view (sent page ?x)) with (store_view x).
    rewrite store_view_abort_held, store_view_cancelled. reflexivity.
  - pose proof (settle_schedule page r a s s' Hstep) as (_ & _ & _ & _ & _ & _ & Hv).
    exact (store_ok_view page s s' Hv Hok).
Qed.

(** Every state the page can reach has a store within its limits, with
    ids that [generateId] produced one by one. *)
Lemma reachable_store_ok page tr : forall s s',
  run page s tr = Some s' -> store_ok page s -> store_ok page s'.
Proof.
  induction tr as [|e rest IH]; intros s s' Hrun Hok; cbn [run] in Hrun.
  - injection Hrun as <-. exact Hok.
  - destruct (step page s e) as [s1|] eqn:Hstep; [|discriminate].
    exact (IH s1 s' Hrun (step_store_ok page s e s1 Hstep Hok)).
Qed.

(** ** Every reachable state *)

(** From the state the script starts in, whatever the user, the timers and
    the network do, the store stays within its limits, at most one timer
    is pending, and a set [analyzing] flag goes with a request in
    flight. *)
Corollary reachable_invariants page tr s :
  run page (init page) tr = Some s ->
  store_ok page s /\ timers_ok s /\ marker_ok s.
Proof.
  intros Hrun. split; [|split].
  - exact (reachable_store_ok page tr _ _ Hrun (init_store_ok page)).
  - exact (reachable_timers_ok page tr _ _ Hrun (init_timers_ok page)).
  - exact (reachable_marker_ok page tr _ _ Hrun (init_marker_ok page)).
Qed.


(** ** The view and the resources in every reachable state *)

Lemma refreshed_view page s :
  strip (doc (refreshed page s)) = thumbnails (selectedFiles (js s))
  /\ clearButton (doc (refreshed page s))
     = match clearButton (doc s) with
       | None => None
       | Some _ => Some (Nat.eqb (length (selectedFiles (js s))) 0)
       end.
Proof.
  unfold refreshed, button_updated, rendered, synced, thumbnails.
  destruct (hasDataTransfer page); cbn; destruct (clearButton (doc s)) eqn:E; cbn;
    rewrite ?E; split; reflexivity.
Qed.

Lemma button_after page s n :
  clearButton (doc s)
  = (if hasClearButton page then Some (Nat.eqb (length (selectedFiles (js s))) 0) else None) ->
  match clearButton (doc s) with
  | None => None
  | Some _ => Some (Nat.eqb n 0)
  end = if hasClearButton page then Some (Nat.eqb n 0) else None.
Proof. intros ->. destruct (hasClearButton page); reflexivity. Qed.

Lemma handles_new_entries page incoming : forall k h,
  list_to_set (map previewUrl (new_entries page k h incoming)) = handles h (length incoming).
Proof.
  induction incoming as [|f r IH]; intros k h; cbn; [reflexivity|].
  rewrite IH. reflexivity.
Qed.

Lemma list_to_set_delete (l : list N) i x :
  NoDup l -> l !! i = Some x ->
  list_to_set (C := gset N) (delete i l) = list_to_set l ∖ {[x]}.
Proof.
  intros Hnd Hx. apply set_eq. intros y.
  rewrite elem_of_difference, !elem_of_list_to_set, elem_of_singleton.
  rewrite <- (take_drop_middle l i x Hx) at 2.
  rewrite <- (take_drop_middle l i x Hx) in Hnd.
  rewrite delete_take_drop.
  apply NoDup_app in Hnd as (_ & Hd & Hnd').
  apply NoDup_cons in Hnd' as [Hx' _].
  rewrite !elem_of_app, elem_of_cons. split.
  - intros [Hy|Hy]; (split; [auto|]); intros ->.
    + apply (Hd x Hy). left.
    + contradiction.
  - intros [[Hy|[->|Hy]] Hne]; auto. contradiction.
Qed.

Lemma NoDup_delete {A} (l : list A) i : NoDup l -> NoDup (delete i l).
Proof. intros H. eapply sublist_NoDup; [exact H | apply sublist_delete]. Qed.

Lemma bytes_of_store s : bytes_of (map file (selectedFiles (js s))) = totalBytes s.
Proof.
  unfold bytes_of, totalBytes. generalize 0.
  induction (selectedFiles (js s)) as [|e r IH]; intros a; cbn; [reflexivity|]. apply IH.
Qed.

Lemma bytes_of_total_size files : bytes_of files = total_size files.
Proof.
  unfold bytes_of. induction files as [|f r IH]; cbn [fold_left total_size]; [reflexivity|].
  rewrite fold_left_add, IH. lia.
Qed.

Lemma totalBytes_total_size s :
  totalBytes s = total_size (map file (selectedFiles (js s))).
Proof. rewrite <- bytes_of_store. apply bytes_of_total_size. Qed.

Lemma limits_agree s incoming :
  exceeds_limits s incoming <-> over_limits (map file (selectedFiles (js s))) incoming.
Proof.
  unfold exceeds_limits, over_limits.
  rewrite totalBytes_total_size, bytes_of_total_size, length_map.
  unfold MAX_FILES, MAX_TOTAL_BYTES. reflexivity.
Qed.

Lemma cancelled_timers_empty s t : timers_ok s -> timers (env (cancelled s)) !! t = None.
Proof.
  intros [H1 _]. unfold cancelled.
  destruct (analysisTimeout (js s)) as [t0|] eqn:E; cbn.
  - destruct (decide (t = t0)) as [->|Hne]; [apply lookup_delete_eq|].
    rewrite lookup_delete_ne by congruence.
    destruct (timers (env s) !! t) eqn:Ht; [|reflexivity]. apply H1 in Ht. congruence.
  - destruct (timers (env s) !! t) eqn:Ht; [|reflexivity]. apply H1 in Ht. congruence.
Qed.

(** What [showStatus] does to the status element, and to nothing else. *)
Lemma showStatus_effect page m tone s :
  showStatus page m tone s = (Throw TypeError, s)
  \/ exists text, showStatus page m tone s
       = (Ok tt, set_status text (if Nat.eqb (length tone) 0 then None else Some tone) s).
Proof.
  unfold showStatus. destruct (truthy m); [destruct m|]; run_m; eauto.
Qed.

Lemma init_view_ok page : view_ok page (init page).
Proof.
  unfold init, exec, updateClearButton, modify. cbn [snd doc clearButton].
  destruct (hasClearButton page) eqn:E; constructor; cbn; rewrite ?E;
    try reflexivity; try constructor; try (intros; discriminate);
    try (intros ? ? H; rewrite lookup_empty in H; discriminate).
  all: apply list_elem_of_here.
Qed.

(** The end of a request, and the arrival of its response headers, leave
    the strip and the clear button alone, set no tone but [error] and
    [success], and change nothing in the requests that remain. *)
Lemma settle_view page r a s s' :
  settle page r a s = Some s' ->
  strip (doc s') = strip (doc s)
  /\ clearButton (doc s') = clearButton (doc s)
  /\ (statusTone (doc s') = statusTone (doc s)
      \/ statusTone (doc s') = Some (lit "error")
      \/ statusTone (doc s') = Some (lit "success"))
  /\ (forall r' q, requests (env s') !! r' = Some q ->
        exists q0, requests (env s) !! r' = Some q0
                   /\ req_url q = req_url q0 /\ req_photos q = req_photos q0).
Proof.
  unfold settle. destruct (requests (env s) !! r) as [q|] eqn:Hq; [|discriminate].
  assert (Hdel : forall r' q', delete r (requests (env s)) !! r' = Some q' ->
            exists q0, requests (env s) !! r' = Some q0
                       /\ req_url q' = req_url q0 /\ req_photos q' = req_photos q0).
  { intros r' q' H. apply lookup_delete_Some in H as [_ H]. eauto. }
  assert (Hjson : forall ok payload,
    let x := finish page r (afterJson page ok payload) s in
    strip (doc x) = strip (doc s)
    /\ clearButton (doc x) = clearButton (doc s)
    /\ (statusTone (doc x) = statusTone (doc s)
        \/ statusTone (doc x) = Some (lit "error")
        \/ statusTone (doc x) = Some (lit "success"))
    /\ requests (env x) = delete r (requests (env s))).
  { intros ok payload. cbv zeta. rewrite finish_eq.
    destruct (is_nullish payload) eqn:Hn.
    { rewrite afterJson_nullish by exact Hn. cbn. auto 10. }
    destruct (failing ok payload) eqn:Hf.
    - rewrite afterJson_failing by assumption.
      destruct (showStatus_effect page
                  (js_or (prop payload (lit "message"))
                     (VStr (lit "Photo analysis failed. Please submit manually or retry.")))
                  (lit "error") (set_sessionInput [] (dropped r s))) as [H|[text H]];
        rewrite H; cbn; auto 10.
    - rewrite afterJson_success by assumption. cbn. auto 10. }
  destruct (req_aborted q), (req_phase q), a; try discriminate;
    intros H; injection H as <-.
  all: try (destruct (Hjson ok (VObj [])) as (A & B & C & D);
            split; [exact A|]; split; [exact B|]; split; [exact C|];
            rewrite D; exact Hdel).
  all: try (destruct (Hjson ok (default (VObj []) body)) as (A & B & C & D);
            split; [exact A|]; split; [exact B|]; split; [exact C|];
            rewrite D; exact Hdel).
  all: try (rewrite finish_eq; cbn; split; [reflexivity|]; split; [reflexivity|];
            split; [auto|]; exact Hdel).
  cbn. split; [reflexivity|]. split; [reflexivity|]. split; [auto|].
  intros r' q'. destruct (decide (r' = r)) as [->|Hne].
  - rewrite lookup_insert_eq. intros H. injection H as <-. exists q. auto.
  - rewrite lookup_insert_ne by congruence. eauto.
Qed.

Lemma abort_held_requests s r q :
  requests (env (abort_held s)) !! r = Some q ->
  exists q0, requests (env s) !! r = Some q0
             /\ req_url q = req_url q0 /\ req_photos q = req_photos q0.
Proof.
  unfold abort_held, abort, modify. destruct (analysisController (js s)) as [c|]; [|eauto].
  cbn [snd]. destruct (requests (env s) !! c) as [qc|] eqn:Hc; [|eauto].
  cbn. destruct (decide (r = c)) as [->|Hne].
  - rewrite lookup_insert_eq. intros H. injection H as <-. exists qc. auto.
  - rewrite lookup_insert_ne by congruence. eauto.
Qed.

Lemma abort_held_doc s : doc (abort_held s) = doc s.
Proof.
  unfold abort_held, abort, modify. destruct (analysisController (js s)); [|reflexivity].
  cbn [snd]. destruct (requests (env s) !! n); reflexivity.
Qed.

Lemma view_ok_frame page s s' :
  selectedFiles (js s') = selectedFiles (js s) ->
  objectURLs (env s') = objectURLs (env s) ->
  strip (doc s') = strip (doc s) ->
  clearButton (doc s') = clearButton (doc s) ->
  (forall t due, timers (env s') !! t = Some due -> timers (env s) !! t = Some due) ->
  (forall r q, requests (env s') !! r = Some q ->
     request_ok page q
     \/ exists q0, requests (env s) !! r = Some q0
                   /\ req_url q = req_url q0 /\ req_photos q = req_photos q0) ->
  statusTone (doc s') ∈ tones ->
  view_ok page s -> view_ok page s'.
Proof.
  intros Hs Ho Hst Hb Ht Hr Htone [A B C D E F G]. constructor.
  - rewrite Ho, Hs. exact A.
  - rewrite Hs. exact B.
  - rewrite Hst, Hs. exact C.
  - rewrite Hb, Hs. exact D.
  - intros t due H. rewrite Hs. eapply E. apply Ht. exact H.
  - intros r q H. destruct (Hr r q H) as [Hq|(q0 & H0 & Hu & Hp)]; [exact Hq|].
    destruct (F r q0 H0) as (F1 & F2 & F3 & F4). unfold request_ok.
    rewrite Hu, Hp. auto.
  - exact Htone.
Qed.

Lemma view_ok_same page s s' :
  selectedFiles (js s') = selectedFiles (js s) ->
  objectURLs (env s') = objectURLs (env s) ->
  strip (doc s') = strip (doc s) ->
  clearButton (doc s') = clearButton (doc s) ->
  timers (env s') = timers (env s) ->
  requests (env s') = requests (env s) ->
  statusTone (doc s') ∈ tones ->
  view_ok page s -> view_ok page s'.
Proof.
  intros Hs Ho Hst Hb Ht Hr Htone Hv.
  apply (view_ok_frame page s); auto.
  - intros t due H. rewrite Ht in H. exact H.
  - intros r q H. rewrite Hr in H. right. exists q. auto.
Qed.

Lemma refreshed_parts page x :
  selectedFiles (js (refreshed page x)) = selectedFiles (js x)
  /\ env (refreshed page x) = env x
  /\ strip (doc (refreshed page x)) = thumbnails (selectedFiles (js x))
  /\ clearButton (doc (refreshed page x))
     = match clearButton (doc x) with
       | None => None
       | Some _ => Some (Nat.eqb (length (selectedFiles (js x))) 0)
       end
  /\ statusTone (doc (refreshed page x)) = statusTone (doc x).
Proof.
  rewrite refreshed_js, refreshed_env.
  destruct (refreshed_view page x) as [A B]. destruct (refreshed_doc page x) as (_ & _ & C & _).
  auto.
Qed.

Lemma tone_error : Some (lit "error") ∈ tones.
Proof. unfold tones. apply list_elem_of_In. cbn. auto. Qed.

Lemma tone_progress : Some (lit "progress") ∈ tones.
Proof. unfold tones. apply list_elem_of_In. cbn. auto. Qed.

Lemma tone_success : Some (lit "success") ∈ tones.
Proof. unfold tones. apply list_elem_of_In. cbn. auto. Qed.

Lemma tone_info : Some (lit "info") ∈ tones.
Proof. unfold tones. apply list_elem_of_In. cbn. auto 10. Qed.

Lemma tone_none : None ∈ tones.
Proof. unfold tones. apply list_elem_of_here. Qed.

Lemma queued_requests s : requests (env (queued s)) = requests (env s).
Proof. reflexivity. Qed.

Lemma queued_urls s : objectURLs (env (queued s)) = objectURLs (env s).
Proof. reflexivity. Qed.

Lemma cancelled_urls s : objectURLs (env (cancelled s)) = objectURLs (env s).
Proof. unfold cancelled. destruct (analysisTimeout (js s)); reflexivity. Qed.

Lemma emptied_urls s :
  objectURLs (env s) = list_to_set (map previewUrl (selectedFiles (js s))) ->
  objectURLs (env (revoked_all (cancelled s))) = ∅.
Proof.
  intros H. unfold revoked_all.
  change (objectURLs (env (cancelled s))
          ∖ list_to_set (map previewUrl (selectedFiles (js (cancelled s)))) = ∅).
  rewrite cancelled_store, cancelled_urls, H. apply difference_diag_L.
Qed.

Lemma abort_held_urls s : objectURLs (env (abort_held s)) = objectURLs (env s).
Proof.
  pose proof (store_view_abort_held s) as H. unfold store_view in H.
  injection H as _ _ H _. exact H.
Qed.

Lemma step_view_ok page s e s' :
  step page s e = Some s' ->
  store_ok page s -> timers_ok s -> view_ok page s -> view_ok page s'.
Proof.
  intros Hstep Hstore Htimers Hview. destruct e; cbn [step] in Hstep.
  - (* Change *)
    injection Hstep as <-. unfold exec, onChange. rewrite handleFiles_eq. cbv zeta.
    set (s0 := set_fileInput files s).
    set (inc := incoming_of (Some (map Some files))).
    assert (H0 : view_ok page s0).
    { apply (view_ok_same page s); auto; apply (tone_known _ _ Hview). }
    destruct (Nat.eqb (length inc) 0) eqn:Hlen; [exact H0|].
    destruct (_ <? _)%nat;
      [rewrite showStatus_str; apply (view_ok_same page s0); auto; apply tone_error|].
    destruct (_ <? _)%N;
      [rewrite showStatus_str; apply (view_ok_same page s0); auto; apply tone_error|].
    cbn [snd]. destruct Hview as [A B C D E F G].
    destruct (refreshed_parts page (pushed page inc s0)) as (R1 & R2 & R3 & R4 & R5).
    constructor.
    + rewrite queued_store, R1, queued_urls, R2.
      change (handles (next_url (env s)) (length inc) ∪ objectURLs (env s)
              = list_to_set (map previewUrl
                  (selectedFiles (js s)
                   ++ new_entries page (id_calls (env s)) (next_url (env s)) inc))).
      rewrite map_app, list_to_set_app_L, handles_new_entries.
      rewrite A. apply (comm_L (∪)).
    + rewrite queued_store, R1.
      change (NoDup (map previewUrl
                (selectedFiles (js s)
                 ++ new_entries page (id_calls (env s)) (next_url (env s)) inc))).
      rewrite map_app. apply NoDup_app.
      split; [exact B|]. split; [|apply new_entries_url_NoDup].
      intros x Hx Hx'.
      assert (x ∈ objectURLs (env s)) by (rewrite A; apply elem_of_list_to_set; exact Hx).
      destruct Hstore as [_ _ _ Hu]. apply Hu in H.
      apply list_elem_of_fmap in Hx' as (e0 & -> & He0).
      apply new_entries_url, elem_of_handles in He0. lia.
    + rewrite queued_doc, queued_store, R1. exact R3.
    + rewrite queued_doc, queued_store, R1, R4.
      apply (button_after page s). exact D.
    + intros t due _. rewrite queued_store, R1.
      change (selectedFiles (js (pushed page inc s0)))
        with (selectedFiles (js s)
              ++ new_entries page (id_calls (env s)) (next_url (env s)) inc).
      intros H. apply app_eq_nil in H as [_ H]. apply (f_equal length) in H.
      rewrite new_entries_length in H. cbn [length] in H. rewrite H in Hlen. discriminate.
    + intros r q H. apply (F r q). rewrite queued_requests, R2 in H. exact H.
    + rewrite queued_doc, R5. exact G.
  - (* RemoveClick *)
    destruct (bool_decide _); [|discriminate]. injection Hstep as <-.
    unfold exec. rewrite removeFile_eq.
    destruct (list_find _ _) as [[index removed]|] eqn:Hfind; [|exact Hview].
    apply list_find_Some in Hfind as (Hidx & _ & _).
    cbv zeta. destruct Hview as [A B C D E F G].
    destruct (refreshed_parts page (spliced index removed s)) as (R1 & R2 & R3 & R4 & R5).
    assert (Hlive : objectURLs (env (spliced index removed s))
                    = list_to_set (map previewUrl (selectedFiles (js (spliced index removed s))))).
    { cbn. rewrite map_delete, A. symmetry. apply list_to_set_delete; [exact B|].
      rewrite list_lookup_fmap, Hidx. reflexivity. }
    assert (Hnd : NoDup (map previewUrl (selectedFiles (js (spliced index removed s))))).
    { cbn. rewrite map_delete. apply NoDup_delete. exact B. }
    destruct (negb _) eqn:Hrest; cbn [snd]; constructor.
    + rewrite queued_store, R1, queued_urls, R2. exact Hlive.
    + rewrite queued_store, R1. exact Hnd.
    + rewrite queued_doc, queued_store, R1. exact R3.
    + rewrite queued_doc, queued_store, R1, R4. apply (button_after page s). exact D.
    + intros t due _. rewrite queued_store. intros H. rewrite H in Hrest. discriminate.
    + intros r q H. apply (F r q). rewrite queued_requests, R2 in H. exact H.
    + rewrite queued_doc, R5. exact G.
    + change (objectURLs (env (cancelled (refreshed page (spliced index removed s))))
              = list_to_set (map previewUrl
                  (selectedFiles (js (cancelled (refreshed page (spliced index removed s))))))).
      rewrite cancelled_store, R1.
      replace (objectURLs (env (cancelled (refreshed page (spliced index removed s)))))
        with (objectURLs (env (refreshed page (spliced index removed s))))
        by (unfold cancelled; destruct (analysisTimeout _); reflexivity).
      rewrite R2. exact Hlive.
    + change (NoDup (map previewUrl
                (selectedFiles (js (cancelled (refreshed page (spliced index removed s))))))).
      rewrite cancelled_store, R1. exact Hnd.
    + change (strip (doc (cancelled (refreshed page (spliced index removed s))))
              = thumbnails
                  (selectedFiles (js (cancelled (refreshed page (spliced index removed s)))))).
      rewrite cancelled_doc, cancelled_store, R1. exact R3.
    + change (clearButton (doc (cancelled (refreshed page (spliced index removed s))))
              = if hasClearButton page
                then Some (Nat.eqb (length (selectedFiles
                       (js (cancelled (refreshed page (spliced index removed s)))))) 0)
                else None).
      rewrite cancelled_doc, cancelled_store, R1, R4. apply (button_after page s). exact D.
    + intros t due H.
      change (timers (env (cancelled (refreshed page (spliced index removed s)))) !! t
              = Some due) in H.
      rewrite cancelled_timers_empty in H; [discriminate|].
      apply (timers_ok_tview s); [rewrite tview_refreshed; reflexivity | exact Htimers].
    + intros r q H. apply (F r q).
      change (requests (env (cancelled (refreshed page (spliced index removed s)))) !! r
              = Some q) in H.
      destruct (cancelled_env_rest (refreshed page (spliced index removed s))) as (_ & _ & Hr).
      rewrite Hr, R2 in H. exact H.
    + cbn. apply tone_none.
  - (* ClearClick *)
    destruct (clearButton (doc s)) eqn:Hbtn; [|discriminate]. injection Hstep as <-.
    unfold exec. rewrite onClearClick_eq. cbn [snd].
    set (x := set_selectedFiles [] (revoked_all (cancelled s))).
    destruct Hview as [A B C D E F G].
    destruct (refreshed_parts page x) as (R1 & R2 & R3 & R4 & R5).
    constructor.
    + change (objectURLs (env (refreshed page x))
              = list_to_set (map previewUrl (selectedFiles (js (refreshed page x))))).
      rewrite R1, R2.
      change (objectURLs (env (revoked_all (cancelled s))) = ∅).
      apply emptied_urls. exact A.
    + change (NoDup (map previewUrl (selectedFiles (js (refreshed page x))))).
      rewrite R1. constructor.
    + change (strip (doc (refreshed page x))
              = thumbnails (selectedFiles (js (refreshed page x)))).
      rewrite R1. exact R3.
    + change (clearButton (doc (refreshed page x))
              = if hasClearButton page
                then Some (Nat.eqb (length (selectedFiles (js (refreshed page x)))) 0)
                else None).
      rewrite R1, R4.
      change (clearButton (doc x)) with (clearButton (doc (cancelled s))).
      rewrite cancelled_doc. apply (button_after page s). exact D.
    + intros t due H.
      change (timers (env (refreshed page x)) !! t = Some due) in H. rewrite R2 in H.
      change (timers (env x)) with (timers (env (cancelled s))) in H.
      rewrite cancelled_timers_empty in H by exact Htimers. discriminate.
    + intros r q H. apply (F r q).
      change (requests (env (refreshed page x)) !! r = Some q) in H. rewrite R2 in H.
      change (requests (env x)) with (requests (env (cancelled s))) in H.
      destruct (cancelled_env_rest s) as (_ & _ & Hr). rewrite Hr in H. exact H.
    + cbn. apply tone_info.
  - (* TriggerClick *)
    destruct (hasTrigger page); [|discriminate]. injection Hstep as <-.
    unfold exec. rewrite onTriggerClick_eq. cbn [snd].
    destruct (analyzing (js s)); [exact Hview|].
    apply (view_ok_same page s); auto. apply (tone_known _ _ Hview).
  - (* Submit *)
    injection Hstep as <-. unfold exec. rewrite onSubmit_eq. cbn [snd]. unfold synced.
    destruct (negb _), (hasDataTransfer page); try exact Hview;
      (apply (view_ok_same page s); auto; apply (tone_known _ _ Hview)).
  - (* Reset *)
    injection Hstep as <-. unfold exec. rewrite onReset_eq. cbn [snd].
    destruct Hview as [A B C D E F G].
    unfold button_updated. cbn [doc clearButton set_status upd_doc set_sessionInput].
    change (clearButton (doc (set_selectedFiles [] (revoked_all (cancelled s)))))
      with (clearButton (doc (cancelled s))).
    rewrite cancelled_doc.
    destruct (cancelled_env_rest s) as (_ & _ & Hr).
    pose proof (emptied_urls s A) as Hurl.
    destruct (clearButton (doc s)) eqn:Hbtn; constructor;
      try exact Hurl; try apply NoDup_nil_2; try reflexivity; try apply tone_none.
    all: try (cbn; rewrite D in Hbtn; destruct (hasClearButton page);
              [reflexivity|discriminate]).
    all: try (cbn; rewrite cancelled_doc, Hbtn; rewrite D in Hbtn;
              destruct (hasClearButton page); [discriminate|reflexivity]).
    all: try (intros t due H;
              change (timers (env (cancelled s)) !! t = Some due) in H;
              rewrite cancelled_timers_empty in H by exact Htimers; discriminate).
    all: try (intros r q H; apply (F r q);
              change (requests (env (cancelled s)) !! r = Some q) in H;
              rewrite Hr in H; exact H).
  - (* Tick *)
    injection Hstep as <-. apply (view_ok_same page s); auto. apply (tone_known _ _ Hview).
  - (* TimerFires *)
    destruct (timers (env s) !! t) as [due|] eqn:Hdue; [|discriminate].
    destruct (_ <=? _); [|discriminate]. injection Hstep as <-.
    fold (fired t s). unfold exec. rewrite runAnalysis_eq.
    change (selectedFiles (js (fired t s))) with (selectedFiles (js s)).
    destruct (selectedFiles (js s)) as [|e0 rest] eqn:Hs; cbn [length Nat.eqb snd].
    + apply (view_ok_frame page s); auto; try apply (tone_known _ _ Hview).
      * intros t0 d H. cbn in H. apply lookup_delete_Some in H as [_ H]. exact H.
      * intros r q H. right. exists q. auto.
    + destruct (abort_held_rest (cancelled (fired t s))) as (_ & _ & _ & Hst).
      apply (view_ok_frame page s).
      * cbn. rewrite Hst, cancelled_store. reflexivity.
      * change (objectURLs (env (abort_held (cancelled (fired t s))))
                = objectURLs (env s)).
        rewrite abort_held_urls, cancelled_urls. reflexivity.
      * cbn. rewrite abort_held_doc, cancelled_doc. reflexivity.
      * cbn. rewrite abort_held_doc, cancelled_doc. reflexivity.
      * intros t0 d H.
        assert (Hv : timers (env (sent page (abort_held (cancelled (fired t s)))))
                     = timers (env (cancelled (fired t s)))).
        { cbn. destruct (abort_held_rest (cancelled (fired t s))) as (Hv & _).
          unfold tview in Hv. injection Hv as _ Hv _. exact Hv. }
        rewrite Hv in H. apply cancelled_timers_sub in H. cbn in H.
        apply lookup_delete_Some in H as [_ H]. exact H.
      * intros r q H. cbn in H.
        destruct (decide (r = next_request (env (abort_held (cancelled (fired t s))))))
          as [->|Hne].
        -- rewrite lookup_insert_eq in H. injection H as <-. left.
           unfold request_ok. cbn [req_url req_photos]. rewrite Hst, cancelled_store.
           change (selectedFiles (js (fired t s))) with (selectedFiles (js s)).
           destruct Hstore as [Hc Hb _ _].
           split; [reflexivity|]. split; [rewrite Hs; discriminate|].
           split; [rewrite length_map; exact Hc|].
           rewrite bytes_of_store. exact Hb.
        -- rewrite lookup_insert_ne in H by congruence. right.
           apply abort_held_requests in H as (q0 & H & Hu & Hp).
           destruct (cancelled_env_rest (fired t s)) as (_ & _ & Hr).
           rewrite Hr in H. exists q0. auto.
      * cbn. apply tone_progress.
      * exact Hview.
  - (* Settles *)
    destruct (settle_view page r a s s' Hstep) as (A & B & C & D).
    destruct (settle_schedule page r a s s' Hstep) as (S1 & _ & S3 & _ & _ & _ & S7).
    unfold store_view in S7. injection S7 as _ _ Hu _.
    apply (view_ok_frame page s).
    + exact S1.
    + exact Hu.
    + exact A.
    + exact B.
    + intros t due H. rewrite S3 in H. exact H.
    + intros r' q H. right. exact (D r' q H).
    + destruct C as [->|[->| ->]];
        [apply (tone_known _ _ Hview) | apply tone_error | apply tone_success].
    + exact Hview.
Qed.

(** Every state the page can reach keeps the three invariants together. *)
Lemma run_keeps_invariants page tr : forall s s',
  run page s tr = Some s' ->
  store_ok page s -> timers_ok s -> view_ok page s ->
  store_ok page s' /\ timers_ok s' /\ view_ok page s'.
Proof.
  induction tr as [|e rest IH]; intros s s' Hrun Hs Ht Hv; cbn [run] in Hrun.
  - injection Hrun as <-. auto.
  - destruct (step page s e) as [s1|] eqn:Hstep; [|discriminate].
    apply (IH s1 s' Hrun).
    + exact (step_store_ok page s e s1 Hstep Hs).
    + exact (step_timers_ok page s e s1 Hstep Ht).
    + exact (step_view_ok page s e s1 Hstep Hs Ht Hv).
Qed.

Lemma reachable_view_ok page tr s :
  run page (init page) tr = Some s ->
  store_ok page s /\ timers_ok s /\ view_ok page s.
Proof.
  intros Hrun.
  exact (run_keeps_invariants page tr _ _ Hrun (init_store_ok page) (init_timers_ok page)
           (init_view_ok page)).
Qed.


(** ** What holds in every reachable state *)

(** X1.  The object URLs that are live are exactly the previews of the entries
    of the store, one for each entry: none leaks, none is revoked while
    its photo is still selected. *)
Theorem reachable_previews_live page tr s :
  run page (init page) tr = Some s ->
  objectURLs (env s) = list_to_set (map previewUrl (selectedFiles (js s)))
  /\ NoDup (map previewUrl (selectedFiles (js s)))
  /\ size (objectURLs (env s)) = length (selectedFiles (js s)).
Proof.
  intros Hrun. destruct (reachable_view_ok page tr s Hrun) as (_ & _ & [A B _ _ _ _ _]).
  split; [exact A|]. split; [exact B|].
  rewrite A, size_list_to_set by exact B. apply length_map.
Qed.

Lemma reachable_previews_live_witness :
  exists s, run (sample_page true) (init (sample_page true)) busy_trace = Some s
            /\ size (objectURLs (env s)) = length (selectedFiles (js s)).
Proof.
  destruct (run (sample_page true) (init (sample_page true)) busy_trace) as [s|] eqn:H;
    [|vm_compute in H; discriminate].
  exists s. split; [reflexivity|].
  apply (reachable_previews_live (sample_page true) busy_trace s H).
Defined.

Lemma thumbnails_ids l : map thumb_id (thumbnails l) = map entry_id l.
Proof.
  unfold thumbnails. apply list_eq. intros i.
  rewrite !list_lookup_fmap, list_lookup_imap.
  destruct (l !! i); reflexivity.
Qed.

Lemma thumbnails_srcs l : map thumb_src (thumbnails l) = map previewUrl l.
Proof.
  unfold thumbnails. apply list_eq. intros i.
  rewrite !list_lookup_fmap, list_lookup_imap.
  destruct (l !! i); reflexivity.
Qed.

(** X2.  The strip shows the store: one thumbnail per entry, in order, whose
    Remove button carries the id of the entry and whose image is a live
    object URL. *)
Theorem reachable_strip_shows_store page tr s :
  run page (init page) tr = Some s ->
  strip (doc s) = thumbnails (selectedFiles (js s))
  /\ map thumb_id (strip (doc s)) = map entry_id (selectedFiles (js s))
  /\ (forall th, th ∈ strip (doc s) -> thumb_src th ∈ objectURLs (env s)).
Proof.
  intros Hrun. destruct (reachable_view_ok page tr s Hrun) as (_ & _ & [A _ C _ _ _ _]).
  split; [exact C|]. split; [rewrite C; apply thumbnails_ids|].
  intros th Hth. rewrite A. apply elem_of_list_to_set.
  rewrite <- thumbnails_srcs, <- C. apply list_elem_of_fmap. exists th. auto.
Qed.

Lemma reachable_strip_shows_store_witness :
  exists s, run (sample_page true) (init (sample_page true)) busy_trace = Some s
            /\ map thumb_id (strip (doc s)) = map entry_id (selectedFiles (js s)).
Proof.
  destruct (run (sample_page true) (init (sample_page true)) busy_trace) as [s|] eqn:H;
    [|vm_compute in H; discriminate].
  exists s. split; [reflexivity|].
  apply (reachable_strip_shows_store (sample_page true) busy_trace s H).
Defined.

(** X3.  The clear button, where the page has one, is hidden exactly when the
    store is empty. *)
Theorem reachable_clear_button page tr s :
  run page (init page) tr = Some s ->
  clearButton (doc s)
  = if hasClearButton page
    then Some (bool_decide (selectedFiles (js s) = [])) else None.
Proof.
  intros Hrun. destruct (reachable_view_ok page tr s Hrun) as (_ & _ & [_ _ _ D _ _ _]).
  rewrite D. destruct (hasClearButton page); [|reflexivity].
  destruct (selectedFiles (js s)); reflexivity.
Qed.

Lemma reachable_clear_button_witness :
  exists s, run (sample_page true) (init (sample_page true)) busy_trace = Some s
            /\ clearButton (doc s) = Some false.
Proof.
  destruct (run (sample_page true) (init (sample_page true)) busy_trace) as [s|] eqn:H;
    [|vm_compute in H; discriminate].
  exists s. split; [reflexivity|].
  rewrite (reachable_clear_button (sample_page true) busy_trace s H).
  vm_compute in H. injection H as <-. reflexivity.
Defined.

(** X4.  At most one timer is pending; it is the one [analysisTimeout] names,
    and the store is not empty while it is pending. *)
Theorem reachable_one_timer page tr s :
  run page (init page) tr = Some s ->
  (size (timers (env s)) <= 1)%nat
  /\ (forall t due, timers (env s) !! t = Some due ->
        analysisTimeout (js s) = Some t /\ selectedFiles (js s) <> []).
Proof.
  intros Hrun.
  destruct (reachable_view_ok page tr s Hrun) as (_ & [T1 _] & [_ _ _ _ E _ _]).
  split; [|intros t due H; split; [exact (T1 t due H) | exact (E t due H)]].
  destruct (analysisTimeout (js s)) as [t0|] eqn:Hvar.
  - assert (Hsub : timers (env s) ⊆ {[ t0 := default 0 (timers (env s) !! t0) ]}).
    { apply map_subseteq_spec. intros t due H.
      pose proof (T1 t due H) as Ht. injection Ht as <-.
      rewrite H. apply lookup_singleton_eq. }
    apply map_subseteq_size in Hsub. rewrite map_size_singleton in Hsub. exact Hsub.
  - assert (Hempty : timers (env s) = ∅).
    { apply map_eq. intros t. rewrite lookup_empty.
      destruct (timers (env s) !! t) eqn:H; [|reflexivity].
      apply T1 in H. discriminate. }
    rewrite Hempty, map_size_empty. lia.
Qed.

Lemma reachable_one_timer_witness :
  exists s, run (sample_page true) (init (sample_page true)) busy_trace = Some s
            /\ (size (timers (env s)) <= 1)%nat.
Proof.
  destruct (run (sample_page true) (init (sample_page true)) busy_trace) as [s|] eqn:H;
    [|vm_compute in H; discriminate].
  exists s. split; [reflexivity|].
  apply (reachable_one_timer (sample_page true) busy_trace s H).
Defined.

(** X5.  Every request that is awaited was sent to the endpoint of the pallet
    with at least one photo, at most [MAX_FILES] of them and at most
    [MAX_TOTAL_BYTES] in all: the limits of the store are the limits of
    what the script uploads for analysis. *)
Theorem reachable_requests_within_limits page tr s r q :
  run page (init page) tr = Some s ->
  requests (env s) !! r = Some q ->
  req_url q = analyzeUrl page
  /\ (1 <= length (req_photos q) <= MAX_FILES)%nat
  /\ bytes_of (req_photos q) <= MAX_TOTAL_BYTES.
Proof.
  intros Hrun Hq.
  destruct (reachable_view_ok page tr s Hrun) as (_ & _ & [_ _ _ _ _ F _]).
  destruct (F r q Hq) as (Hu & Hne & Hc & Hb).
  split; [exact Hu|]. split; [|exact Hb]. split; [|exact Hc].
  destruct (req_photos q); [congruence | cbn; lia].
Qed.

Lemma reachable_requests_within_limits_witness :
  exists s q, run (sample_page true) (init (sample_page true)) superseding_trace = Some s
              /\ requests (env s) !! 1%nat = Some q
              /\ (1 <= length (req_photos q) <= MAX_FILES)%nat.
Proof.
  destruct (run (sample_page true) (init (sample_page true)) superseding_trace)
    as [s|] eqn:H; [|vm_compute in H; discriminate].
  destruct (requests (env s) !! 1%nat) as [q|] eqn:Hq;
    [|vm_compute in H; injection H as <-; vm_compute in Hq; discriminate].
  exists s, q. split; [reflexivity|]. split; [exact Hq|].
  apply (reachable_requests_within_limits (sample_page true) superseding_trace s 1 q H Hq).
Defined.

(** X6.  The store never holds more than [MAX_FILES] photos, and the
    sizes of its files never add up to more than [MAX_TOTAL_BYTES],
    whatever is chosen, removed or cleared. *)
Theorem reachable_store_within_limits page tr s :
  run page (init page) tr = Some s ->
  (length (selectedFiles (js s)) <= MAX_FILES)%nat
  /\ total_size (map file (selectedFiles (js s))) <= MAX_TOTAL_BYTES.
Proof.
  intros Hrun. destruct (reachable_view_ok page tr s Hrun) as ([A B _ _] & _ & _).
  split; [exact A|]. rewrite <- totalBytes_total_size. exact B.
Qed.

Lemma reachable_store_within_limits_witness :
  exists s, run (sample_page true) (init (sample_page true)) busy_trace = Some s
            /\ (length (selectedFiles (js s)) <= MAX_FILES)%nat
            /\ total_size (map file (selectedFiles (js s))) <= MAX_TOTAL_BYTES.
Proof.
  destruct (run (sample_page true) (init (sample_page true)) busy_trace) as [s|] eqn:H;
    [|vm_compute in H; discriminate].
  exists s. split; [reflexivity|].
  apply (reachable_store_within_limits (sample_page true) busy_trace s H).
Defined.

(** X7.  When [generateId] never gives the same id twice, no two entries of the
    store share an id: a click on Remove names one entry only. *)
Theorem reachable_ids_distinct page tr s :
  (forall j k, uuids page j = uuids page k -> j = k) ->
  run page (init page) tr = Some s ->
  NoDup (map entry_id (selectedFiles (js s))).
Proof.
  intros Hinj Hrun. destruct (reachable_view_ok page tr s Hrun) as ([_ _ C _] & _ & _).
  destruct C as (ks & -> & Hnd & _).
  apply NoDup_fmap_2; [|exact Hnd]. intros j k. apply Hinj.
Qed.

Lemma lit_inj a b : lit a = lit b -> a = b.
Proof.
  unfold lit. intros H.
  assert (Hid : forall l, map ascii_of_N (map N_of_ascii l) = l).
  { induction l as [|c l IH]; cbn; [reflexivity|].
    rewrite ascii_N_embedding, IH. reflexivity. }
  apply (f_equal (map ascii_of_N)) in H. rewrite !Hid in H.
  rewrite <- (string_of_list_ascii_of_string a), <- (string_of_list_ascii_of_string b).
  f_equal. exact H.
Qed.

Lemma sample_uuids_inj dt j k :
  uuids (sample_page dt) j = uuids (sample_page dt) k -> j = k.
Proof.
  cbn [uuids sample_page]. unfold decimal. intros H.
  apply app_inv_head, lit_inj in H.
  apply Nat2Z.inj. rewrite <- (DecimalZ.of_to (Z.of_nat j)), <- (DecimalZ.of_to (Z.of_nat k)).
  f_equal. apply (f_equal NilZero.int_of_string) in H.
  assert (Hnil : forall z, Z.to_int z <> Decimal.Pos Decimal.Nil
                           /\ Z.to_int z <> Decimal.Neg Decimal.Nil).
  { intros [|p|p]; cbn; split; try discriminate; intros [= Hp];
      exact (Unsigned.to_uint_nonnil p Hp). }
  rewrite !NilZero.isi in H by apply Hnil. congruence.
Qed.

Lemma reachable_ids_distinct_witness :
  exists s, run (sample_page true) (init (sample_page true)) busy_trace = Some s
            /\ NoDup (map entry_id (selectedFiles (js s))).
Proof.
  destruct (run (sample_page true) (init (sample_page true)) busy_trace) as [s|] eqn:H;
    [|vm_compute in H; discriminate].
  exists s. split; [reflexivity|].
  apply (reachable_ids_distinct (sample_page true) busy_trace s
           (sample_uuids_inj true) H).
Defined.

(** X8.  The status line never has a tone other than the four the script
    names ([error], [progress], [success], [info]), or none. *)
Theorem reachable_tone_known page tr s :
  run page (init page) tr = Some s ->
  statusTone (doc s) ∈ tones.
Proof.
  intros Hrun. destruct (reachable_view_ok page tr s Hrun) as (_ & _ & [_ _ _ _ _ _ G]).
  exact G.
Qed.

Lemma reachable_tone_known_witness :
  exists s, run (sample_page true) (init (sample_page true)) busy_trace = Some s
            /\ statusTone (doc s) ∈ tones.
Proof.
  destruct (run (sample_page true) (init (sample_page true)) busy_trace) as [s|] eqn:H;
    [|vm_compute in H; discriminate].
  exists s. split; [reflexivity|].
  apply (reachable_tone_known (sample_page true) busy_trace s H).
Defined.

(** ** A timer that fires *)

Lemma cancelled_timeout s : analysisTimeout (js (cancelled s)) = None.
Proof. unfold cancelled. destruct (analysisTimeout (js s)) eqn:E; [reflexivity | exact E]. Qed.

Lemma timers_empty s : (forall t, timers (env s) !! t = None) -> timers (env s) = ∅.
Proof. intros H. apply map_eq. intros t. rewrite lookup_empty. apply H. Qed.

(** X9.  When the debounce timer fires in a reachable state, the store is not
    empty and [runAnalysis] sends exactly one request: to the endpoint of
    the pallet, with the files of the store in order; it becomes the
    controller held, the flag [analyzing] is set, the status line shows
    "Analyzing photos..." with the tone [progress], and no timer is left
    pending. *)
Theorem fired_timer_sends_the_store page tr s t s' :
  run page (init page) tr = Some s ->
  step page s (TimerFires t) = Some s' ->
  selectedFiles (js s) <> []
  /\ selectedFiles (js s') = selectedFiles (js s)
  /\ requests (env s') !! next_request (env s)
     = Some {| req_url := analyzeUrl page;
               req_photos := map file (selectedFiles (js s));
               req_aborted := false; req_phase := Fetching |}
  /\ next_request (env s') = S (next_request (env s))
  /\ analysisController (js s') = Some (next_request (env s))
  /\ analyzing (js s') = true
  /\ analysisTimeout (js s') = None
  /\ timers (env s') = ∅
  /\ statusText (doc s') = lit "Analyzing photos" ++ [8230]
  /\ statusTone (doc s') = Some (lit "progress").
Proof.
  intros Hrun Hstep.
  destruct (reachable_view_ok page tr s Hrun) as (_ & Htm & Hview).
  cbn [step] in Hstep.
  destruct (timers (env s) !! t) as [due|] eqn:Hdue; [|discriminate].
  destruct (due <=? now (env s)); [|discriminate].
  injection Hstep as <-. fold (fired t s).
  pose proof (pending_nonempty _ _ Hview t due Hdue) as Hne.
  split; [exact Hne|].
  unfold exec. rewrite runAnalysis_eq.
  change (selectedFiles (js (fired t s))) with (selectedFiles (js s)).
  destruct (selectedFiles (js s)) as [|e0 l0] eqn:Hstore; [congruence|].
  cbn [length Nat.eqb snd].
  set (x := abort_held (cancelled (fired t s))).
  assert (Hx : selectedFiles (js x) = e0 :: l0).
  { unfold x. destruct (abort_held_rest (cancelled (fired t s))) as (_ & _ & _ & ->).
    rewrite cancelled_store. exact Hstore. }
  assert (Hr : next_request (env x) = next_request (env s)).
  { unfold x. destruct (abort_held_rest (cancelled (fired t s))) as (_ & _ & -> & _).
    destruct (cancelled_env_rest (fired t s)) as (_ & -> & _). reflexivity. }
  assert (Hv : tview x = tview (cancelled (fired t s))).
  { unfold x. apply abort_held_rest. }
  unfold tview in Hv. injection Hv as Hv1 Hv2 _.
  split; [exact Hx|].
  split; [cbn; rewrite Hr, lookup_insert_eq, Hx; reflexivity|].
  split; [cbn; rewrite Hr; reflexivity|].
  split; [cbn; rewrite Hr; reflexivity|].
  split; [reflexivity|].
  split; [cbn; rewrite Hv1; apply cancelled_timeout|].
  split; [|split; reflexivity].
  change (timers (env (sent page x))) with (timers (env x)). rewrite Hv2.
  apply timers_empty. intros t'. apply cancelled_timers_empty, timers_ok_fired, Htm.
Qed.

Lemma fired_timer_sends_the_store_witness :
  exists s s',
    run (sample_page true) (init (sample_page true))
      [Change [photo "a" 2; photo "b" 3]; Tick 350] = Some s
    /\ step (sample_page true) s (TimerFires 1) = Some s'
    /\ requests (env s') !! next_request (env s)
       = Some {| req_url := analyzeUrl (sample_page true);
                 req_photos := map file (selectedFiles (js s));
                 req_aborted := false; req_phase := Fetching |}.
Proof.
  destruct (run (sample_page true) (init (sample_page true))
              [Change [photo "a" 2; photo "b" 3]; Tick 350]) as [s|] eqn:H;
    [|vm_compute in H; discriminate].
  destruct (step (sample_page true) s (TimerFires 1)) as [s'|] eqn:H';
    [|vm_compute in H; injection H as <-; vm_compute in H'; discriminate].
  exists s, s'. split; [reflexivity|]. split; [exact H'|].
  apply (fired_timer_sends_the_store (sample_page true) _ s 1 s' H H').
Defined.

(** ** Where requests come from *)

Lemma cancelled_requests s : requests (env (cancelled s)) = requests (env s).
Proof. apply cancelled_env_rest. Qed.

(** The listeners of the page send nothing and abort nothing: the requests
    are what they were. *)
Lemma listener_requests page s e s' :
  step page s e = Some s' ->
  match e with
  | TimerFires _ | Settles _ _ => True
  | _ => requests (env s') = requests (env s)
  end.
Proof.
  intros Hstep. destruct e; cbn [step] in Hstep; try exact I.
  - injection Hstep as <-. unfold exec, onChange. rewrite handleFiles_eq. cbv zeta.
    destruct (Nat.eqb (length _) 0); [reflexivity|].
    destruct (_ <? _)%nat; [rewrite showStatus_str; reflexivity|].
    destruct (_ <? _)%N; [rewrite showStatus_str; reflexivity|].
    cbn [snd]. rewrite queued_requests, refreshed_env. reflexivity.
  - destruct (bool_decide _); [|discriminate]. injection Hstep as <-.
    unfold exec. rewrite removeFile_eq.
    destruct (list_find _ _) as [[index removed]|]; [|reflexivity].
    cbv zeta. destruct (negb _); cbn [snd].
    + rewrite queued_requests, refreshed_env. reflexivity.
    + change (requests (env (set_status ?a ?b ?x))) with (requests (env x)).
      rewrite cancelled_requests, refreshed_env. reflexivity.
  - destruct (clearButton (doc s)); [|discriminate]. injection Hstep as <-.
    unfold exec. rewrite onClearClick_eq. cbn [snd].
    change (requests (env (set_status ?a ?b ?x))) with (requests (env x)).
    rewrite refreshed_env.
    change (requests (env (set_selectedFiles [] (revoked_all ?x)))) with (requests (env x)).
    apply cancelled_requests.
  - destruct (hasTrigger page); [|discriminate]. injection Hstep as <-.
    unfold exec. rewrite onTriggerClick_eq. cbn [snd].
    destruct (analyzing (js s)); reflexivity.
  - injection Hstep as <-. unfold exec. rewrite onSubmit_eq. cbn [snd]. unfold synced.
    destruct (negb _), (hasDataTransfer page); reflexivity.
  - injection Hstep as <-. unfold exec. rewrite onReset_eq. cbn [snd].
    unfold button_updated. cbn [doc clearButton set_status upd_doc set_sessionInput].
    destruct (clearButton _);
      change (requests (env (cancelled s)) = requests (env s)); apply cancelled_requests.
  - injection Hstep as <-. reflexivity.
Qed.

(** X10.  A request is sent by the callback of the debounce timer and by nothing
    else: after any other event, every request that is awaited was awaited
    before, with the same url and the same photos. *)
Theorem only_the_timer_sends page s e s' r q :
  step page s e = Some s' ->
  ~ is_TimerFires e ->
  requests (env s') !! r = Some q ->
  exists q0, requests (env s) !! r = Some q0
             /\ req_url q = req_url q0 /\ req_photos q = req_photos q0.
Proof.
  intros Hstep Hnt Hq.
  pose proof (listener_requests page s e s' Hstep) as Hl.
  destruct e; try (rewrite Hl in Hq; exists q; auto).
  - exfalso. apply Hnt. exact I.
  - cbn [step] in Hstep. exact (proj2 (proj2 (proj2 (settle_view page r0 a s s' Hstep))) r q Hq).
Qed.

Lemma only_the_timer_sends_witness :
  exists s s' q q0,
    run (sample_page true) (init (sample_page true))
      [Change [photo "a" 2; photo "b" 3]; Tick 350; TimerFires 1] = Some s
    /\ step (sample_page true) s (RemoveClick (lit "id0")) = Some s'
    /\ requests (env s') !! 0%nat = Some q
    /\ requests (env s) !! 0%nat = Some q0
    /\ req_photos q = req_photos q0.
Proof.
  destruct (run (sample_page true) (init (sample_page true))
              [Change [photo "a" 2; photo "b" 3]; Tick 350; TimerFires 1]) as [s|] eqn:H;
    [|vm_compute in H; discriminate].
  assert (Hs := H). vm_compute in Hs. injection Hs as Hs.
  destruct (step (sample_page true) s (RemoveClick (lit "id0"))) as [s'|] eqn:H';
    [|subst s; vm_compute in H'; discriminate].
  destruct (requests (env s') !! 0%nat) as [q|] eqn:Hq;
    [|subst s; vm_compute in H'; injection H' as <-; vm_compute in Hq; discriminate].
  destruct (only_the_timer_sends (sample_page true) s _ s' 0 q H' (fun f => f) Hq)
    as (q0 & Hq0 & _ & Hp).
  exists s, s', q, q0. auto.
Defined.

(** The handle of every request that is awaited has been handed out. *)
Lemma step_requests_fresh page s e s' :
  step page s e = Some s' ->
  (forall r q, requests (env s) !! r = Some q -> (r < next_request (env s))%nat) ->
  forall r q, requests (env s') !! r = Some q -> (r < next_request (env s'))%nat.
Proof.
  intros Hstep Hok r q Hq.
  assert (Hdec : is_TimerFires e \/ ~ is_TimerFires e).
  { destruct e; cbn; auto. }
  destruct Hdec as [Ht|Hnt].
  - destruct e; try contradiction. cbn [step] in Hstep.
    destruct (timers (env s) !! t); [|discriminate].
    destruct (_ <=? _); [|discriminate]. injection Hstep as <-.
    unfold exec in Hq |- *. rewrite runAnalysis_eq in Hq |- *.
    destruct (Nat.eqb _ 0); cbn [snd] in Hq |- *; [exact (Hok r q Hq)|].
    assert (Hr : next_request (env (abort_held (cancelled (fired t s))))
                 = next_request (env s)).
    { destruct (abort_held_rest (cancelled (fired t s))) as (_ & _ & -> & _).
      destruct (cancelled_env_rest (fired t s)) as (_ & -> & _). reflexivity. }
    fold (fired t s) in Hq |- *.
    remember (abort_held (cancelled (fired t s))) as x eqn:Hx.
    cbn in Hq |- *. rewrite Hr in Hq |- *.
    destruct (decide (r = next_request (env s))) as [->|Hne]; [lia|].
    rewrite lookup_insert_ne in Hq by congruence.
    subst x. apply abort_held_requests in Hq as (q0 & Hq0 & _).
    rewrite cancelled_requests in Hq0. apply Hok in Hq0. lia.
  - assert (Hq0 : exists q0, requests (env s) !! r = Some q0).
    { pose proof (listener_requests page s e s' Hstep) as Hl.
      destruct e; try (rewrite Hl in Hq; exists q; exact Hq).
      - exfalso. apply Hnt. exact I.
      - cbn [step] in Hstep.
        destruct (proj2 (proj2 (proj2 (settle_view page r0 a s s' Hstep))) r q Hq)
          as (q0 & Hq0 & _).
        exists q0. exact Hq0. }
    destruct Hq0 as (q0 & Hq0). apply Hok in Hq0.
    pose proof (step_schedule page s e s' Hstep) as Hs.
    destruct e; try (destruct Hs as (_ & -> & _); exact Hq0).
    + subst s'. exact Hq0.
    + exfalso. apply Hnt. exact I.
Qed.

Lemma reachable_requests_fresh page tr : forall s s',
  run page s tr = Some s' ->
  (forall r q, requests (env s) !! r = Some q -> (r < next_request (env s))%nat) ->
  forall r q, requests (env s') !! r = Some q -> (r < next_request (env s'))%nat.
Proof.
  induction tr as [|e rest IH]; intros s s' Hrun Hok; cbn [run] in Hrun.
  - injection Hrun as <-. exact Hok.
  - destruct (step page s e) as [s1|] eqn:Hstep; [|discriminate].
    exact (IH s1 s' Hrun (step_requests_fresh page s e s1 Hstep Hok)).
Qed.

Lemma init_requests page r : requests (env (init page)) !! r = None.
Proof.
  unfold init, exec, updateClearButton, modify. cbn [snd doc clearButton].
  destruct (hasClearButton page); apply lookup_empty.
Qed.

(** X11.  When the timer fires while a request is awaited under the controller
    held, [runAnalysis] aborts that request before it sends the new one:
    its signal is set and nothing else of it changes. *)
Theorem fired_timer_aborts_held_request page tr s t s' c q :
  run page (init page) tr = Some s ->
  step page s (TimerFires t) = Some s' ->
  analysisController (js s) = Some c ->
  requests (env s) !! c = Some q ->
  requests (env s') !! c
  = Some {| req_url := req_url q; req_photos := req_photos q;
            req_aborted := true; req_phase := req_phase q |}.
Proof.
  intros Hrun Hstep Hc Hq.
  destruct (reachable_view_ok page tr s Hrun) as (_ & _ & Hview).
  assert (Hfresh : (c < next_request (env s))%nat).
  { apply (reachable_requests_fresh page tr _ s Hrun) with (q := q); [|exact Hq].
    intros r q0. rewrite init_requests. discriminate. }
  cbn [step] in Hstep.
  destruct (timers (env s) !! t) as [due|] eqn:Hdue; [|discriminate].
  destruct (due <=? now (env s)); [|discriminate].
  injection Hstep as <-. fold (fired t s).
  pose proof (pending_nonempty _ _ Hview t due Hdue) as Hne.
  unfold exec. rewrite runAnalysis_eq.
  change (selectedFiles (js (fired t s))) with (selectedFiles (js s)).
  destruct (selectedFiles (js s)) as [|e0 l0]; [congruence|].
  cbn [length Nat.eqb snd].
  set (y := cancelled (fired t s)).
  assert (Hy : analysisController (js y) = Some c /\ requests (env y) !! c = Some q
               /\ next_request (env y) = next_request (env s)).
  { unfold y, cancelled. destruct (analysisTimeout (js (fired t s))); cbn; auto. }
  destruct Hy as (Hy1 & Hy2 & Hy3).
  assert (Hn : next_request (env (abort_held y)) = next_request (env s)).
  { destruct (abort_held_rest y) as (_ & _ & -> & _). exact Hy3. }
  cbn. rewrite Hn, lookup_insert_ne by lia.
  unfold abort_held. rewrite Hy1. unfold abort, modify. cbn [snd]. rewrite Hy2.
  cbn. apply lookup_insert_eq.
Qed.

Lemma fired_timer_aborts_held_request_witness :
  exists s s' q,
    run (sample_page true) (init (sample_page true))
      [Change [photo "a" 2; photo "b" 3]; Tick 350; TimerFires 1;
       RemoveClick (lit "id0"); Tick 350] = Some s
    /\ step (sample_page true) s (TimerFires 2) = Some s'
    /\ requests (env s) !! 0%nat = Some q
    /\ requests (env s') !! 0%nat
       = Some {| req_url := req_url q; req_photos := req_photos q;
                 req_aborted := true; req_phase := req_phase q |}.
Proof.
  destruct (run (sample_page true) (init (sample_page true))
              [Change [photo "a" 2; photo "b" 3]; Tick 350; TimerFires 1;
               RemoveClick (lit "id0"); Tick 350]) as [s|] eqn:H;
    [|vm_compute in H; discriminate].
  assert (Hs := H). vm_compute in Hs. injection Hs as Hs.
  destruct (step (sample_page true) s (TimerFires 2)) as [s'|] eqn:H';
    [|subst s; vm_compute in H'; discriminate].
  destruct (requests (env s) !! 0%nat) as [q|] eqn:Hq;
    [|subst s; vm_compute in Hq; discriminate].
  exists s, s', q. split; [reflexivity|]. split; [exact H'|]. split; [exact Hq|].
  apply (fired_timer_aborts_held_request (sample_page true) _ s 2 s' 0 q H H');
    [ | exact Hq ]; subst s; vm_compute; congruence.
Defined.

(** ** Removing a photo *)

Lemma default_text page :
  (if blank (defaultStatus page) then defaultStatus page else defaultStatus page)
  = defaultStatus page.
Proof. destruct (blank _); reflexivity. Qed.

(** What [removeFile] leaves when [findIndex] finds the entry. *)
Lemma removeFile_found page id s index removed :
  list_find (fun entry => entry_id entry = id) (selectedFiles (js s)) = Some (index, removed) ->
  timers_ok s ->
  let s' := exec (removeFile page id) s in
  let rest := delete index (selectedFiles (js s)) in
  selectedFiles (js s') = rest
  /\ objectURLs (env s') = objectURLs (env s) ∖ {[previewUrl removed]}
  /\ sessionInput (doc s') = []
  /\ strip (doc s') = thumbnails rest
  /\ fileInput (doc s')
     = (if hasDataTransfer page then map file rest else fileInput (doc s))
  /\ (rest <> [] ->
        analysisTimeout (js s') = Some (next_timer (env s))
        /\ timers (env s') = {[ next_timer (env s) := now (env s) + 350 ]}
        /\ statusText (doc s') = statusText (doc s)
        /\ statusTone (doc s') = statusTone (doc s))
  /\ (rest = [] ->
        analysisTimeout (js s') = None
        /\ timers (env s') = ∅
        /\ statusText (doc s') = defaultStatus page
        /\ statusTone (doc s') = None).
Proof.
  intros Hfind Hok. cbv zeta. unfold exec. rewrite removeFile_eq, Hfind. cbv zeta.
  set (x := spliced index removed s).
  assert (Hx : selectedFiles (js x) = delete index (selectedFiles (js s))) by reflexivity.
  assert (Htv : tview (refreshed page x) = tview s).
  { rewrite tview_refreshed. reflexivity. }
  assert (Hnow : now (env (refreshed page x)) = now (env s)).
  { rewrite refreshed_env. reflexivity. }
  assert (Hokx : timers_ok (refreshed page x)) by exact (timers_ok_tview _ _ Htv Hok).
  destruct (refreshed_parts page x) as (Hp1 & Hp2 & Hp3 & _ & Hp5).
  destruct (refreshed_doc page x) as (Hd1 & Hd2 & _ & _ & Hd5).
  rewrite Hp1, Hx.
  destruct (delete index (selectedFiles (js s))) as [|e0 l0] eqn:Hrest;
    cbn [length Nat.eqb negb snd].
  - change (selectedFiles (js (set_status ?a ?b ?y))) with (selectedFiles (js y)).
    change (env (set_status ?a ?b ?y)) with (env y).
    change (analysisTimeout (js (set_status ?a ?b ?y))) with (analysisTimeout (js y)).
    rewrite cancelled_store, cancelled_urls, cancelled_timeout, Hp1, Hp2, Hx.
    cbn [doc set_status upd_doc sessionInput strip fileInput statusText statusTone].
    rewrite cancelled_doc, Hd1, Hp3, Hd5, Hx, default_text.
    repeat (split; [reflexivity|]). split; [intros H; congruence|]. intros _.
    split; [reflexivity|]. split; [|split; reflexivity].
    apply timers_empty. intros t. apply cancelled_timers_empty, Hokx.
  - rewrite queued_store, queued_urls, queued_doc, Hp1, Hp2, Hx, Hd1, Hp3, Hd5, Hx.
    repeat (split; [reflexivity|]). split; [|intros H; discriminate H]. intros _.
    rewrite (queued_timers _ Hokx), Hnow.
    unfold tview in Htv. injection Htv as _ _ Hnt.
    change (analysisTimeout (js (queued ?y))) with (Some (next_timer (env y))).
    rewrite Hnt, Hd2, Hp5. repeat split; reflexivity.
Qed.

(** [findIndex] finds the first entry that has the id. *)
Lemma find_first_match id (l : list Entry) index removed :
  list_find (fun entry => entry_id entry = id) l = Some (index, removed) ->
  exists l1 l2, l = l1 ++ removed :: l2 /\ entry_id removed = id
                /\ (id ∉ map entry_id l1) /\ delete index l = l1 ++ l2.
Proof.
  intros H. apply list_find_Some in H as (Hl & Hid & Hmin).
  exists (take index l), (drop (S index) l).
  split; [symmetry; apply take_drop_middle; exact Hl|]. split; [exact Hid|].
  split; [|apply delete_take_drop].
  intros Hin. apply list_elem_of_fmap in Hin as (e & He & Hin).
  apply list_elem_of_lookup in Hin as (j & Hj).
  pose proof (lookup_lt_Some _ _ _ Hj) as Hlt. rewrite length_take in Hlt.
  rewrite lookup_take_lt in Hj by lia.
  apply (Hmin j e Hj); [lia | congruence].
Qed.

(** X12.  A click on the Remove button of a thumbnail, in a reachable state,
    removes exactly one entry of the store, the first that has the id of
    the button; the others keep their order.  Its object URL is revoked and
    no other, the session token is cleared and the strip shows what is
    left.  When photos are left a new analysis is scheduled 350 ms
    later and is the only timer pending; when none is left no timer is
    pending and the status line shows the default text without a tone. *)
Theorem remove_click_removes_one page tr s id s' :
  run page (init page) tr = Some s ->
  step page s (RemoveClick id) = Some s' ->
  exists l1 removed l2,
    selectedFiles (js s) = l1 ++ removed :: l2
    /\ entry_id removed = id
    /\ (id ∉ map entry_id l1)
    /\ selectedFiles (js s') = l1 ++ l2
    /\ objectURLs (env s') = objectURLs (env s) ∖ {[previewUrl removed]}
    /\ sessionInput (doc s') = []
    /\ strip (doc s') = thumbnails (l1 ++ l2)
    /\ (l1 ++ l2 <> [] ->
          analysisTimeout (js s') = Some (next_timer (env s))
          /\ timers (env s') = {[ next_timer (env s) := now (env s) + 350 ]})
    /\ (l1 ++ l2 = [] ->
          timers (env s') = ∅
          /\ statusText (doc s') = defaultStatus page
          /\ statusTone (doc s') = None).
Proof.
  intros Hrun Hstep.
  destruct (reachable_view_ok page tr s Hrun) as (_ & Htm & Hview).
  cbn [step] in Hstep.
  destruct (bool_decide _) eqn:Hin; [|discriminate]. injection Hstep as <-.
  apply bool_decide_eq_true in Hin.
  rewrite (strip_mirrors _ _ Hview), thumbnails_ids in Hin.
  apply list_elem_of_fmap in Hin as (e & He & Hin).
  destruct (list_find (fun entry => entry_id entry = id) (selectedFiles (js s)))
    as [[index removed]|] eqn:Hfind.
  2:{ exfalso. apply list_find_None in Hfind.
      rewrite Forall_forall in Hfind. apply (Hfind e); [exact Hin | congruence]. }
  destruct (find_first_match id _ index removed Hfind) as (l1 & l2 & Hl & Hid & Hnot & Hdel).
  destruct (removeFile_found page id s index removed Hfind Htm)
    as (H1 & H2 & H3 & H4 & _ & H6 & H7).
  rewrite Hdel in H1, H4, H6, H7.
  exists l1, removed, l2. repeat (split; [assumption|]). split.
  - intros Hne. destruct (H6 Hne) as (A & B & _). auto.
  - intros He0. destruct (H7 He0) as (_ & B & C & D). auto.
Qed.

Lemma remove_click_removes_one_witness :
  exists s s' l1 removed l2,
    run (sample_page true) (init (sample_page true))
      [Change [photo "a" 2; photo "b" 3; photo "c" 1]] = Some s
    /\ step (sample_page true) s (RemoveClick (lit "id1")) = Some s'
    /\ selectedFiles (js s) = l1 ++ removed :: l2
    /\ entry_id removed = lit "id1"
    /\ selectedFiles (js s') = l1 ++ l2.
Proof.
  destruct (run (sample_page true) (init (sample_page true))
              [Change [photo "a" 2; photo "b" 3; photo "c" 1]]) as [s|] eqn:H;
    [|vm_compute in H; discriminate].
  assert (Hs := H). vm_compute in Hs. injection Hs as Hs.
  destruct (step (sample_page true) s (RemoveClick (lit "id1"))) as [s'|] eqn:H';
    [|subst s; vm_compute in H'; discriminate].
  destruct (remove_click_removes_one (sample_page true) _ s _ s' H H')
    as (l1 & removed & l2 & A & B & _ & C & _).
  exists s, s', l1, removed, l2. auto.
Defined.

(** X13.  [removeFile] with an id that no entry has changes nothing: no URL is
    revoked, the session token stays, no analysis is scheduled. *)
Theorem removeFile_unknown_id page id s :
  (id ∉ map entry_id (selectedFiles (js s))) ->
  removeFile page id s = (Ok tt, s).
Proof.
  intros Hnot. rewrite removeFile_eq.
  destruct (list_find _ _) as [[index removed]|] eqn:Hfind; [|reflexivity].
  exfalso. apply list_find_Some in Hfind as (Hl & Hid & _). apply Hnot.
  apply list_elem_of_fmap. exists removed. split; [congruence|].
  apply list_elem_of_lookup. exists index. exact Hl.
Qed.

Lemma removeFile_unknown_id_witness :
  exists s,
    run (sample_page true) (init (sample_page true))
      [Change [photo "a" 2; photo "b" 3]] = Some s
    /\ removeFile (sample_page true) (lit "id7") s = (Ok tt, s).
Proof.
  destruct (run (sample_page true) (init (sample_page true))
              [Change [photo "a" 2; photo "b" 3]]) as [s|] eqn:H;
    [|vm_compute in H; discriminate].
  exists s. split; [reflexivity|].
  apply (removeFile_unknown_id (sample_page true) (lit "id7") s).
  vm_compute in H. injection H as <-. vm_compute.
  intros Hin. apply list_elem_of_In in Hin. cbn in Hin.
  destruct Hin as [Hin|[Hin|[]]]; discriminate Hin.
Defined.

(** ** Clearing and resetting *)

(** X14.  A click on the clear button, in a reachable state, empties the store,
    revokes every preview, cancels the pending timer, clears the session
    token and the strip, hides the button and shows "Photos cleared..."
    with the tone [info]; the native input is emptied where [DataTransfer]
    exists and kept as it is elsewhere.  It aborts nothing: the flag
    [analyzing], the controller held and the requests are what they
    were. *)
Theorem clear_click_empties_the_store page tr s s' :
  run page (init page) tr = Some s ->
  step page s ClearClick = Some s' ->
  selectedFiles (js s') = []
  /\ objectURLs (env s') = ∅
  /\ timers (env s') = ∅
  /\ analysisTimeout (js s') = None
  /\ sessionInput (doc s') = []
  /\ strip (doc s') = []
  /\ clearButton (doc s') = Some true
  /\ fileInput (doc s') = (if hasDataTransfer page then [] else fileInput (doc s))
  /\ statusText (doc s') = lit "Photos cleared. Add new photos to try again."
  /\ statusTone (doc s') = Some (lit "info")
  /\ marker_view s' = marker_view s.
Proof.
  intros Hrun Hstep.
  destruct (reachable_view_ok page tr s Hrun) as (_ & Htm & Hview).
  cbn [step] in Hstep.
  destruct (clearButton (doc s)) as [b|] eqn:Hb; [|discriminate]. injection Hstep as <-.
  unfold exec. rewrite onClearClick_eq. cbn [snd].
  set (x := set_selectedFiles [] (revoked_all (cancelled s))).
  assert (Hx : selectedFiles (js x) = []) by reflexivity.
  assert (Hxb : clearButton (doc x) = Some b).
  { unfold x. cbn. rewrite cancelled_doc. exact Hb. }
  assert (Hxf : fileInput (doc x) = fileInput (doc s)).
  { unfold x. cbn. rewrite cancelled_doc. reflexivity. }
  destruct (refreshed_parts page x) as (Hp1 & Hp2 & Hp3 & Hp4 & _).
  destruct (refreshed_doc page x) as (Hd1 & _ & _ & _ & Hd5).
  change (selectedFiles (js (set_status ?a ?b ?y))) with (selectedFiles (js y)).
  change (env (set_status ?a ?b ?y)) with (env y).
  change (analysisTimeout (js (set_status ?a ?b ?y))) with (analysisTimeout (js y)).
  change (marker_view (set_status ?a ?b ?y)) with (marker_view y).
  cbn [doc set_status upd_doc sessionInput strip fileInput statusText statusTone clearButton].
  rewrite Hp1, Hp2, Hp3, Hp4, Hd1, Hd5, Hx, Hxb, Hxf.
  split; [reflexivity|].
  split; [unfold x; apply emptied_urls, (previews_live _ _ Hview)|].
  split.
  { apply timers_empty. intros t. unfold x.
    change (timers (env (set_selectedFiles [] (revoked_all ?y)))) with (timers (env y)).
    apply cancelled_timers_empty, Htm. }
  split.
  { rewrite refreshed_js. unfold x.
    change (analysisTimeout (js (set_selectedFiles [] (revoked_all ?y))))
      with (analysisTimeout (js y)).
    apply cancelled_timeout. }
  repeat (split; [reflexivity|]).
  rewrite marker_view_refreshed. unfold x.
  change (marker_view (set_selectedFiles [] (revoked_all ?y))) with (marker_view y).
  apply marker_view_cancelled.
Qed.

Lemma clear_click_empties_the_store_witness :
  exists s s',
    run (sample_page true) (init (sample_page true))
      [Change [photo "a" 2; photo "b" 3]; Tick 350; TimerFires 1] = Some s
    /\ step (sample_page true) s ClearClick = Some s'
    /\ selectedFiles (js s') = []
    /\ objectURLs (env s') = ∅
    /\ marker_view s' = marker_view s.
Proof.
  destruct (run (sample_page true) (init (sample_page true))
              [Change [photo "a" 2; photo "b" 3]; Tick 350; TimerFires 1]) as [s|] eqn:H;
    [|vm_compute in H; discriminate].
  assert (Hs := H). vm_compute in Hs. injection Hs as Hs.
  destruct (step (sample_page true) s ClearClick) as [s'|] eqn:H';
    [|subst s; vm_compute in H'; discriminate].
  destruct (clear_click_empties_the_store (sample_page true) _ s s' H H')
    as (A & B & _ & _ & _ & _ & _ & _ & _ & _ & C).
  exists s, s'. auto.
Defined.

(** X15.  A reset of the form, in a reachable state, empties the store, revokes
    every preview, cancels the pending timer, clears the session token and
    the strip, hides the clear button and shows the default text without a
    tone.  The script leaves the native input to the browser, and aborts
    nothing. *)
Theorem reset_empties_the_store page tr s s' :
  run page (init page) tr = Some s ->
  step page s Reset = Some s' ->
  selectedFiles (js s') = []
  /\ objectURLs (env s') = ∅
  /\ timers (env s') = ∅
  /\ analysisTimeout (js s') = None
  /\ sessionInput (doc s') = []
  /\ strip (doc s') = []
  /\ clearButton (doc s') = (if hasClearButton page then Some true else None)
  /\ fileInput (doc s') = fileInput (doc s)
  /\ fields (doc s') = fields (doc s)
  /\ statusText (doc s') = defaultStatus page
  /\ statusTone (doc s') = None
  /\ marker_view s' = marker_view s.
Proof.
  intros Hrun Hstep.
  destruct (reachable_view_ok page tr s Hrun) as (_ & Htm & Hview).
  cbn [step] in Hstep. injection Hstep as <-.
  unfold exec. rewrite onReset_eq, default_text. cbn [snd].
  pose proof (button_mirrors _ _ Hview) as Hb.
  pose proof (emptied_urls s (previews_live _ _ Hview)) as Hu.
  pose proof (cancelled_timeout s) as Hto.
  pose proof (marker_view_cancelled s) as Hm.
  assert (Hte : timers (env (cancelled s)) = ∅).
  { apply timers_empty. intros t. apply cancelled_timers_empty, Htm. }
  pose proof (cancelled_doc s) as Hd.
  unfold button_updated.
  cbn [doc set_status upd_doc set_sessionInput set_selectedFiles upd_js clearButton].
  change (doc (revoked_all ?y)) with (doc y). rewrite Hd.
  destruct (clearButton (doc s)) as [b|] eqn:Hcb;
    destruct (hasClearButton page); try discriminate Hb;
    repeat split;
    first [ exact Hu | exact Hte | exact Hto | exact Hm
          | exact (f_equal fileInput Hd) | exact (f_equal fields Hd)
          | exact (eq_trans (f_equal clearButton Hd) Hcb) | reflexivity ].
Qed.

Lemma reset_empties_the_store_witness :
  exists s s',
    run (sample_page false) (init (sample_page false))
      [Change [photo "a" 2; photo "b" 3]; Tick 100] = Some s
    /\ step (sample_page false) s Reset = Some s'
    /\ selectedFiles (js s') = []
    /\ objectURLs (env s') = ∅
    /\ timers (env s') = ∅.
Proof.
  destruct (run (sample_page false) (init (sample_page false))
              [Change [photo "a" 2; photo "b" 3]; Tick 100]) as [s|] eqn:H;
    [|vm_compute in H; discriminate].
  assert (Hs := H). vm_compute in Hs. injection Hs as Hs.
  destruct (step (sample_page false) s Reset) as [s'|] eqn:H';
    [|subst s; vm_compute in H'; discriminate].
  destruct (reset_empties_the_store (sample_page false) _ s s' H H')
    as (A & B & C & _).
  exists s, s'. auto.
Defined.

(** ** How a request ends *)

(** X16.  When [fetch] rejects for a request that was not aborted (the network
    failed), the [catch] block logs the error once, clears the session
    token and shows the network error text with the tone [error]; the
    [finally] block clears the flag and the controller.  The store, the
    form fields and the timers are left alone. *)
Theorem network_failure_is_reported page s r q :
  requests (env s) !! r = Some q -> req_aborted q = false -> req_phase q = Fetching ->
  exists s',
    step page s (Settles r FetchRejected) = Some s'
    /\ sessionInput (doc s') = []
    /\ statusText (doc s') = lit "Network error while analyzing photos. Please retry."
    /\ statusTone (doc s') = Some (lit "error")
    /\ console_errors (env s') = S (console_errors (env s))
    /\ analyzing (js s') = false
    /\ analysisController (js s') = None
    /\ requests (env s') = delete r (requests (env s))
    /\ selectedFiles (js s') = selectedFiles (js s)
    /\ fields (doc s') = fields (doc s)
    /\ tview s' = tview s.
Proof.
  intros Hq Ha Hp. eexists. split.
  - cbn [step]. unfold settle. rewrite Hq, Ha, Hp. reflexivity.
  - rewrite finish_eq. unfold throw. repeat split; reflexivity.
Qed.

Lemma network_failure_is_reported_witness :
  exists s s',
    run (sample_page true) (init (sample_page true))
      [Change [photo "a" 2]; Tick 350; TimerFires 1] = Some s
    /\ step (sample_page true) s (Settles 0 FetchRejected) = Some s'
    /\ statusTone (doc s') = Some (lit "error")
    /\ analyzing (js s') = false.
Proof.
  destruct (run (sample_page true) (init (sample_page true))
              [Change [photo "a" 2]; Tick 350; TimerFires 1]) as [s|] eqn:H;
    [|vm_compute in H; discriminate].
  assert (Hs := H). vm_compute in Hs. injection Hs as Hs.
  destruct (requests (env s) !! 0%nat) as [q|] eqn:Hq;
    [|subst s; vm_compute in Hq; discriminate].
  assert (Hab : req_aborted q = false /\ req_phase q = Fetching).
  { subst s. vm_compute in Hq. injection Hq as <-. split; reflexivity. }
  destruct (network_failure_is_reported (sample_page true) s 0 q Hq (proj1 Hab) (proj2 Hab))
    as (s' & Hstep & _ & _ & Ht & _ & Hflag & _).
  exists s, s'. auto.
Defined.

(** X17.  When the [fetch] of an aborted request rejects with its [AbortError],
    nothing is reported: the document is what it was, nothing is logged,
    the store and the timers are untouched.  Only the [finally] block
    acts. *)
Theorem aborted_fetch_is_silent page s r q :
  requests (env s) !! r = Some q -> req_aborted q = true -> req_phase q = Fetching ->
  exists s',
    step page s (Settles r AbortSignalled) = Some s'
    /\ doc s' = doc s
    /\ console_errors (env s') = console_errors (env s)
    /\ selectedFiles (js s') = selectedFiles (js s)
    /\ tview s' = tview s
    /\ requests (env s') = delete r (requests (env s)).
Proof.
  intros Hq Ha Hp. eexists. split.
  - cbn [step]. unfold settle. rewrite Hq, Ha, Hp. reflexivity.
  - rewrite finish_eq. unfold throw. repeat split; reflexivity.
Qed.

Lemma aborted_fetch_is_silent_witness :
  exists s s',
    run (sample_page true) (init (sample_page true))
      [Change [photo "a" 2; photo "b" 2; photo "c" 2]; Tick 350; TimerFires 1;
       RemoveClick (lit "id0"); Tick 350; TimerFires 2] = Some s
    /\ step (sample_page true) s (Settles 0 AbortSignalled) = Some s'
    /\ doc s' = doc s.
Proof.
  destruct (run (sample_page true) (init (sample_page true))
              [Change [photo "a" 2; photo "b" 2; photo "c" 2]; Tick 350; TimerFires 1;
               RemoveClick (lit "id0"); Tick 350; TimerFires 2]) as [s|] eqn:H;
    [|vm_compute in H; discriminate].
  assert (Hs := H). vm_compute in Hs. injection Hs as Hs.
  destruct (requests (env s) !! 0%nat) as [q|] eqn:Hq;
    [|subst s; vm_compute in Hq; discriminate].
  assert (Hab : req_aborted q = true /\ req_phase q = Fetching).
  { subst s. vm_compute in Hq. injection Hq as <-. split; reflexivity. }
  destruct (aborted_fetch_is_silent (sample_page true) s 0 q Hq (proj1 Hab) (proj2 Hab))
    as (s' & Hstep & Hdoc & _).
  exists s, s'. auto.
Defined.

Lemma failing_empty ok : failing ok (VObj []) = true.
Proof. destruct ok; reflexivity. Qed.

Lemma afterJson_empty page ok s :
  afterJson page ok (VObj []) s
  = (Ok tt, set_status (lit "Photo analysis failed. Please submit manually or retry.")
              (Some (lit "error")) (set_sessionInput [] s)).
Proof.
  rewrite (afterJson_failing page ok (VObj []) s eq_refl (failing_empty ok)).
  cbn [prop lookup_key js_or truthy]. rewrite showStatus_str. reflexivity.
Qed.

(** X18.  A request that is aborted while its body is read does not end
    silently: the rejection of [response.json()] is caught by
    [.catch(() => ({}))], the empty payload has no status ["ok"], and the
    superseded request clears the session token and shows "Photo analysis
    failed..." with the tone [error], whatever the response was. *)
Theorem abort_while_reading_reports_failure page s r q ok :
  requests (env s) !! r = Some q -> req_aborted q = true -> req_phase q = Reading ok ->
  exists s',
    step page s (Settles r AbortSignalled) = Some s'
    /\ sessionInput (doc s') = []
    /\ statusText (doc s') = lit "Photo analysis failed. Please submit manually or retry."
    /\ statusTone (doc s') = Some (lit "error")
    /\ fields (doc s') = fields (doc s)
    /\ console_errors (env s') = console_errors (env s)
    /\ analyzing (js s') = false
    /\ analysisController (js s') = None.
Proof.
  intros Hq Ha Hp. eexists. split.
  - cbn [step]. unfold settle. rewrite Hq, Ha, Hp. reflexivity.
  - rewrite finish_eq, afterJson_empty. repeat split; reflexivity.
Qed.

Lemma abort_while_reading_reports_failure_witness :
  exists s s',
    run (sample_page true) (init (sample_page true))
      [Change [photo "a" 2; photo "b" 2; photo "c" 2]; Tick 350; TimerFires 1;
       Settles 0 (FetchFulfilled true);
       RemoveClick (lit "id0"); Tick 350; TimerFires 2] = Some s
    /\ step (sample_page true) s (Settles 0 AbortSignalled) = Some s'
    /\ statusText (doc s') = lit "Photo analysis failed. Please submit manually or retry."
    /\ in_flight s' = {[ 1%nat ]}.
Proof.
  destruct (run (sample_page true) (init (sample_page true))
              [Change [photo "a" 2; photo "b" 2; photo "c" 2]; Tick 350; TimerFires 1;
               Settles 0 (FetchFulfilled true);
               RemoveClick (lit "id0"); Tick 350; TimerFires 2]) as [s|] eqn:H;
    [|vm_compute in H; discriminate].
  assert (Hs := H). vm_compute in Hs. injection Hs as Hs.
  destruct (requests (env s) !! 0%nat) as [q|] eqn:Hq;
    [|subst s; vm_compute in Hq; discriminate].
  assert (Hab : req_aborted q = true /\ req_phase q = Reading true).
  { subst s. vm_compute in Hq. injection Hq as <-. split; reflexivity. }
  destruct (abort_while_reading_reports_failure (sample_page true) s 0 q true
              Hq (proj1 Hab) (proj2 Hab))
    as (s' & Hstep & _ & Ht & _).
  exists s, s'. split; [reflexivity|]. split; [exact Hstep|]. split; [exact Ht|].
  subst s. vm_compute in Hstep. injection Hstep as <-. vm_compute. reflexivity.
Defined.

Lemma js_or_truthy a b : truthy a = true -> js_or a b = a.
Proof. unfold js_or. intros ->. reflexivity. Qed.

(** X19.  A successful response that carries a session binds it: the session
    field holds [String(payload.session)], the status line shows the
    success text with the tone [success], the suggestions are applied, the
    flag and the controller are cleared, and the store and the timers are
    left alone. *)
Theorem ok_with_session_binds_token page s r q payload :
  requests (env s) !! r = Some q -> req_aborted q = false -> req_phase q = Reading true ->
  is_str (prop payload (lit "status")) (lit "ok") = true ->
  truthy (prop payload (lit "session")) = true ->
  exists s',
    step page s (Settles r (JsonSettled (Some payload))) = Some s'
    /\ sessionInput (doc s') = js_String (prop payload (lit "session"))
    /\ statusTone (doc s') = Some (lit "success")
    /\ fields (doc s')
       = applied (js_or (prop payload (lit "suggestions")) (VObj [])) (fields (doc s))
    /\ analyzing (js s') = false
    /\ analysisController (js s') = None
    /\ requests (env s') = delete r (requests (env s))
    /\ selectedFiles (js s') = selectedFiles (js s)
    /\ tview s' = tview s.
Proof.
  intros Hq Ha Hp Hst Hsess.
  eexists. split; [apply (settle_json page s r q true (Some payload) Hq Ha Hp)|].
  cbn [default]. rewrite finish_eq.
  assert (Hn : is_nullish payload = false).
  { destruct payload; try reflexivity; discriminate. }
  assert (Hf : failing true payload = false).
  { unfold failing. rewrite Hst. reflexivity. }
  rewrite (afterJson_success page true payload _ Hn Hf).
  unfold suggestions_shown. rewrite (js_or_truthy _ _ Hsess).
  repeat split; reflexivity.
Qed.

(** The session is the number 1e21 and the suggested serial number has a
    line break: the token is ["1e+21"], and the text input holds the
    serial number without the line break. *)
Lemma ok_with_session_binds_token_witness :
  let payload :=
    VObj [(lit "status", VStr (lit "ok"));
          (lit "session", VNum (lit "1e+21"));
          (lit "suggestions",
           VObj [(lit "serial_number", VStr (lit "SN" ++ [10] ++ lit "1"))])] in
  exists s s',
    run (sample_page true) (init (sample_page true))
      [Change [photo "a" 2]; Tick 350; TimerFires 1; Settles 0 (FetchFulfilled true)]
    = Some s
    /\ step (sample_page true) s (Settles 0 (JsonSettled (Some payload))) = Some s'
    /\ sessionInput (doc s') = lit "1e+21"
    /\ sn (fields (doc s')) = Some (text_input (lit "SN1")).
Proof.
  intros payload.
  destruct (run (sample_page true) (init (sample_page true))
              [Change [photo "a" 2]; Tick 350; TimerFires 1;
               Settles 0 (FetchFulfilled true)]) as [s|] eqn:H;
    [|vm_compute in H; discriminate].
  assert (Hs := H). vm_compute in Hs. injection Hs as Hs.
  destruct (requests (env s) !! 0%nat) as [q|] eqn:Hq;
    [|subst s; vm_compute in Hq; discriminate].
  assert (Hab : req_aborted q = false /\ req_phase q = Reading true).
  { subst s. vm_compute in Hq. injection Hq as <-. split; reflexivity. }
  destruct (ok_with_session_binds_token (sample_page true) s 0 q payload
              Hq (proj1 Hab) (proj2 Hab) eq_refl eq_refl)
    as (s' & Hstep & Ht & _ & Hf & _).
  exists s, s'. split; [reflexivity|]. split; [exact Hstep|].
  split; [exact Ht|]. rewrite Hf. subst s. vm_compute. reflexivity.
Defined.

(** ** What binds the token and fills the form *)

(** What a listener of the page does to the session field and to the
    form: the fields are kept, the token is kept or cleared. *)
Lemma listener_token page s e s' :
  step page s e = Some s' ->
  match e with
  | Settles _ _ => True
  | _ => fields (doc s') = fields (doc s)
         /\ (sessionInput (doc s') = [] \/ sessionInput (doc s') = sessionInput (doc s))
  end.
Proof.
  intros Hstep. destruct e; cbn [step] in Hstep; try exact I.
  - injection Hstep as <-. unfold exec, onChange. rewrite handleFiles_eq. cbv zeta.
    destruct (Nat.eqb (length _) 0); [auto|].
    destruct (_ <? _)%nat; [rewrite showStatus_str; auto|].
    destruct (_ <? _)%N; [rewrite showStatus_str; auto|].
    cbn [snd]. rewrite queued_doc.
    destruct (refreshed_doc page (pushed page (incoming_of (Some (map Some files)))
                                    (set_fileInput files s))) as (-> & _ & _ & -> & _).
    auto.
  - destruct (bool_decide _); [|discriminate]. injection Hstep as <-.
    unfold exec. rewrite removeFile_eq.
    destruct (list_find _ _) as [[index removed]|]; [|auto].
    cbv zeta. destruct (negb _); cbn [snd].
    + rewrite queued_doc.
      destruct (refreshed_doc page (spliced index removed s)) as (-> & _ & _ & -> & _). auto.
    + cbn [doc set_status upd_doc sessionInput fields]. rewrite cancelled_doc.
      destruct (refreshed_doc page (spliced index removed s)) as (-> & _ & _ & -> & _). auto.
  - destruct (clearButton (doc s)); [|discriminate]. injection Hstep as <-.
    unfold exec. rewrite onClearClick_eq. cbn [snd].
    cbn [doc set_status upd_doc sessionInput fields].
    destruct (refreshed_doc page (set_selectedFiles [] (revoked_all (cancelled s))))
      as (-> & _ & _ & -> & _).
    split; [|auto]. cbn. rewrite cancelled_doc. reflexivity.
  - destruct (hasTrigger page); [|discriminate]. injection Hstep as <-.
    unfold exec. rewrite onTriggerClick_eq. cbn [snd].
    destruct (analyzing (js s)); auto.
  - injection Hstep as <-. unfold exec. rewrite onSubmit_eq. cbn [snd]. unfold synced.
    destruct (negb _), (hasDataTransfer page); auto.
  - injection Hstep as <-. unfold exec. rewrite onReset_eq. cbn [snd].
    unfold button_updated. cbn [doc set_status upd_doc set_sessionInput clearButton].
    destruct (clearButton _); cbn; rewrite cancelled_doc; auto.
  - injection Hstep as <-. auto.
  - destruct (timers (env s) !! t); [|discriminate].
    destruct (_ <=? _); [|discriminate]. injection Hstep as <-.
    unfold exec. rewrite runAnalysis_eq.
    destruct (Nat.eqb _ 0); cbn [snd]; [auto|].
    cbn [sent doc set_status set_requests upd_env upd_doc sessionInput fields
         set_analyzing set_analysisController upd_js].
    rewrite abort_held_doc, cancelled_doc. auto.
Qed.

(** A response that fails leaves the form as it is and no token. *)
Lemma failing_response_binds_nothing page r ok payload s :
  failing ok payload = true \/ is_nullish payload = true ->
  fields (doc (finish page r (afterJson page ok payload) s)) = fields (doc s)
  /\ sessionInput (doc (finish page r (afterJson page ok payload) s)) = [].
Proof.
  intros Hf. rewrite finish_eq.
  destruct (is_nullish payload) eqn:Hn.
  { rewrite (afterJson_nullish page ok payload _ Hn). split; reflexivity. }
  destruct Hf as [Hf|Hf]; [|discriminate].
  rewrite (afterJson_failing page ok payload _ Hn Hf).
  destruct (showStatus_cases page
              (js_or (prop payload (lit "message"))
                 (VStr (lit "Photo analysis failed. Please submit manually or retry.")))
              (lit "error") (set_sessionInput [] (dropped r s)))
    as [->|(text & t & ->)]; split; reflexivity.
Qed.

(** X20.  The session token is bound, and the form is filled, by nothing but the
    body of an ok response with the status ["ok"] to a request that was not
    aborted: every other event keeps the fields of the form, and keeps the
    token or clears it. *)
Theorem only_an_ok_response_binds page s e s' :
  step page s e = Some s' ->
  fields (doc s') <> fields (doc s)
  \/ (sessionInput (doc s') <> [] /\ sessionInput (doc s') <> sessionInput (doc s)) ->
  exists r q payload,
    e = Settles r (JsonSettled (Some payload))
    /\ requests (env s) !! r = Some q
    /\ req_aborted q = false
    /\ req_phase q = Reading true
    /\ is_str (prop payload (lit "status")) (lit "ok") = true.
Proof.
  intros Hstep Hch.
  pose proof (listener_token page s e s' Hstep) as Hl.
  destruct e; try (exfalso; destruct Hl as (Hf & [Hs|Hs]);
                   destruct Hch as [Hch|[Hc1 Hc2]]; congruence).
  clear Hl. cbn [step] in Hstep. unfold settle in Hstep.
  destruct (requests (env s) !! r) as [q|] eqn:Hq; [|discriminate].
  destruct (req_aborted q) eqn:Hab, (req_phase q) as [|ok] eqn:Hph, a as [ok'| |body|];
    try discriminate; injection Hstep as <-.
  - exfalso. rewrite finish_eq in Hch. unfold throw in Hch. cbn in Hch.
    destruct Hch as [Hch|[Hc1 Hc2]]; congruence.
  - exfalso.
    destruct (failing_response_binds_nothing page r ok (VObj []) s
                (or_introl (failing_empty ok))) as (Hf & Hs).
    destruct Hch as [Hch|[Hc1 Hc2]]; congruence.
  - exfalso. cbn in Hch. destruct Hch as [Hch|[Hc1 Hc2]]; congruence.
  - exfalso. rewrite finish_eq in Hch. unfold throw in Hch. cbn in Hch.
    destruct Hch as [Hch|[Hc1 Hc2]]; congruence.
  - destruct (failing ok (default (VObj []) body)) eqn:Hfail.
    { exfalso.
      destruct (failing_response_binds_nothing page r ok (default (VObj []) body) s
                  (or_introl Hfail)) as (Hf & Hs).
      destruct Hch as [Hch|[Hc1 Hc2]]; congruence. }
    unfold failing in Hfail. apply orb_false_iff in Hfail as [Hok Hst].
    apply negb_false_iff in Hok, Hst. subst ok.
    destruct body as [payload|]; [|discriminate Hst].
    exists r, q, payload. auto.
Qed.

Lemma only_an_ok_response_binds_witness :
  exists s s' r q payload,
    run (sample_page true) (init (sample_page true))
      [Change [photo "a" 2]; Tick 350; TimerFires 1; Settles 0 (FetchFulfilled true)]
    = Some s
    /\ step (sample_page true) s (Settles 0 (JsonSettled (Some (body_ok "abc" "SN1"))))
       = Some s'
    /\ Settles 0 (JsonSettled (Some (body_ok "abc" "SN1")))
       = Settles r (JsonSettled (Some payload))
    /\ requests (env s) !! r = Some q
    /\ req_phase q = Reading true.
Proof.
  destruct (run (sample_page true) (init (sample_page true))
              [Change [photo "a" 2]; Tick 350; TimerFires 1;
               Settles 0 (FetchFulfilled true)]) as [s|] eqn:H;
    [|vm_compute in H; discriminate].
  assert (Hs := H). vm_compute in Hs. injection Hs as Hs.
  destruct (step (sample_page true) s (Settles 0 (JsonSettled (Some (body_ok "abc" "SN1")))))
    as [s'|] eqn:H'; [|subst s; vm_compute in H'; discriminate].
  assert (Hch : sessionInput (doc s') <> [] /\ sessionInput (doc s') <> sessionInput (doc s)).
  { subst s. vm_compute in H'. injection H' as <-. split; vm_compute; discriminate. }
  destruct (only_an_ok_response_binds (sample_page true) s _ s' H' (or_intror Hch))
    as (r & q & payload & He & Hq & _ & Hp & _).
  exists s, s', r, q, payload. auto.
Defined.

(** ** Applying suggestions twice, or none *)

Lemma gentlySetValue_idem el v :
  gentlySetValue (gentlySetValue el v) v = gentlySetValue el v.
Proof.
  destruct el as [el|]; [|reflexivity].
  cbn [gentlySetValue]. destruct (negb (truthy v)) eqn:Ht.
  { cbn [gentlySetValue]. rewrite Ht. reflexivity. }
  destruct (bool_decide (tagName el = lit "SELECT")) eqn:Hsel.
  - destruct (bool_decide (js_String v ∈ options el)) eqn:Hopt;
      cbn [gentlySetValue]; rewrite Ht; cbn [tagName options assign_value];
      rewrite Hsel, Hopt; [|reflexivity].
    unfold assign_value. cbn [tagName options value sanitize]. rewrite Hsel, Hopt.
    reflexivity.
  - destruct (blank (value el)) eqn:Hb;
      cbn [gentlySetValue]; rewrite Ht; cbn [tagName options assign_value value];
      rewrite Hsel, ?Hb; [|reflexivity].
    destruct (blank (sanitize el (js_String v))); [|reflexivity].
    unfold assign_value. cbn [tagName options value sanitize]. rewrite Hsel. reflexivity.
Qed.

Lemma applied_idem o f : applied o (applied o f) = applied o f.
Proof.
  unfold applied. cbn [sn asset_tag description subcategory cod_destiny].
  rewrite !gentlySetValue_idem. f_equal.
  - destruct (description f) as [el|]; [|reflexivity].
    destruct (truthy (prop o (lit "short_description"))); cbn [andb]; [|reflexivity].
    destruct (blank (value el)) eqn:Hb; [|rewrite Hb; reflexivity].
    destruct (blank (value (assign_value el _))); [|reflexivity].
    unfold assign_value. cbn [tagName options value sanitize].
    destruct (bool_decide (tagName el = lit "SELECT")); reflexivity.
  - destruct (prop o (lit "cod_destiny")); try reflexivity; apply gentlySetValue_idem.
Qed.

(** X21.  Applying the same suggestions a second time changes nothing more:
    what the first application wrote is what the second would write. *)
Theorem applySuggestions_idempotent arg s :
  exec (applySuggestions arg) (exec (applySuggestions arg) s)
  = exec (applySuggestions arg) s.
Proof.
  unfold exec. destruct arg.
  2: { rewrite !applySuggestions_null. reflexivity. }
  all: rewrite !applySuggestions_run by discriminate;
    cbn [snd set_fields upd_doc doc fields]; rewrite applied_idem; reflexivity.
Qed.

Lemma gentlySetValue_falsy el v : truthy v = false -> gentlySetValue el v = el.
Proof. intros H. destruct el as [el|]; [|reflexivity]. cbn. rewrite H. reflexivity. Qed.

(** X22.  A payload none of whose five suggestions is truthy (they are missing,
    [null], [false], [0] or the empty string) leaves the whole page as it
    is; so a destination code [0] is never applied, although the script
    lets it through its test against [null] and [undefined]. *)
Theorem falsy_suggestions_change_nothing arg s :
  (forall k, k ∈ suggestion_keys -> truthy (prop arg k) = false) ->
  exec (applySuggestions arg) s = s.
Proof.
  intros Hk. unfold exec.
  assert (H1 : truthy (prop arg (lit "serial_number")) = false).
  { apply Hk. unfold suggestion_keys. apply list_elem_of_In. cbn. auto. }
  assert (H2 : truthy (prop arg (lit "asset_tag")) = false).
  { apply Hk. unfold suggestion_keys. apply list_elem_of_In. cbn. auto. }
  assert (H3 : truthy (prop arg (lit "short_description")) = false).
  { apply Hk. unfold suggestion_keys. apply list_elem_of_In. cbn. auto. }
  assert (H4 : truthy (prop arg (lit "subcategory")) = false).
  { apply Hk. unfold suggestion_keys. apply list_elem_of_In. cbn. auto. }
  assert (H5 : truthy (prop arg (lit "cod_destiny")) = false).
  { apply Hk. unfold suggestion_keys. apply list_elem_of_In. cbn. auto 10. }
  assert (Happ : applied arg (fields (doc s)) = fields (doc s)).
  { unfold applied. rewrite !gentlySetValue_falsy by assumption. rewrite H3. cbn [andb].
    destruct (fields (doc s)) as [f1 f2 f3 f4 f5].
    cbn [sn asset_tag description subcategory cod_destiny]. f_equal.
    - destruct f3; reflexivity.
    - destruct (prop arg (lit "cod_destiny")); try reflexivity;
        apply gentlySetValue_falsy; exact H5. }
  destruct arg.
  2: { rewrite applySuggestions_null. reflexivity. }
  all: rewrite applySuggestions_run by discriminate; cbn [snd]; rewrite Happ;
    destruct s as [j [] e]; reflexivity.
Qed.

Lemma falsy_suggestions_change_nothing_witness :
  exec (applySuggestions
          (VObj [(lit "cod_destiny", VNum (lit "0")); (lit "serial_number", VStr [])]))
       (with_destination (init (sample_page true)))
  = with_destination (init (sample_page true)).
Proof.
  apply (falsy_suggestions_change_nothing
           (VObj [(lit "cod_destiny", VNum (lit "0")); (lit "serial_number", VStr [])])
           (with_destination (init (sample_page true)))).
  intros k Hk. unfold suggestion_keys in Hk.
  repeat (apply elem_of_cons in Hk as [->|Hk]; [vm_compute; reflexivity|]).
  apply elem_of_nil in Hk. destruct Hk.
Defined.

(** ** The two limits *)

(** X23.  What [handleFiles] tells the user when it rejects: the count of photos
    is checked first, so files that break both limits are refused for
    their number; the size is named only when the count is within its
    limit. *)
Theorem rejection_texts page s fileList :
  let incoming := incoming_of fileList in
  let s' := exec (handleFiles page fileList) s in
  incoming <> [] ->
  ((MAX_FILES < length (selectedFiles (js s)) + length incoming)%nat ->
     statusText (doc s')
     = lit "Limit 10 photos per product. Remove some before adding more.")
  /\ ((length (selectedFiles (js s)) + length incoming <= MAX_FILES)%nat ->
      MAX_TOTAL_BYTES < totalBytes s + bytes_of incoming ->
      statusText (doc s')
      = lit "Images exceed the 25 MB limit. Remove large files before retrying.").
Proof.
  intros incoming s' Hne. subst s'. unfold exec. rewrite handleFiles_eq. cbv zeta.
  fold incoming.
  destruct (Nat.eqb (length incoming) 0) eqn:Hlen.
  { apply Nat.eqb_eq, length_zero_iff_nil in Hlen. contradiction. }
  split.
  - intros Hc. apply Nat.ltb_lt in Hc. rewrite Hc, showStatus_str.
    vm_compute. reflexivity.
  - intros Hc Hb. apply Nat.ltb_ge in Hc. apply N.ltb_lt in Hb.
    rewrite Hc, Hb, showStatus_str. vm_compute. reflexivity.
Qed.

Lemma rejection_texts_witness :
  statusText (doc (exec (handleFiles (sample_page true)
                           (Some (map Some (replicate 11 (photo "a" 3)))))
                        (init (sample_page true))))
  = lit "Limit 10 photos per product. Remove some before adding more.".
Proof.
  apply (rejection_texts (sample_page true) (init (sample_page true))
           (Some (map Some (replicate 11 (photo "a" 3))))).
  - vm_compute. discriminate.
  - vm_compute. lia.
Defined.

(** ** Adding a photo and removing it again *)

(** The next id of [generateId] is not in the store. *)
Lemma next_id_fresh page s :
  (forall j k, uuids page j = uuids page k -> j = k) ->
  store_ok page s ->
  list_find (fun entry => entry_id entry = uuids page (id_calls (env s)))
    (selectedFiles (js s)) = None.
Proof.
  intros Hinj Hok. apply list_find_None. rewrite Forall_forall. intros e He Hid.
  destruct (ok_ids _ _ Hok) as (ks & Hks & _ & Hlt).
  assert (Hin : entry_id e ∈ map (uuids page) ks).
  { rewrite <- Hks. apply list_elem_of_fmap. exists e. auto. }
  apply list_elem_of_fmap in Hin as (k & Hk & Hin).
  rewrite Forall_forall in Hlt. apply Hlt in Hin.
  rewrite Hid in Hk. apply Hinj in Hk. lia.
Qed.

(** X24.  In a reachable state, choosing one more photo that fits and clicking
    its Remove button gives back the store, the live object URLs and the
    strip as they were: the new entry goes to the end of the store with
    the next id and the next object URL, and it is the one the click
    removes and revokes.  The session token is cleared on the way. *)
Theorem add_then_remove_restores page tr s f :
  (forall j k, uuids page j = uuids page k -> j = k) ->
  run page (init page) tr = Some s ->
  ~ exceeds_limits s [f] ->
  exists s1 s2,
    step page s (Change [f]) = Some s1
    /\ step page s1 (RemoveClick (uuids page (id_calls (env s)))) = Some s2
    /\ selectedFiles (js s1)
       = selectedFiles (js s)
         ++ [{| entry_id := uuids page (id_calls (env s)); file := f;
                previewUrl := next_url (env s) |}]
    /\ selectedFiles (js s2) = selectedFiles (js s)
    /\ objectURLs (env s2) = objectURLs (env s)
    /\ strip (doc s2) = strip (doc s)
    /\ sessionInput (doc s2) = [].
Proof.
  intros Hinj Hrun Hfit.
  destruct (reachable_view_ok page tr s Hrun) as (Hst & Htm & Hview).
  set (new := {| entry_id := uuids page (id_calls (env s)); file := f;
                 previewUrl := next_url (env s) |}).
  set (s0 := set_fileInput [f] s).
  assert (Hs1 : exec (onChange page [f]) s0 = queued (refreshed page (pushed page [f] s0))).
  { unfold exec, onChange. rewrite handleFiles_eq. cbv zeta.
    change (incoming_of (Some (map Some [f]))) with [f].
    cbn [length Nat.eqb].
    destruct (_ <? _)%nat eqn:Hc.
    { exfalso. apply Hfit. left. apply Nat.ltb_lt in Hc. exact Hc. }
    destruct (_ <? _)%N eqn:Hb.
    { exfalso. apply Hfit. right. apply N.ltb_lt in Hb. exact Hb. }
    reflexivity. }
  set (s1 := queued (refreshed page (pushed page [f] s0))) in *.
  assert (Hstore1 : selectedFiles (js s1) = selectedFiles (js s) ++ [new]).
  { unfold s1. rewrite queued_store.
    destruct (refreshed_parts page (pushed page [f] s0)) as (-> & _). reflexivity. }
  assert (Hurls1 : objectURLs (env s1) = {[next_url (env s)]} ∪ ∅ ∪ objectURLs (env s)).
  { unfold s1. rewrite queued_urls, refreshed_env. reflexivity. }
  assert (Hstrip1 : strip (doc s1) = thumbnails (selectedFiles (js s) ++ [new])).
  { unfold s1. rewrite queued_doc.
    destruct (refreshed_parts page (pushed page [f] s0)) as (_ & _ & -> & _). reflexivity. }
  assert (Hstep1 : step page s (Change [f]) = Some s1).
  { cbn [step]. fold s0. rewrite Hs1. reflexivity. }
  assert (Htm1 : timers_ok s1) by exact (step_timers_ok page s _ s1 Hstep1 Htm).
  assert (Hfind : list_find (fun entry => entry_id entry = uuids page (id_calls (env s)))
                    (selectedFiles (js s1))
                  = Some (length (selectedFiles (js s)), new)).
  { rewrite Hstore1, list_find_app_r by (apply next_id_fresh; assumption).
    cbn [list_find]. rewrite decide_True by reflexivity. reflexivity. }
  destruct (removeFile_found page _ s1 _ new Hfind Htm1) as (H1 & H2 & H3 & H4 & _).
  rewrite Hstore1, delete_middle, app_nil_r in H1, H4.
  exists s1, (exec (removeFile page (uuids page (id_calls (env s)))) s1).
  split; [exact Hstep1|]. split.
  { cbn [step]. rewrite Hstrip1, thumbnails_ids, bool_decide_eq_true_2; [reflexivity|].
    rewrite map_app. apply elem_of_app. right. apply list_elem_of_here. }
  split; [exact Hstore1|]. split; [exact H1|]. split.
  { rewrite H2, Hurls1. cbn [previewUrl new].
    apply set_eq. intros h.
    rewrite elem_of_difference, !elem_of_union, elem_of_singleton, elem_of_empty.
    split; [intros [[[?|[]]|?] ?]; [contradiction | assumption]|].
    intros Hh. split; [auto|]. intros ->.
    apply (ok_urls _ _ Hst) in Hh. lia. }
  split; [|exact H3].
  rewrite H4. symmetry. apply (strip_mirrors _ _ Hview).
Qed.

Lemma add_then_remove_restores_witness :
  exists s s1 s2,
    run (sample_page true) (init (sample_page true))
      [Change [photo "a" 2; photo "b" 3]] = Some s
    /\ step (sample_page true) s (Change [photo "c" 1]) = Some s1
    /\ step (sample_page true) s1 (RemoveClick (lit "id2")) = Some s2
    /\ selectedFiles (js s2) = selectedFiles (js s)
    /\ objectURLs (env s2) = objectURLs (env s).
Proof.
  destruct (run (sample_page true) (init (sample_page true))
              [Change [photo "a" 2; photo "b" 3]]) as [s|] eqn:H;
    [|vm_compute in H; discriminate].
  assert (Hs := H). vm_compute in Hs. injection Hs as Hs.
  assert (Hfit : ~ exceeds_limits s [photo "c" 1]).
  { subst s. intros [Hc|Hb]; [vm_compute in Hc; lia | vm_compute in Hb; discriminate]. }
  assert (Hid : uuids (sample_page true) (id_calls (env s)) = lit "id2").
  { subst s. vm_compute. reflexivity. }
  destruct (add_then_remove_restores (sample_page true) _ s (photo "c" 1)
              (sample_uuids_inj true) H Hfit)
    as (s1 & s2 & A & B & _ & C & D & _).
  rewrite Hid in B.
  exists s, s1, s2. auto.
Defined.

(** ** The flag [analyzing] *)

(** X25.  While the flag [analyzing] is set, in a reachable state, the
    controller held is that of a request that is awaited, whose signal is
    not aborted and which carries between one and [MAX_FILES] photos. *)
Theorem reachable_analyzing_awaits_request page tr s :
  run page (init page) tr = Some s ->
  analyzing (js s) = true ->
  exists r q,
    analysisController (js s) = Some r
    /\ requests (env s) !! r = Some q
    /\ req_aborted q = false
    /\ request_ok page q
    /\ (r < next_request (env s))%nat.
Proof.
  intros Hrun Hflag.
  destruct (reachable_marker_ok page tr _ s Hrun (init_marker_ok page) Hflag)
    as (r & q & Hc & Hq & Hab).
  destruct (reachable_view_ok page tr s Hrun) as (_ & _ & Hview).
  exists r, q. split; [exact Hc|]. split; [exact Hq|]. split; [exact Hab|].
  split; [exact (requests_sized _ _ Hview r q Hq)|].
  apply (reachable_requests_fresh page tr _ s Hrun) with (q := q); [|exact Hq].
  intros r0 q0. rewrite init_requests. discriminate.
Qed.

Lemma reachable_analyzing_awaits_request_witness :
  exists s r q,
    run (sample_page true) (init (sample_page true))
      [Change [photo "a" 2; photo "b" 3]; Tick 350; TimerFires 1] = Some s
    /\ analysisController (js s) = Some r
    /\ requests (env s) !! r = Some q
    /\ req_aborted q = false.
Proof.
  destruct (run (sample_page true) (init (sample_page true))
              [Change [photo "a" 2; photo "b" 3]; Tick 350; TimerFires 1]) as [s|] eqn:H;
    [|vm_compute in H; discriminate].
  assert (Hs := H). vm_compute in Hs. injection Hs as Hs.
  assert (Hflag : analyzing (js s) = true) by (subst s; reflexivity).
  destruct (reachable_analyzing_awaits_request (sample_page true) _ s H Hflag)
    as (r & q & A & B & C & _).
  exists s, r, q. auto.
Defined.


(** ** What follows from a change of the store *)

Lemma incoming_of_files files : incoming_of (Some (map Some files)) = files.
Proof.
  unfold incoming_of. cbn [default]. induction files as [|f r IH]; [reflexivity|].
  cbn. cbn in IH. rewrite IH. reflexivity.
Qed.

(** The four ways the store changes. *)
Lemma store_change_cases page s e s' :
  step page s e = Some s' ->
  selectedFiles (js s') <> selectedFiles (js s) ->
  (exists files, e = Change files
     /\ s' = queued (refreshed page (pushed page files (set_fileInput files s))))
  \/ (exists id index removed, e = RemoveClick id
        /\ list_find (fun entry => entry_id entry = id) (selectedFiles (js s))
           = Some (index, removed)
        /\ s' = exec (removeFile page id) s)
  \/ (e = ClearClick
      /\ s' = set_status (lit "Photos cleared. Add new photos to try again.")
                (Some (lit "info"))
                (refreshed page (set_selectedFiles [] (revoked_all (cancelled s)))))
  \/ (e = Reset /\ s' = exec (onReset page) s).
Proof.
  intros Hstep Hne. destruct e; cbn [step] in Hstep.
  - left. exists files. split; [reflexivity|].
    injection Hstep as <-. unfold exec, onChange in *.
    rewrite handleFiles_eq in *. cbv zeta in *.
    rewrite incoming_of_files in *.
    destruct (Nat.eqb _ 0); [exfalso; apply Hne; reflexivity|].
    destruct (_ <? _)%nat.
    { rewrite showStatus_str in Hne. exfalso; apply Hne; reflexivity. }
    destruct (_ <? _)%N.
    { rewrite showStatus_str in Hne. exfalso; apply Hne; reflexivity. }
    reflexivity.
  - right. left. destruct (bool_decide _); [|discriminate]. injection Hstep as <-.
    destruct (list_find (fun entry => entry_id entry = id) (selectedFiles (js s)))
      as [[index removed]|] eqn:Hfind.
    + exists id, index, removed. auto.
    + exfalso. apply Hne. unfold exec. rewrite removeFile_eq, Hfind. reflexivity.
  - right. right. left. destruct (clearButton (doc s)); [|discriminate].
    injection Hstep as <-. unfold exec. rewrite onClearClick_eq. auto.
  - destruct (hasTrigger page); [|discriminate]. injection Hstep as <-.
    exfalso; apply Hne. unfold exec. rewrite onTriggerClick_eq.
    destruct (analyzing (js s)); reflexivity.
  - injection Hstep as <-. exfalso; apply Hne. unfold exec. rewrite onSubmit_eq.
    cbn [snd]. unfold synced. destruct (negb _), (hasDataTransfer page); reflexivity.
  - right. right. right. injection Hstep as <-. auto.
  - injection Hstep as <-. exfalso; apply Hne. reflexivity.
  - destruct (timers (env s) !! t); [|discriminate].
    destruct (_ <=? _); [|discriminate]. injection Hstep as <-.
    exfalso; apply Hne. unfold exec. rewrite runAnalysis_eq.
    destruct (Nat.eqb _ 0); [reflexivity|]. cbn [snd].
    unfold sent. cbn. rewrite abort_held_js, cancelled_store. reflexivity.
  - exfalso; apply Hne. apply (settle_schedule page r a s s' Hstep).
Qed.

(** X26.  Whenever an event changes the store, the native file input follows
    where [window.DataTransfer] exists: it holds the files of the store,
    in order.  A reset is the exception, which the script leaves to the
    browser.  Where [DataTransfer] does not exist the input keeps what it
    held: after a change of the input, the files that were last chosen. *)
Theorem store_change_syncs_input page s e s' :
  step page s e = Some s' ->
  selectedFiles (js s') <> selectedFiles (js s) ->
  fileInput (doc s')
  = match e with
    | Reset => fileInput (doc s)
    | Change files =>
        if hasDataTransfer page then map file (selectedFiles (js s')) else files
    | _ =>
        if hasDataTransfer page then map file (selectedFiles (js s'))
        else fileInput (doc s)
    end.
Proof.
  intros Hstep Hne.
  destruct (store_change_cases page s e s' Hstep Hne)
    as [(files & -> & ->)|[(id & index & removed & -> & Hfind & ->)|[(-> & ->)|(-> & ->)]]].
  - rewrite queued_doc, queued_store.
    destruct (refreshed_doc page (pushed page files (set_fileInput files s)))
      as (_ & _ & _ & _ & ->).
    destruct (refreshed_parts page (pushed page files (set_fileInput files s))) as (-> & _).
    reflexivity.
  - unfold exec. rewrite removeFile_eq, Hfind. cbv zeta.
    destruct (refreshed_doc page (spliced index removed s)) as (_ & _ & _ & _ & Hf).
    destruct (refreshed_parts page (spliced index removed s)) as (Hs & _).
    destruct (negb _); cbn [snd].
    + rewrite queued_doc, queued_store, Hf, Hs. reflexivity.
    + cbn [doc set_status upd_doc fileInput].
      change (selectedFiles (js (set_status ?a ?b ?y))) with (selectedFiles (js y)).
      rewrite cancelled_doc, cancelled_store, Hf, Hs. reflexivity.
  - cbn [doc set_status upd_doc fileInput].
    change (selectedFiles (js (set_status ?a ?b ?y))) with (selectedFiles (js y)).
    destruct (refreshed_doc page (set_selectedFiles [] (revoked_all (cancelled s))))
      as (_ & _ & _ & _ & ->).
    destruct (refreshed_parts page (set_selectedFiles [] (revoked_all (cancelled s))))
      as (-> & _).
    cbn [set_selectedFiles upd_js js selectedFiles doc revoked_all set_objectURLs upd_env].
    rewrite cancelled_doc. reflexivity.
  - unfold exec. rewrite onReset_eq. cbn [snd].
    unfold button_updated. cbn [doc set_status upd_doc set_sessionInput clearButton].
    destruct (clearButton _); cbn; rewrite cancelled_doc; reflexivity.
Qed.

Lemma store_change_syncs_input_witness :
  exists s s',
    run (sample_page false) (init (sample_page false))
      [Change [photo "a" 2; photo "b" 3]] = Some s
    /\ step (sample_page false) s (Change [photo "c" 1]) = Some s'
    /\ fileInput (doc s') = [photo "c" 1].
Proof.
  destruct (run (sample_page false) (init (sample_page false))
              [Change [photo "a" 2; photo "b" 3]]) as [s|] eqn:H;
    [|vm_compute in H; discriminate].
  assert (Hs := H). vm_compute in Hs. injection Hs as Hs.
  destruct (step (sample_page false) s (Change [photo "c" 1])) as [s'|] eqn:H';
    [|subst s; vm_compute in H'; discriminate].
  exists s, s'. split; [reflexivity|]. split; [exact H'|].
  apply (store_change_syncs_input (sample_page false) s _ s' H').
  subst s. vm_compute in H'. injection H' as <-. vm_compute. discriminate.
Defined.

(** X27.  Whenever an event changes the store, the debounce follows: when
    photos are left, exactly one timer is pending, a new one, due 350 ms
    later, and [analysisTimeout] names it; when the store is empty, no
    timer is pending and [analysisTimeout] is [null]. *)
Theorem store_change_schedules_analysis page s e s' :
  step page s e = Some s' ->
  timers_ok s ->
  selectedFiles (js s') <> selectedFiles (js s) ->
  (selectedFiles (js s') <> [] ->
     timers (env s') = {[ next_timer (env s) := now (env s) + 350 ]}
     /\ analysisTimeout (js s') = Some (next_timer (env s)))
  /\ (selectedFiles (js s') = [] ->
     timers (env s') = ∅ /\ analysisTimeout (js s') = None).
Proof.
  intros Hstep Hok Hne.
  destruct (store_change_cases page s e s' Hstep Hne)
    as [(files & -> & ->)|[(id & index & removed & -> & Hfind & ->)|[(-> & ->)|(-> & ->)]]].
  - set (x := refreshed page (pushed page files (set_fileInput files s))) in *.
    assert (Htv : tview x = tview s).
    { unfold x. rewrite tview_refreshed. reflexivity. }
    assert (Hnow : now (env x) = now (env s)).
    { unfold x. rewrite refreshed_env. reflexivity. }
    pose proof (timers_ok_tview _ _ Htv Hok) as Hokx.
    split.
    + intros _. rewrite (queued_timers _ Hokx), Hnow.
      unfold tview in Htv. injection Htv as _ _ Hnt.
      change (analysisTimeout (js (queued x))) with (Some (next_timer (env x))).
      rewrite Hnt. auto.
    + intros Hemp. exfalso. apply Hne. rewrite Hemp.
      rewrite queued_store in Hemp. unfold x in Hemp.
      destruct (refreshed_parts page (pushed page files (set_fileInput files s)))
        as (Hs & _).
      rewrite Hs in Hemp. cbn in Hemp. apply app_eq_nil in Hemp as [-> _]. reflexivity.
  - destruct (removeFile_found page id s index removed Hfind Hok)
      as (H1 & _ & _ & _ & _ & H6 & H7).
    rewrite H1. split.
    + intros Hr. destruct (H6 Hr) as (A & B & _). auto.
    + intros Hr. destruct (H7 Hr) as (A & B & _). auto.
  - split; [intros Hr; exfalso; apply Hr; cbn; rewrite refreshed_js; reflexivity|].
    intros _.
    change (env (set_status ?a ?b ?y)) with (env y).
    change (analysisTimeout (js (set_status ?a ?b ?y))) with (analysisTimeout (js y)).
    rewrite refreshed_env, refreshed_js.
    change (timers (env (set_selectedFiles [] (revoked_all ?y)))) with (timers (env y)).
    change (analysisTimeout (js (set_selectedFiles [] (revoked_all ?y))))
      with (analysisTimeout (js y)).
    split; [|apply cancelled_timeout].
    apply timers_empty. intros t. apply cancelled_timers_empty, Hok.
  - unfold exec. rewrite onReset_eq. cbn [snd].
    assert (Hte : timers (env (cancelled s)) = ∅).
    { apply timers_empty. intros t. apply cancelled_timers_empty, Hok. }
    pose proof (cancelled_timeout s) as Hto.
    unfold button_updated. cbn [doc set_status upd_doc set_sessionInput clearButton].
    destruct (clearButton _); (split; [intros Hr; exfalso; apply Hr; reflexivity|]);
      intros _; split; first [exact Hte | exact Hto].
Qed.

Lemma store_change_schedules_analysis_witness :
  exists s s',
    run (sample_page true) (init (sample_page true))
      [Change [photo "a" 2; photo "b" 3]; Tick 100] = Some s
    /\ step (sample_page true) s (Change [photo "c" 1]) = Some s'
    /\ timers (env s') = {[ next_timer (env s) := now (env s) + 350 ]}.
Proof.
  destruct (run (sample_page true) (init (sample_page true))
              [Change [photo "a" 2; photo "b" 3]; Tick 100]) as [s|] eqn:H;
    [|vm_compute in H; discriminate].
  assert (Hs := H). vm_compute in Hs. injection Hs as Hs.
  destruct (step (sample_page true) s (Change [photo "c" 1])) as [s'|] eqn:H';
    [|subst s; vm_compute in H'; discriminate].
  assert (Hok : timers_ok s).
  { exact (reachable_timers_ok (sample_page true) _ _ s H (init_timers_ok _)). }
  assert (Hch : selectedFiles (js s') <> selectedFiles (js s)
                /\ selectedFiles (js s') <> []).
  { subst s. vm_compute in H'. injection H' as <-. split; vm_compute; discriminate. }
  exists s, s'. split; [reflexivity|]. split; [exact H'|].
  apply (store_change_schedules_analysis (sample_page true) s _ s' H' Hok (proj1 Hch)).
  exact (proj2 Hch).
Defined.

(** ** What a request carries *)

(** A request that is awaited after an event is the one the event sent,
    or was awaited before with the same url and photos. *)
Lemma step_requests_origin page s e s' r q :
  step page s e = Some s' ->
  requests (env s') !! r = Some q ->
  r = next_request (env s)
  \/ exists q0, requests (env s) !! r = Some q0
                /\ req_url q = req_url q0 /\ req_photos q = req_photos q0.
Proof.
  intros Hstep Hq.
  pose proof (listener_requests page s e s' Hstep) as Hl.
  destruct e; try (right; rewrite Hl in Hq; exists q; auto).
  - cbn [step] in Hstep.
    destruct (timers (env s) !! t); [|discriminate].
    destruct (_ <=? _); [|discriminate]. injection Hstep as <-.
    unfold exec in Hq. rewrite runAnalysis_eq in Hq.
    destruct (Nat.eqb _ 0); cbn [snd] in Hq; [right; exists q; auto|].
    assert (Hr : next_request (env (abort_held (cancelled (fired t s))))
                 = next_request (env s)).
    { destruct (abort_held_rest (cancelled (fired t s))) as (_ & _ & -> & _).
      destruct (cancelled_env_rest (fired t s)) as (_ & -> & _). reflexivity. }
    fold (fired t s) in Hq.
    remember (abort_held (cancelled (fired t s))) as x eqn:Hx.
    cbn in Hq. rewrite Hr in Hq.
    destruct (decide (r = next_request (env s))) as [->|Hne]; [left; reflexivity|].
    right. rewrite lookup_insert_ne in Hq by congruence.
    subst x. apply abort_held_requests in Hq as (q0 & Hq0 & Hu & Hp).
    rewrite cancelled_requests in Hq0. exists q0. auto.
  - right. cbn [step] in Hstep.
    exact (proj2 (proj2 (proj2 (settle_view page r0 a s s' Hstep))) r q Hq).
Qed.

Lemma step_next_request page s e s' :
  step page s e = Some s' -> (next_request (env s) <= next_request (env s'))%nat.
Proof.
  intros Hstep. pose proof (step_schedule page s e s' Hstep) as Hs.
  destruct e; try (destruct Hs as (_ & -> & _); lia).
  - subst s'. cbn. lia.
  - destruct Hs as (due & _ & _ & _ & _ & [[_ ->]|(_ & _ & -> & _)]); cbn; lia.
Qed.

Lemma run_requests_origin page tr : forall s s' r q',
  run page s tr = Some s' ->
  (forall r0 q0, requests (env s) !! r0 = Some q0 -> (r0 < next_request (env s))%nat) ->
  (r < next_request (env s))%nat ->
  requests (env s') !! r = Some q' ->
  exists q0, requests (env s) !! r = Some q0
             /\ req_url q' = req_url q0 /\ req_photos q' = req_photos q0.
Proof.
  induction tr as [|e rest IH]; intros s s' r q' Hrun Hfresh Hr Hq'; cbn [run] in Hrun.
  - injection Hrun as <-. exists q'. auto.
  - destruct (step page s e) as [s1|] eqn:Hstep; [|discriminate].
    pose proof (step_next_request page s e s1 Hstep) as Hle.
    destruct (IH s1 s' r q' Hrun (step_requests_fresh page s e s1 Hstep Hfresh)
                ltac:(lia) Hq') as (q1 & Hq1 & Hu1 & Hp1).
    destruct (step_requests_origin page s e s1 r q1 Hstep Hq1)
      as [->|(q0 & Hq0 & Hu0 & Hp0)]; [lia|].
    exists q0. split; [exact Hq0|]. split; congruence.
Qed.

(** X28.  A request carries the photos that were in the store when it was sent:
    as long as it is awaited, whatever is added, removed or cleared
    afterwards and whatever other requests are sent or aborted, its url
    and its photos are the same. *)
Theorem request_keeps_its_photos page tr0 s tr s' r q q' :
  run page (init page) tr0 = Some s ->
  run page s tr = Some s' ->
  requests (env s) !! r = Some q ->
  requests (env s') !! r = Some q' ->
  req_photos q' = req_photos q /\ req_url q' = req_url q.
Proof.
  intros Hrun0 Hrun Hq Hq'.
  assert (Hfresh : forall r0 q0, requests (env s) !! r0 = Some q0 ->
                                 (r0 < next_request (env s))%nat).
  { apply (reachable_requests_fresh page tr0 _ s Hrun0).
    intros r0 q0. rewrite init_requests. discriminate. }
  destruct (run_requests_origin page tr s s' r q' Hrun Hfresh (Hfresh r q Hq) Hq')
    as (q0 & Hq0 & Hu & Hp).
  rewrite Hq in Hq0. injection Hq0 as <-. auto.
Qed.

Lemma request_keeps_its_photos_witness :
  exists s s' q q',
    run (sample_page true) (init (sample_page true))
      [Change [photo "a" 2; photo "b" 3]; Tick 350; TimerFires 1] = Some s
    /\ run (sample_page true) s
         [RemoveClick (lit "id0"); Tick 350; TimerFires 2;
          Change [photo "c" 1]] = Some s'
    /\ requests (env s) !! 0%nat = Some q
    /\ requests (env s') !! 0%nat = Some q'
    /\ req_photos q' = req_photos q.
Proof.
  destruct (run (sample_page true) (init (sample_page true))
              [Change [photo "a" 2; photo "b" 3]; Tick 350; TimerFires 1]) as [s|] eqn:H;
    [|vm_compute in H; discriminate].
  assert (Hs := H). vm_compute in Hs. injection Hs as Hs.
  destruct (run (sample_page true) s
              [RemoveClick (lit "id0"); Tick 350; TimerFires 2;
               Change [photo "c" 1]]) as [s'|] eqn:H';
    [|subst s; vm_compute in H'; discriminate].
  assert (Hs' := H'). rewrite <- Hs in Hs'. vm_compute in Hs'. injection Hs' as Hs'.
  destruct (requests (env s) !! 0%nat) as [q|] eqn:Hq;
    [|subst s; vm_compute in Hq; discriminate].
  destruct (requests (env s') !! 0%nat) as [q'|] eqn:Hq';
    [|subst s'; vm_compute in Hq'; discriminate].
  exists s, s', q, q'. split; [reflexivity|]. split; [exact H'|].
  split; [exact Hq|]. split; [exact Hq'|].
  apply (request_keeps_its_photos (sample_page true) _ s _ s' 0 q q' H H' Hq Hq').
Defined.


(** ** The store, counted on the files themselves *)

Lemma ids_generated_pushed page incoming s :
  (forall i j, uuids page i = uuids page j -> i = j) ->
  ids_generated page s ->
  NoDup (map entry_id
           (selectedFiles (js s)
            ++ new_entries page (id_calls (env s)) (next_url (env s)) incoming)).
Proof.
  intros Hinj (ks & Hks & Hnd & Hlt).
  rewrite map_app, Hks, new_entries_id, <- map_app.
  apply NoDup_map_inj; [exact Hinj|].
  apply NoDup_app. split; [exact Hnd|]. split; [|apply NoDup_seq].
  intros k Hk Hk'. rewrite Forall_forall in Hlt. apply Hlt in Hk.
  apply elem_of_seq in Hk'. lia.
Qed.

(** C4, as amended.  From a store within the limits, [handleFiles] either
    rejects or appends.  When the store with the incoming files would be
    more than 10 photos or more than 25 MiB, counted on the files
    themselves, nothing changes but the status line, which shows an error:
    no entry is added, no id generated, no object URL created.  Otherwise
    the store is extended by one entry per incoming file, in input order,
    the i-th with the result of the i-th new call of [generateId] and the
    i-th new object URL, which is live now and was not live before; the
    store stays within the limits.  The ids of the store are pairwise
    distinct provided the generator never gives the same id twice. *)
Theorem handleFiles_add page s fileList :
  let stored := map file (selectedFiles (js s)) in
  let incoming := incoming_of fileList in
  let s' := exec (handleFiles page fileList) s in
  let added := new_entries page (id_calls (env s)) (next_url (env s)) incoming in
  ~ over_limits stored [] ->
  (over_limits stored incoming ->
     js s' = js s /\ env s' = env s
     /\ statusTone (doc s') = Some (lit "error")
     /\ sessionInput (doc s') = sessionInput (doc s)
     /\ fileInput (doc s') = fileInput (doc s)
     /\ strip (doc s') = strip (doc s))
  /\ (~ over_limits stored incoming ->
     selectedFiles (js s') = selectedFiles (js s) ++ added
     /\ map file added = incoming
     /\ map entry_id added = map (uuids page) (seq (id_calls (env s)) (length incoming))
     /\ id_calls (env s') = (id_calls (env s) + length incoming)%nat
     /\ NoDup (map previewUrl added)
     /\ (forall e, e ∈ added -> previewUrl e ∈ objectURLs (env s'))
     /\ (urls_handed_out s -> forall e, e ∈ added -> previewUrl e ∉ objectURLs (env s))
     /\ ~ over_limits (map file (selectedFiles (js s'))) []
     /\ ((forall i j, uuids page i = uuids page j -> i = j) ->
         ids_generated page s ->
         NoDup (map entry_id (selectedFiles (js s'))))).
Proof.
  intros stored incoming s' added Hin. subst s'. unfold exec. rewrite handleFiles_eq.
  cbv zeta. fold incoming.
  assert (Hfacts : map file added = incoming
           /\ map entry_id added = map (uuids page) (seq (id_calls (env s)) (length incoming))
           /\ NoDup (map previewUrl added)).
  { split; [apply new_entries_file|]. split; [apply new_entries_id|apply new_entries_url_NoDup]. }
  destruct Hfacts as (Hf & Hi & Hn).
  destruct (Nat.eqb (length incoming) 0) eqn:Hlen.
  { apply Nat.eqb_eq in Hlen. apply length_zero_iff_nil in Hlen.
    assert (Ha : added = []) by (unfold added; rewrite Hlen; reflexivity).
    cbn [snd]. rewrite Hlen. split; [intros Hx; contradiction|].
    intros _. rewrite Ha, app_nil_r. cbn [length seq map].
    split; [reflexivity|]. split; [reflexivity|]. split; [reflexivity|].
    split; [lia|]. split; [constructor|].
    split; [intros e He; inversion He|].
    split; [intros _ e He; inversion He|].
    split; [exact Hin|].
    intros Hinj Hgen. pose proof (ids_generated_pushed page [] s Hinj Hgen) as Hnd.
    cbn [new_entries] in Hnd. rewrite app_nil_r in Hnd. exact Hnd. }
  destruct (MAX_FILES <? _)%nat eqn:Hcount.
  { rewrite showStatus_str. cbn [snd]. split.
    - intros _. repeat split; reflexivity.
    - intros Hex. exfalso. apply Hex, limits_agree. left. apply Nat.ltb_lt in Hcount.
      exact Hcount. }
  destruct (MAX_TOTAL_BYTES <? _) eqn:Hbytes.
  { rewrite showStatus_str. cbn [snd]. split.
    - intros _. repeat split; reflexivity.
    - intros Hex. exfalso. apply Hex, limits_agree. right. apply N.ltb_lt in Hbytes.
      exact Hbytes. }
  cbn [snd]. apply Nat.ltb_ge in Hcount. apply N.ltb_ge in Hbytes.
  split.
  - intros Hx. apply limits_agree in Hx. destruct Hx as [Hx|Hx]; exfalso; lia.
  - intros Hex.
    rewrite queued_store, refreshed_js.
    change (selectedFiles (js (pushed page incoming s)))
      with (selectedFiles (js s) ++ added).
    split; [reflexivity|]. split; [exact Hf|]. split; [exact Hi|].
    split; [cbn; rewrite refreshed_env; reflexivity|]. split; [exact Hn|].
    split.
    { intros e He. apply new_entries_url in He.
      cbn. rewrite refreshed_env. cbn. apply elem_of_union_l. exact He. }
    split.
    { intros Hu e He. apply new_entries_url in He. apply elem_of_handles in He.
      intros Hlive. apply Hu in Hlive. lia. }
    split.
    { intros [Hx|Hx].
      - rewrite length_map, length_app in Hx. unfold added in Hx.
        rewrite new_entries_length in Hx. unfold MAX_FILES in Hcount. cbn [length] in Hx. lia.
      - rewrite map_app, Hf in Hx. fold stored in Hx.
        apply Hex. right. cbn [total_size] in Hx.
        assert (Happ : forall a b, total_size (a ++ b) = total_size a + total_size b).
        { induction a as [|x a IH]; intros b; cbn [app total_size]; [lia|]. rewrite IH. lia. }
        rewrite Happ in Hx. lia. }
    intros Hinj Hgen. exact (ids_generated_pushed page incoming s Hinj Hgen).
Qed.

(** Two photos added to the empty store of the sample page. *)
Lemma handleFiles_add_witness :
  map entry_id
    (selectedFiles
       (js (exec (handleFiles (sample_page true)
                    (Some [Some (photo "a" 2); Some (photo "b" 3)]))
                 (init (sample_page true)))))
  = [lit "id0"; lit "id1"].
Proof.
  assert (Hin : ~ over_limits (map file (selectedFiles (js (init (sample_page true))))) []).
  { intros [Hx|Hx]; vm_compute in Hx; [lia | discriminate]. }
  destruct (handleFiles_add (sample_page true) (init (sample_page true))
              (Some [Some (photo "a" 2); Some (photo "b" 3)]) Hin) as [_ H].
  assert (Hfit : ~ over_limits (map file (selectedFiles (js (init (sample_page true)))))
                   (incoming_of (Some [Some (photo "a" 2); Some (photo "b" 3)]))).
  { intros [Hx|Hx]; vm_compute in Hx; [lia | discriminate]. }
  destruct (H Hfit) as (Hs & _ & Hids & _).
  rewrite Hs, map_app, Hids. vm_compute. reflexivity.
Defined.

(** With a generator that repeats, two photos chosen together get the same
    id; a click on the Remove button of the second then removes the
    first. *)
Lemma handleFiles_repeated_id :
  exists s s',
    step repeating_page (init repeating_page)
      (Change [photo "a" 2; photo "b" 3]) = Some s
    /\ map entry_id (selectedFiles (js s))
       = [lit "19a2b3c4d5e-8f3a1c"; lit "19a2b3c4d5e-8f3a1c"]
    /\ ~ NoDup (map entry_id (selectedFiles (js s)))
    /\ map thumb_id (strip (doc s)) !! 1%nat = Some (lit "19a2b3c4d5e-8f3a1c")
    /\ step repeating_page s (RemoveClick (lit "19a2b3c4d5e-8f3a1c")) = Some s'
    /\ map file (selectedFiles (js s')) = [photo "b" 3].
Proof.
  eexists. eexists.
  split; [vm_compute; reflexivity|].
  split; [vm_compute; reflexivity|].
  split.
  { intros Hnd. apply NoDup_cons in Hnd as [Hnot _]. apply Hnot. apply list_elem_of_here. }
  split; [vm_compute; reflexivity|].
  split; vm_compute; reflexivity.
Qed.

(** C5.  Each mutation of the store unbinds the session token within the
    step of its own handler, whatever the token and the store were.  A
    change of the file input with files that fit appends them and leaves
    the session field empty; a click on the Remove button of an entry of
    the store removes that entry and leaves the field empty; a click on
    the clear button empties the store and the field, also when the store
    was empty already; so does a reset.  And no step of the page changes
    the store in any other way that would keep a token: whenever a step
    changes the store, the field is empty after it.  A token can only be
    bound again by a later step. *)
Theorem store_mutation_clears_session page s :
  (forall files,
     files <> [] -> ~ over_limits (map file (selectedFiles (js s))) files ->
     exists s', step page s (Change files) = Some s'
       /\ map file (selectedFiles (js s')) = map file (selectedFiles (js s)) ++ files
       /\ sessionInput (doc s') = [])
  /\ (forall id,
        id ∈ map entry_id (selectedFiles (js s)) ->
        id ∈ map thumb_id (strip (doc s)) ->
        exists s' l1 removed l2,
          step page s (RemoveClick id) = Some s'
          /\ selectedFiles (js s) = l1 ++ removed :: l2
          /\ entry_id removed = id
          /\ selectedFiles (js s') = l1 ++ l2
          /\ sessionInput (doc s') = [])
  /\ (clearButton (doc s) <> None ->
        exists s', step page s ClearClick = Some s'
          /\ selectedFiles (js s') = []
          /\ sessionInput (doc s') = [])
  /\ (exists s', step page s Reset = Some s'
        /\ selectedFiles (js s') = []
        /\ sessionInput (doc s') = [])
  /\ (forall e s',
        step page s e = Some s' ->
        selectedFiles (js s') <> selectedFiles (js s) ->
        sessionInput (doc s') = []).
Proof.
  split; [|split; [|split; [|split]]].
  - intros files Hne Hfit. eexists. split; [reflexivity|].
    unfold exec, onChange. rewrite handleFiles_eq, incoming_of_files. cbv zeta.
    destruct (Nat.eqb (length files) 0) eqn:Hlen.
    { apply Nat.eqb_eq, length_zero_iff_nil in Hlen. contradiction. }
    assert (Hnot : ~ exceeds_limits (set_fileInput files s) files).
    { intros Hx. apply Hfit. apply (limits_agree (set_fileInput files s)). exact Hx. }
    destruct (_ <? _)%nat eqn:Hc.
    { exfalso. apply Hnot. left. apply Nat.ltb_lt in Hc. exact Hc. }
    destruct (_ <? _)%N eqn:Hb.
    { exfalso. apply Hnot. right. apply N.ltb_lt in Hb. exact Hb. }
    cbn [snd]. rewrite queued_store, queued_doc.
    destruct (refreshed_doc page (pushed page files (set_fileInput files s))) as (-> & _).
    destruct (refreshed_parts page (pushed page files (set_fileInput files s))) as (-> & _).
    split; [|reflexivity].
    cbn [pushed set_selectedFiles upd_js js selectedFiles].
    rewrite map_app, new_entries_file. reflexivity.
  - intros id Hid Hstrip.
    apply list_elem_of_fmap in Hid as (e & He & Hin).
    destruct (list_find (fun entry => entry_id entry = id) (selectedFiles (js s)))
      as [[index removed]|] eqn:Hfind.
    2:{ exfalso. apply list_find_None in Hfind.
        rewrite Forall_forall in Hfind. apply (Hfind e); [exact Hin | congruence]. }
    destruct (find_first_match id _ index removed Hfind) as (l1 & l2 & Hl & Hrem & _ & Hdel).
    exists (exec (removeFile page id) s), l1, removed, l2.
    split; [cbn [step]; rewrite bool_decide_eq_true_2 by exact Hstrip; reflexivity|].
    split; [exact Hl|]. split; [exact Hrem|].
    unfold exec. rewrite removeFile_eq, Hfind. cbv zeta.
    destruct (refreshed_doc page (spliced index removed s)) as (Hd & _).
    destruct (refreshed_parts page (spliced index removed s)) as (Hp & _).
    destruct (negb _); cbn [snd].
    + rewrite queued_store, queued_doc, Hp, Hd. split; [exact Hdel | reflexivity].
    + change (selectedFiles (js (set_status ?a ?b ?y))) with (selectedFiles (js y)).
      cbn [doc set_status upd_doc sessionInput].
      rewrite cancelled_store, cancelled_doc, Hp, Hd. split; [exact Hdel | reflexivity].
  - intros Hbtn. eexists. split.
    { cbn [step]. destruct (clearButton (doc s)); [reflexivity | congruence]. }
    unfold exec. rewrite onClearClick_eq. cbn [snd].
    change (selectedFiles (js (set_status ?a ?b ?y))) with (selectedFiles (js y)).
    cbn [doc set_status upd_doc sessionInput].
    destruct (refreshed_doc page (set_selectedFiles [] (revoked_all (cancelled s))))
      as (-> & _).
    rewrite refreshed_js. split; reflexivity.
  - eexists. split; [reflexivity|].
    unfold exec. rewrite onReset_eq. cbn [snd].
    unfold button_updated. cbn [doc set_status upd_doc set_sessionInput clearButton].
    destruct (clearButton _); split; reflexivity.
  - intros e s'. apply store_change_clears_session.
Qed.

(** A token is bound and photos are selected: a click on the clear button
    empties both. *)
Lemma store_mutation_clears_session_witness :
  exists s s',
    run (sample_page true) (init (sample_page true))
      [Change [photo "a" 2; photo "b" 3]; Tick 350; TimerFires 1;
       Settles 0 (FetchFulfilled true);
       Settles 0 (JsonSettled (Some (body_ok "abc" "SN1")))] = Some s
    /\ sessionInput (doc s) = lit "abc"
    /\ step (sample_page true) s ClearClick = Some s'
    /\ selectedFiles (js s') = []
    /\ sessionInput (doc s') = [].
Proof.
  destruct (run (sample_page true) (init (sample_page true))
              [Change [photo "a" 2; photo "b" 3]; Tick 350; TimerFires 1;
               Settles 0 (FetchFulfilled true);
               Settles 0 (JsonSettled (Some (body_ok "abc" "SN1")))]) as [s|] eqn:H;
    [|vm_compute in H; discriminate].
  assert (Hs := H). vm_compute in Hs. injection Hs as Hs.
  destruct (store_mutation_clears_session (sample_page true) s) as (_ & _ & Hclear & _).
  assert (Hbtn : clearButton (doc s) <> None) by (subst s; discriminate).
  destruct (Hclear Hbtn) as (s' & Hstep & Hstore & Htok).
  exists s, s'. split; [reflexivity|].
  split; [subst s; reflexivity|]. auto.
Defined.
